(** * WhatsApp-to-SIP voice gateway: signaling and media relay

    A shallow embedding of the gateway's key extractor
    ([media/key-extractor]), STUN client ([media/stun-client]), media
    bridge ([media/bridge]) and call signaling ([whatsapp/client],
    [whatsapp/call-handler], [sip/call-bridge]), with the properties the
    specification states about them.

    Conventions.
    - A byte is a [Z] in [0, 256); a Node [Buffer] is a [list Z].
    - A JavaScript exception is the [Error] case of [result _ exn]; a
      [try { .. } catch] block is [try_catch].
    - Logging ([log.info], [fs.appendFileSync] inside its own [try]) has
      no effect on the program state and is left out; an expression that
      is evaluated only to build a log line is kept when it can throw.
    - Library code the repository calls (HMAC-SHA1, SRTP, the RTP
      parser) is a [Variable] of the section that uses it; what the
      signaling code calls outside the repository (the WhatsApp
      socket, the clock, the random source) is a field of
      [Signaling.Env]. *)

From Stdlib Require Import ZArith Lia Ascii String.
From stdpp Require Import gmap strings list fin_maps pretty.

Open Scope Z_scope.

(** ** Exceptions *)

Inductive exn : Type :=
| RangeError                (* ERR_OUT_OF_RANGE, ERR_BUFFER_OUT_OF_BOUNDS, bad port *)
| TypeError                 (* property access on undefined, bad argument type *)
| JsError (msg : string).   (* [new Error(msg)] and rejected promises *)

Definition bind {A B : Type} (m : result A exn) (k : A -> result B exn) : result B exn :=
  match m with
  | Ok a => k a
  | Error e => Error e
  end.

Notation "x <- m ;; k" := (bind m (fun x => k))
  (at level 100, m at next level, right associativity).

Definition returns {A : Type} (m : result A exn) : Prop :=
  exists a, m = Ok a.

Definition throws {A : Type} (m : result A exn) : Prop :=
  exists e, m = Error e.

(** ** Node buffers *)

Module Buffer.

Definition buffer : Type := list Z.

(** Every element is a byte. *)
Definition wf (b : buffer) : Prop := Forall (fun x => 0 <= x < 256) b.

(** [Buffer.alloc(n)] *)
Definition alloc (n : nat) : buffer := replicate n 0.

(** [Buffer.from(array)]: every element is stored [& 255]. *)
Definition from_array (data : list Z) : buffer := map (fun x => x mod 256) data.

(** [Buffer.from(string)]: a [string] is held as its UTF-8 bytes. *)
Definition from_string (s : string) : buffer :=
  map (fun c => Z.of_N (Ascii.N_of_ascii c)) (String.list_ascii_of_string s).

(** Overwrite [b] from offset [off] with [bs]; the caller has checked
    that [bs] fits. *)
Definition write_at (b : buffer) (off : nat) (bs : list Z) : buffer :=
  take off b ++ bs ++ drop (off + length bs) b.

(** [buf.readUInt16BE(off)] *)
Definition readUInt16BE (b : buffer) (off : nat) : result Z exn :=
  match b !! off, b !! S off with
  | Some hi, Some lo => Ok (hi * 256 + lo)
  | _, _ => Error RangeError
  end.

(** Big-endian bytes of an unsigned 16-bit and 32-bit value. *)
Definition be16 (v : Z) : buffer := [v / 256; v mod 256].
Definition be32 (v : Z) : buffer :=
  [v / 16777216; (v / 65536) mod 256; (v / 256) mod 256; v mod 256].

(** [buf.writeUInt16BE(v, off)] *)
Definition writeUInt16BE (v : Z) (off : nat) (b : buffer) : result buffer exn :=
  if decide (0 <= v <= 65535 /\ (off + 2 <= length b)%nat)
  then Ok (write_at b off (be16 v))
  else Error RangeError.

(** [buf.writeUInt32BE(v, off)] *)
Definition writeUInt32BE (v : Z) (off : nat) (b : buffer) : result buffer exn :=
  if decide (0 <= v <= 4294967295 /\ (off + 4 <= length b)%nat)
  then Ok (write_at b off (be32 v))
  else Error RangeError.

(** [src.copy(target, targetStart)]: copies as much of [src] as fits. *)
Definition copy (src target : buffer) (targetStart : nat) : buffer :=
  write_at target targetStart (take (length target - targetStart) src).

(** [buf.slice(from, to)] *)
Definition slice (b : buffer) (from to : nat) : buffer :=
  take (to - from) (drop from b).

End Buffer.

(** ** STUN client ([media/stun-client]) *)

Module Stun.

Import Buffer.

Definition STUN_MAGIC_COOKIE : Z := 0x2112A442.
Definition STUN_BINDING_REQUEST : Z := 0x0001.
Definition STUN_BINDING_RESPONSE : Z := 0x0101.

(** JavaScript's bitwise operators work on 32-bit integers; every
    value below is read back through [>>> 0], so the unsigned reading
    is kept throughout. *)
Definition u32 (x : Z) : Z := x mod 4294967296.

(** One round of the table loop:
    [c = (c & 1) ? (0xEDB88320 ^ (c >>> 1)) : (c >>> 1)]. *)
Definition crc_round (c : Z) : Z :=
  if decide (Z.land c 1 = 0)
  then Z.shiftr (u32 c) 1
  else u32 (Z.lxor 0xEDB88320 (Z.shiftr (u32 c) 1)).

Definition crc_entry (i : Z) : Z :=
  u32 (Nat.iter 8 crc_round i).

Definition CRC32_TABLE : list Z :=
  Eval vm_compute in map crc_entry (seqZ 0 256).

Definition crc_step (crc : Z) (b : Z) : Z :=
  u32 (Z.lxor (Z.shiftr (u32 crc) 8)
              (nth (Z.to_nat (Z.land (Z.lxor crc b) 0xFF)) CRC32_TABLE 0)).

Definition crc32 (buf : buffer) : Z :=
  u32 (Z.lxor (fold_left crc_step buf 0xFFFFFFFF) 0xFFFFFFFF).

(** [dgram.RemoteInfo] *)
Record RemoteInfo : Type := { address : string; port : Z }.

(** A relay target, as the bridge and the extractor hand it over. *)
Record Relay : Type := {
  ip : string;
  rport : Z;
  token : option buffer;
  username : option string;
  callCreator : option string
}.

(** What the client does to the outside. *)
Inductive effect : Type :=
| BindingSuccess (rinfo : RemoteInfo)           (* emit('binding-success', rinfo) *)
| Send (packet : buffer) (port : Z) (ip : string). (* socket.send(packet, port, ip) *)

(** [socket.send] refuses a port outside 1..65535 synchronously. *)
Definition socket_send (packet : buffer) (p : Z) (host : string)
  : result (list effect) exn :=
  if decide (0 < p < 65536) then Ok [Send packet p host] else Error RangeError.

(** The client holds the bridge's socket once started. *)
Record StunClient : Type := { socket : bool }.

Definition start (c : StunClient) : StunClient := {| socket := true |}.
Definition stop (c : StunClient) : StunClient := {| socket := false |}.

(** [handleMessage(msg, rinfo)] *)
Definition handleMessage (msg : buffer) (rinfo : RemoteInfo)
  : result (list effect) exn :=
  type <- readUInt16BE msg 0 ;;
  if decide (type = 0x0101) then
    Ok [BindingSuccess rinfo]
  else if decide (type = 0x0111) then
    _ <- (if decide (20 < length msg)%nat
          then readUInt16BE msg (20 + 4 + 2)
          else Ok 0) ;;
    Ok []
  else
    Ok [].

Section Request.

(** [crypto.createHmac('sha1', key).update(msg).digest()] *)
Variable hmac_sha1 : buffer -> buffer -> buffer.

Definition total_length (attrs : list buffer) : Z :=
  Z.of_nat (length (concat attrs)).

(** 1. USERNAME (0x0006) *)
Definition username_attr (user : string) : result buffer exn :=
  let uBuf := from_string user in
  let pad := ((4 - (length uBuf mod 4)) mod 4)%nat in
  let attr := alloc (4 + length uBuf + pad) in
  attr <- writeUInt16BE 0x0006 0 attr ;;
  attr <- writeUInt16BE (Z.of_nat (length uBuf)) 2 attr ;;
  Ok (copy uBuf attr 4).

(** 2. ICE-CONTROLLED (0x8029); [rnd] is [crypto.randomBytes(8)]. *)
Definition ice_controlled_attr (rnd : buffer) : result buffer exn :=
  let attr := alloc 12 in
  attr <- writeUInt16BE 0x8029 0 attr ;;
  attr <- writeUInt16BE 8 2 attr ;;
  Ok (copy rnd attr 4).

(** 3. PRIORITY (0x0024) *)
Definition priority_attr : result buffer exn :=
  let attr := alloc 8 in
  attr <- writeUInt16BE 0x0024 0 attr ;;
  attr <- writeUInt16BE 4 2 attr ;;
  writeUInt32BE 1845494271 4 attr.

(** 4. USE-CANDIDATE (0x0025) *)
Definition use_candidate_attr : result buffer exn :=
  let attr := alloc 4 in
  attr <- writeUInt16BE 0x0025 0 attr ;;
  writeUInt16BE 0 2 attr.

(** 5. MESSAGE-INTEGRITY (0x0008): writes the staged length, the
    cookie and the transaction id into the header, then signs. *)
Definition message_integrity (tok : buffer) (transactionId : buffer)
    (header : buffer) (attrs : list buffer)
  : result (buffer * list buffer) exn :=
  let lenAttrs := total_length attrs in
  let lenForHmac := lenAttrs + 24 in
  header <- writeUInt16BE lenForHmac 2 header ;;
  header <- writeUInt32BE STUN_MAGIC_COOKIE 4 header ;;
  let header := copy transactionId header 8 in
  let msgToSign := header ++ concat attrs in
  let sig := hmac_sha1 tok msgToSign in
  let attr := alloc 24 in
  attr <- writeUInt16BE 0x0008 0 attr ;;
  attr <- writeUInt16BE 20 2 attr ;;
  let attr := copy sig attr 4 in
  Ok (header, attrs ++ [attr]).

(** 6. FINGERPRINT (0x8028): writes the final length only. *)
Definition fingerprint (header : buffer) (attrs : list buffer)
  : result (buffer * list buffer) exn :=
  let lenAttrs := total_length attrs in
  let lenFinal := lenAttrs + 8 in
  header <- writeUInt16BE lenFinal 2 header ;;
  let msgToCrc := header ++ concat attrs in
  let crcVal := crc32 msgToCrc in
  let fp := u32 (Z.lxor crcVal 0x5354554e) in
  let attr := alloc 8 in
  attr <- writeUInt16BE 0x8028 0 attr ;;
  attr <- writeUInt16BE 4 2 attr ;;
  attr <- writeUInt32BE fp 4 attr ;;
  Ok (header, attrs ++ [attr]).

(** The datagram [sendBindingRequest] builds. [transactionId] is
    [crypto.randomBytes(12)], [rnd] is [crypto.randomBytes(8)]. An
    empty user name is falsy; a token, being a [Buffer], is truthy
    whenever it is present. *)
Definition buildBindingRequest (user : option string) (tok : option buffer)
    (useCandidate : bool) (transactionId rnd : buffer) : result buffer exn :=
  let header := alloc 20 in
  header <- writeUInt16BE STUN_BINDING_REQUEST 0 header ;;
  let attrs : list buffer := [] in
  attrs <- match user with
           | Some u =>
               if decide (u = "") then Ok attrs
               else attr <- username_attr u ;; Ok (attrs ++ [attr])
           | None => Ok attrs
           end ;;
  attr <- ice_controlled_attr rnd ;;
  let attrs := attrs ++ [attr] in
  attr <- priority_attr ;;
  let attrs := attrs ++ [attr] in
  attrs <- (if useCandidate
            then attr <- use_candidate_attr ;; Ok (attrs ++ [attr])
            else Ok attrs) ;;
  signed <- match tok with
            | Some t => message_integrity t transactionId header attrs
            | None => Ok (header, attrs)
            end ;;
  let '(header, attrs) := signed in
  final <- fingerprint header attrs ;;
  let '(header, attrs) := final in
  Ok (header ++ concat attrs).

(** [sendBindingRequest(relay, username, token, useCandidate)] *)
Definition sendBindingRequest (c : StunClient) (relay : Relay)
    (user : option string) (tok : option buffer) (useCandidate : bool)
    (transactionId rnd : buffer) : result (list effect) exn :=
  if negb (socket c) then Ok []
  else
    packet <- buildBindingRequest user tok useCandidate transactionId rnd ;;
    socket_send packet (rport relay) (ip relay).

(** *** The layout the specification describes

    A type-length-value attribute padded to four bytes, and the
    datagram assembled from such attributes: what [buildBindingRequest]
    is compared with. *)
Definition tlv (type : Z) (value : buffer) : buffer :=
  be16 type ++ be16 (Z.of_nat (length value)) ++ value
  ++ alloc ((4 - length value mod 4) mod 4).

Definition layout_header (len : Z) (transactionId : buffer) : buffer :=
  be16 STUN_BINDING_REQUEST ++ be16 len ++ be32 STUN_MAGIC_COOKIE ++ transactionId.

Definition layout_body (user : option string) (useCandidate : bool) (rnd : buffer)
  : buffer :=
  match user with
  | Some u => if decide (u = "") then [] else tlv 0x0006 (from_string u)
  | None => []
  end
  ++ tlv 0x8029 rnd
  ++ tlv 0x0024 (be32 1845494271)
  ++ (if useCandidate then tlv 0x0025 [] else []).

Definition layout (user : option string) (tok : buffer) (useCandidate : bool)
    (transactionId rnd : buffer) : buffer :=
  let body := layout_body user useCandidate rnd in
  let n := Z.of_nat (length body) in
  let integrity := tlv 0x0008 (hmac_sha1 tok (layout_header (n + 24) transactionId ++ body)) in
  let crc := crc32 (layout_header (n + 32) transactionId ++ body ++ integrity) in
  layout_header (n + 32) transactionId ++ body ++ integrity
  ++ tlv 0x8028 (be32 (u32 (Z.lxor crc 0x5354554e))).

End Request.

End Stun.

(** ** Media bridge ([media/bridge]) *)

Module Media.

Import Buffer.

(** [werift-rtp]'s [RtpHeader] *)
Record RtpHeader : Type := {
  version : Z;
  padding : bool;
  extension : bool;
  marker : bool;
  payloadType : Z;
  sequenceNumber : Z;
  timestamp : Z;
  ssrc : Z
}.

Record RtpPacket : Type := { header : RtpHeader; payload : buffer }.

(** The two halves of a key blob. *)
Record MediaKeys : Type := { masterKey : buffer; masterSalt : buffer }.

Record Config : Type := {
  localPort : Z;
  asteriskHost : string;
  asteriskRtpPort : Z;
  relayEndpoints : option (list Stun.Relay)
}.

Record MediaBridge : Type := {
  udpSocket : bool;                       (* null until the socket listens *)
  srtpSession : option MediaKeys;
  authKeys : option MediaKeys;
  activeRelay : option Stun.Relay;
  stunClient : option Stun.StunClient;
  packetsRx : Z;
  config : Config;
  silenceInterval : bool;                 (* the 20 ms timer is armed *)
  outSeq : Z;
  outSsrc : Z;
  silenceTs : Z
}.

(** [new MediaBridge(config)] *)
Definition new (cfg : Config) : MediaBridge := {|
  udpSocket := false; srtpSession := None; authKeys := None;
  activeRelay := None; stunClient := None; packetsRx := 0; config := cfg;
  silenceInterval := false; outSeq := 0; outSsrc := 123456; silenceTs := 0
|}.

Inductive effect : Type :=
| StunEffect (e : Stun.effect)
(* udpSocket.send(dec, asteriskRtpPort, asteriskHost) *)
| ToAsterisk (data : buffer) (port : Z) (host : string)
(* udpSocket.send(srtpSession.encrypt(payload, header), target.port, target.ip) *)
| ToRelay (hdr : RtpHeader) (body : buffer) (port : Z) (host : string).

Definition set_outSeq (b : MediaBridge) (v : Z) : MediaBridge := {|
  udpSocket := udpSocket b; srtpSession := srtpSession b; authKeys := authKeys b;
  activeRelay := activeRelay b; stunClient := stunClient b;
  packetsRx := packetsRx b; config := config b;
  silenceInterval := silenceInterval b; outSeq := v; outSsrc := outSsrc b;
  silenceTs := silenceTs b
|}.

Definition set_silenceTs (b : MediaBridge) (v : Z) : MediaBridge := {|
  udpSocket := udpSocket b; srtpSession := srtpSession b; authKeys := authKeys b;
  activeRelay := activeRelay b; stunClient := stunClient b;
  packetsRx := packetsRx b; config := config b;
  silenceInterval := silenceInterval b; outSeq := outSeq b; outSsrc := outSsrc b;
  silenceTs := v
|}.

Definition set_silenceInterval (b : MediaBridge) (v : bool) : MediaBridge := {|
  udpSocket := udpSocket b; srtpSession := srtpSession b; authKeys := authKeys b;
  activeRelay := activeRelay b; stunClient := stunClient b;
  packetsRx := packetsRx b; config := config b;
  silenceInterval := v; outSeq := outSeq b; outSsrc := outSsrc b;
  silenceTs := silenceTs b
|}.

Definition set_config (b : MediaBridge) (c : Config) : MediaBridge := {|
  udpSocket := udpSocket b; srtpSession := srtpSession b; authKeys := authKeys b;
  activeRelay := activeRelay b; stunClient := stunClient b;
  packetsRx := packetsRx b; config := c;
  silenceInterval := silenceInterval b; outSeq := outSeq b; outSsrc := outSsrc b;
  silenceTs := silenceTs b
|}.

(** The state after a platform-side packet decrypted: one more packet
    counted, its source adopted as the active relay. *)
Definition set_received (b : MediaBridge) (r : Stun.Relay) : MediaBridge := {|
  udpSocket := udpSocket b; srtpSession := srtpSession b; authKeys := authKeys b;
  activeRelay := Some r; stunClient := stunClient b;
  packetsRx := packetsRx b + 1; config := config b;
  silenceInterval := silenceInterval b; outSeq := outSeq b; outSsrc := outSsrc b;
  silenceTs := silenceTs b
|}.

Definition setStunClient (b : MediaBridge) (c : Stun.StunClient) : MediaBridge := {|
  udpSocket := udpSocket b; srtpSession := srtpSession b; authKeys := authKeys b;
  activeRelay := activeRelay b; stunClient := Some c;
  packetsRx := packetsRx b; config := config b;
  silenceInterval := silenceInterval b; outSeq := outSeq b; outSsrc := outSsrc b;
  silenceTs := silenceTs b
|}.

(** [initialize(keys)]: the same pair keys both directions. *)
Definition initialize (b : MediaBridge) (keys : MediaKeys) : MediaBridge := {|
  udpSocket := udpSocket b; srtpSession := Some keys; authKeys := Some keys;
  activeRelay := activeRelay b; stunClient := stunClient b;
  packetsRx := packetsRx b; config := config b;
  silenceInterval := silenceInterval b; outSeq := outSeq b; outSsrc := outSsrc b;
  silenceTs := silenceTs b
|}.

(** The ['listening'] callback of [start()]. *)
Definition listening (b : MediaBridge) : MediaBridge := {|
  udpSocket := true; srtpSession := srtpSession b; authKeys := authKeys b;
  activeRelay := activeRelay b; stunClient := stunClient b;
  packetsRx := packetsRx b; config := config b;
  silenceInterval := silenceInterval b; outSeq := outSeq b; outSsrc := outSsrc b;
  silenceTs := silenceTs b
|}.

Definition updateAsteriskRtp (b : MediaBridge) (p : Z) : MediaBridge :=
  set_config b {| localPort := localPort (config b);
                  asteriskHost := asteriskHost (config b);
                  asteriskRtpPort := p;
                  relayEndpoints := relayEndpoints (config b) |}.

Definition updateRelays (b : MediaBridge) (relays : list Stun.Relay) : MediaBridge :=
  set_config b {| localPort := localPort (config b);
                  asteriskHost := asteriskHost (config b);
                  asteriskRtpPort := asteriskRtpPort (config b);
                  relayEndpoints := Some relays |}.

Definition stopSilence (b : MediaBridge) : MediaBridge :=
  if silenceInterval b then set_silenceInterval b false else b.

Section Relay.

(** [srtpSession.decrypt(msg)]: throws on a packet it cannot
    authenticate; [None] is a falsy result. *)
Variable decrypt : MediaKeys -> buffer -> result (option buffer) exn.
(** [srtpSession.encrypt(payload, header)] *)
Variable encrypt : MediaKeys -> buffer -> RtpHeader -> result buffer exn.
(** [RtpPacket.deSerialize(msg)] *)
Variable deSerialize : buffer -> result RtpPacket exn.

(** [sendRtp(payload, payloadType, timestamp, marker)]. The sequence
    counter has advanced by the time [encrypt] or [send] can throw. *)
Definition sendRtp (b : MediaBridge) (body : buffer) (pt : Z) (ts : Z) (mark : bool)
  : MediaBridge * list effect :=
  match activeRelay b with
  | None => (b, [])
  | Some target =>
      match srtpSession b, udpSocket b with
      | Some session, true =>
          let validPt :=
            if decide (pt = 111 \/ pt = 0 \/ pt = 8 \/ pt = 96) then pt else 111 in
          let hdr := {| version := 2; padding := false; extension := false;
                        marker := mark; payloadType := validPt;
                        sequenceNumber := outSeq b; timestamp := ts;
                        ssrc := outSsrc b |} in
          let b' := set_outSeq b ((outSeq b + 1) mod 65535) in
          match encrypt session body hdr with
          | Ok encrypted =>
              if decide (0 < Stun.rport target < 65536)
              then (b', [ToRelay hdr encrypted (Stun.rport target) (Stun.ip target)])
              else (b', [])
          | Error _ => (b', [])
          end
      | _, _ => (b, [])
      end
  end.

(** [forwardToWhatsApp(msg)] *)
Definition forwardToWhatsApp (b : MediaBridge) (msg : buffer)
  : MediaBridge * list effect :=
  let b := stopSilence b in
  match srtpSession b with
  | None => (b, [])
  | Some _ =>
      match deSerialize msg with
      | Ok pkt => sendRtp b (payload pkt) 111 (timestamp (header pkt)) (marker (header pkt))
      | Error _ => (b, [])
      end
  end.

(** [relayEndpoints?.find(r => r.ip === address && r.port === port)] *)
Definition find_relay (b : MediaBridge) (rinfo : Stun.RemoteInfo) : option Stun.Relay :=
  match relayEndpoints (config b) with
  | Some rs =>
      List.find (fun r => bool_decide (Stun.ip r = Stun.address rinfo
                                       /\ Stun.rport r = Stun.port rinfo)) rs
  | None => None
  end.

(** [dec[1] = (dec[1] & 0x80) | 111]; a write past the end of a
    [Buffer] is ignored. *)
Definition force_opus (dec : buffer) : buffer :=
  <[1%nat := Z.lor (Z.land (default 0 (dec !! 1%nat)) 0x80) 111]> dec.

(** [handleMedia(msg, rinfo)] *)
Definition handleMedia (b : MediaBridge) (msg : buffer) (rinfo : Stun.RemoteInfo)
  : MediaBridge * list effect :=
  if decide (Stun.address rinfo = asteriskHost (config b)) then
    let b := if decide (asteriskRtpPort (config b) = 0)
             then updateAsteriskRtp b (Stun.port rinfo) else b in
    forwardToWhatsApp b msg
  else
    match srtpSession b with
    | None => (b, [])
    | Some session =>
        match decrypt session msg with
        | Ok (Some dec) =>
            let knownRelay := find_relay b rinfo in
            let b' := set_received b
              {| Stun.ip := Stun.address rinfo;
                 Stun.rport := Stun.port rinfo;
                 Stun.token := knownRelay ≫= Stun.token;
                 Stun.username := knownRelay ≫= Stun.username;
                 Stun.callCreator := None |} in
            let dec := force_opus dec in
            if udpSocket b' && bool_decide (0 < asteriskRtpPort (config b') < 65536)
            then (b', [ToAsterisk dec (asteriskRtpPort (config b')) (asteriskHost (config b'))])
            else (b', [])
        | Ok None => (b, [])
        | Error _ => (b, [])
        end
    end.

(** [demux(msg, rinfo)]. [first.toString(16)] is evaluated for the
    log line before the classification, and [first] is [undefined]
    for an empty datagram. *)
Definition demux (b : MediaBridge) (msg : buffer) (rinfo : Stun.RemoteInfo)
  : result (MediaBridge * list effect) exn :=
  match msg !! 0%nat with
  | None => Error TypeError
  | Some first =>
      if decide (0 <= first /\ first <= 3) then
        match stunClient b with
        | Some _ =>
            es <- Stun.handleMessage msg rinfo ;;
            Ok (b, map StunEffect es)
        | None => Ok (b, [])
        end
      else Ok (handleMedia b msg rinfo)
  end.

(** [startSilence()]; [rnd] is [Math.floor(Math.random() * 0xFFFF)]. *)
Definition startSilence (b : MediaBridge) (rnd : Z) : MediaBridge :=
  if silenceInterval b then b
  else
    let b := if decide (outSeq b = 0) then set_outSeq b rnd else b in
    set_silenceInterval b true.

(** One firing of the 20 ms silence timer. *)
Definition silenceTick (b : MediaBridge) : MediaBridge * list effect :=
  match srtpSession b with
  | None => (b, [])
  | Some _ =>
      let '(b, es) := sendRtp b [0xF8; 0xFF; 0xFE] 111 (silenceTs b) true in
      (set_silenceTs b (silenceTs b + 320), es)
  end.

(** What the shared send path is asked to carry. *)
Inductive outbound : Type :=
| Forward (msg : buffer)   (* a packet from the telephony leg *)
| Silence.                 (* a timer tick *)

Definition send_one (b : MediaBridge) (o : outbound) : MediaBridge * list effect :=
  match o with
  | Forward msg => forwardToWhatsApp b msg
  | Silence => silenceTick b
  end.

Fixpoint send_all (b : MediaBridge) (os : list outbound) : MediaBridge * list effect :=
  match os with
  | [] => (b, [])
  | o :: os =>
      let '(b, es) := send_one b o in
      let '(b, es') := send_all b os in
      (b, es ++ es')
  end.

(** The sequence numbers that went out, in order. *)
Definition sequence_numbers (es : list effect) : list Z :=
  omap (fun e => match e with
                 | ToRelay hdr _ _ _ => Some (sequenceNumber hdr)
                 | _ => None
                 end) es.

(** The bridge can send: the socket listens, SRTP is keyed, and a
    relay with a usable port is active. *)
Definition ready (b : MediaBridge) : Prop :=
  udpSocket b = true /\ is_Some (srtpSession b)
  /\ exists t, activeRelay b = Some t /\ 0 < Stun.rport t < 65536.

(** [encrypt] never throws. *)
Definition encrypts : Prop := forall k p h, exists c, encrypt k p h = Ok c.

End Relay.

(** *** The keep-alive timer *)

Section Keepalive.

(** [crypto.createHmac('sha1', key).update(msg).digest()] *)
Variable hmac_sha1 : buffer -> buffer -> buffer.
(** [crypto.randomBytes(12)] and [crypto.randomBytes(8)] of the
    request at position [k] of a tick. *)
Variable entropy : nat -> buffer * buffer.

(** What a handler did before it returned or threw. *)
Definition outcome : Type := list effect * option exn.

Definition and_then (first : outcome) (next : outcome) : outcome :=
  match first with
  | (es, None) => (es ++ fst next, snd next)
  | (es, Some e) => (es, Some e)
  end.

(** One [stunClient.sendBindingRequest(target, user, token)]. *)
Definition probe (stun : Stun.StunClient) (target : Stun.Relay) (k : nat)
    (user : option string) (tok : option buffer) : outcome :=
  match Stun.sendBindingRequest hmac_sha1 stun target user tok false
          (fst (entropy k)) (snd (entropy k)) with
  | Ok es => (map StunEffect es, None)
  | Error e => ([], Some e)
  end.

(** [this.activeRelay || (this.config.relayEndpoints
                          && this.config.relayEndpoints[0])] *)
Definition poke_target (b : MediaBridge) : option Stun.Relay :=
  match activeRelay b with
  | Some t => Some t
  | None => relayEndpoints (config b) ≫= head
  end.

(** [poke()], the 2-second timer of [start()]. A master key, being a
    [Buffer], is truthy whenever keys are set; an empty call creator
    is falsy. *)
Definition poke (b : MediaBridge) : outcome :=
  match poke_target b, stunClient b with
  | Some target, Some stun =>
      let masterKey := masterKey <$> authKeys b in
      let with_key k user :=
        match masterKey with
        | Some key => probe stun target k user (Some key)
        | None => ([], None)
        end in
      and_then (probe stun target 0 (Stun.username target) (Stun.token target))
        (and_then (with_key 1%nat (Stun.username target))
           match Stun.callCreator target with
           | Some creator =>
               if decide (creator = "") then ([], None)
               else
                 and_then (probe stun target 2 (Some creator) (Stun.token target))
                   (with_key 3%nat (Some creator))
           | None => ([], None)
           end)
  | _, _ => ([], None)
  end.

End Keepalive.

End Media.

(** ** Key extractor ([media/key-extractor]) *)

Module Extractor.

Import Buffer.

(** *** [Buffer.from(text, 'base64')]

    Node's decoder is lenient: it skips every character outside the
    base64 and base64url alphabets, stops at the first ['='], and
    keeps the bytes of a trailing partial group. *)

Definition unbase64 (c : Z) : option Z :=
  if decide (65 <= c <= 90) then Some (c - 65)
  else if decide (97 <= c <= 122) then Some (c - 97 + 26)
  else if decide (48 <= c <= 57) then Some (c - 48 + 52)
  else if decide (c = 43 \/ c = 45) then Some 62
  else if decide (c = 47 \/ c = 95) then Some 63
  else None.

Fixpoint sextets (cs : list Z) : list Z :=
  match cs with
  | [] => []
  | c :: cs =>
      if decide (c = 61) then []
      else match unbase64 c with
           | Some v => v :: sextets cs
           | None => sextets cs
           end
  end.

Fixpoint pack (vs : list Z) : buffer :=
  match vs with
  | a :: b :: c :: d :: rest =>
      (a * 4 + b / 16) :: ((b mod 16) * 16 + c / 4) :: ((c mod 4) * 64 + d) :: pack rest
  | [a; b; c] => [a * 4 + b / 16; (b mod 16) * 16 + c / 4]
  | [a; b] => [a * 4 + b / 16]
  | _ => []
  end.

(** Decoding the text whose UTF-8 bytes are [bs]: a byte above 127
    belongs to a character outside the alphabet. *)
Definition base64_decode_bytes (bs : buffer) : buffer := pack (sextets bs).

Definition base64_decode (s : string) : buffer := base64_decode_bytes (from_string s).

(** *** Stanzas

    A stanza node carries a tag, string attributes and a content,
    which is absent, a string, a [Buffer], the JSON form of a buffer
    ([{ type: 'Buffer', data: [...] }]), an array of child nodes, or a
    single child node. An object without a [tag] field has tag [""]. *)

Inductive node : Type :=
| Node (tag : string) (attrs : gmap string string) (content : content)
with content : Type :=
| CUndefined
| CString (s : string)
| CBytes (bs : buffer)
| CJsonBuffer (data : list Z)
| CList (children : list node)
| CNode (child : node).

Definition tag (n : node) : string := let 'Node t _ _ := n in t.
Definition attrs (n : node) : gmap string string := let 'Node _ a _ := n in a.
Definition node_content (n : node) : content := let 'Node _ _ c := n in c.

(** [attrs?.[k]] as a condition: present and not the empty string. *)
Definition attr (n : node) (k : string) : option string :=
  match attrs n !! k with
  | Some v => if decide (v = "") then None else Some v
  | None => None
  end.

(** [node.content] as a condition. *)
Definition truthy (c : content) : bool :=
  match c with
  | CUndefined => false
  | CString s => negb (bool_decide (s = ""))
  | _ => true
  end.

(** [node.content?.data ? Buffer.from(node.content.data)
                        : Buffer.from(node.content || [])].
    An array of nodes converts element-wise to zero bytes; a plain
    object is rejected by [Buffer.from]. *)
Definition content_bytes (c : content) : result buffer exn :=
  match c with
  | CUndefined => Ok []
  | CString s => Ok (from_string s)
  | CBytes bs => Ok bs
  | CJsonBuffer data => Ok (from_array data)
  | CList children => Ok (alloc (length children))
  | CNode _ => Error TypeError
  end.

Record RelayEndpoint : Type := {
  ip : string;
  port : Z;
  token : option buffer
}.

Definition set_token (r : RelayEndpoint) (t : option buffer) : RelayEndpoint :=
  {| ip := ip r; port := port r; token := t |}.

Record ExtractedKeys : Type := {
  masterKey : buffer;
  masterSalt : buffer;
  relayEndpoints : list RelayEndpoint
}.

(** *** The decoded offer

    [offer.call] of a decoded protocol buffer: the call key in one of
    the encodings the extractor accepts, an optional [relays] array,
    and the object itself seen as a node by the traversal. *)

Inductive callKeyData : Type :=
| KeyMissing
| KeyBase64 (s : string)
| KeyJsonBuffer (data : list Z)
| KeyBytes (bs : buffer)
| KeyOther.

Inductive ipData : Type :=
| IpMissing
| IpString (s : string)
| IpArray (parts : list Z).

Inductive tokenData : Type :=
| TokenMissing
| TokenBytes (bs : buffer)
| TokenArray (data : list Z)
| TokenBase64 (s : string)
| TokenJsonBuffer (data : list Z)
| TokenOther.

Record ProtoRelay : Type := { r_ip : ipData; r_port : Z; r_token : tokenData }.

Record Call : Type := {
  callKey : callKeyData;
  relays : option (list ProtoRelay);
  as_node : node
}.

Inductive offer : Type :=
| OfferUndefined
| OfferStanza (n : node)    (* no [call] field: the raw offer stanza *)
| OfferProto (c : Call).

(** The bytes [extractKeysFromDecryptedProto] slices, when the call
    key has an accepted encoding. *)
Definition callKey_bytes (k : callKeyData) : option buffer :=
  match k with
  | KeyMissing => None
  | KeyBase64 s => if decide (s = "") then None else Some (base64_decode s)
  | KeyJsonBuffer data => Some (from_array data)
  | KeyBytes bs => Some bs
  | KeyOther => None
  end.

(** [extractKeysFromDecryptedProto(decryptedJson)] *)
Definition extractKeysFromDecryptedProto (o : offer) : option (buffer * buffer) :=
  match o with
  | OfferProto c =>
      match callKey_bytes (callKey c) with
      | Some key =>
          if decide (30 <= length key)%nat
          then Some (slice key 0 16, slice key 16 30)
          else None
      | None => None
      end
  | _ => None
  end.

(** [parseRelayEndpoint(item)]: 4 bytes of address, a big-endian
    port, then the token. *)
Definition parseRelayEndpoint (item : node) : option RelayEndpoint :=
  let bytes := match node_content item with
               | CJsonBuffer data => Some (from_array data)
               | CBytes bs => Some bs
               | _ => None
               end in
  match bytes with
  | Some c =>
      if decide (6 <= length c)%nat then
        let at_ i := default 0 (c !! i) in
        Some {| ip := pretty (at_ 0%nat) +:+ "." +:+ pretty (at_ 1%nat) +:+ "."
                      +:+ pretty (at_ 2%nat) +:+ "." +:+ pretty (at_ 3%nat);
                port := at_ 4%nat * 256 + at_ 5%nat;
                token := if decide (6 < length c)%nat
                         then Some (drop 6 c) else None |}
      else None
  | None => None
  end.

(** *** The two passes of [extractSrtpKeys] *)

(** A JavaScript [Map]: setting a present key keeps its position. *)
Definition tokens : Type := list (string * buffer).

Fixpoint tokens_set (m : tokens) (k : string) (v : buffer) : tokens :=
  match m with
  | [] => [(k, v)]
  | (k', v') :: m => if decide (k' = k) then (k, v) :: m else (k', v') :: tokens_set m k v
  end.

Fixpoint tokens_get (m : tokens) (k : string) : option buffer :=
  match m with
  | [] => None
  | (k', v) :: m => if decide (k' = k) then Some v else tokens_get m k
  end.

(** Pass 1 *)
Fixpoint collectTokens (n : node) (toks : tokens) {struct n} : result tokens exn :=
  let 'Node t _ c := n in
  toks <- match attr n "id" with
          | Some id =>
              if decide (t = "token") then
                b <- content_bytes c ;;
                Ok (if decide (0 < length b)%nat then tokens_set toks id b else toks)
              else Ok toks
          | None => Ok toks
          end ;;
  match c with
  | CList children =>
      (fix each (cs : list node) (toks : tokens) : result tokens exn :=
         match cs with
         | [] => Ok toks
         | child :: cs => toks <- collectTokens child toks ;; each cs toks
         end) children toks
  | CNode child =>
      if decide (tag child = "") then Ok toks else collectTokens child toks
  | _ => Ok toks
  end.

(** What pass 2 accumulates. *)
Record found : Type := {
  endpoints : list RelayEndpoint;
  audioKeys : option buffer
}.

Definition is_relay_tag (t : string) : bool :=
  bool_decide (t = "te" \/ t = "relay").

Definition is_key_tag (t : string) : bool :=
  bool_decide (t = "hbh_key" \/ t = "enc" \/ t = "call-key").

(** The relay and key steps of [traverse] at one node. *)
Definition visit (toks : tokens) (n : node) (acc : found) : result found exn :=
  let acc :=
    if is_relay_tag (tag n) then
      match parseRelayEndpoint n with
      | Some endpoint =>
          let endpoint :=
            match token endpoint, attr n "token_id" with
            | None, Some id => set_token endpoint (tokens_get toks id)
            | _, _ => endpoint
            end in
          {| endpoints := endpoints acc ++ [endpoint]; audioKeys := audioKeys acc |}
      | None => acc
      end
    else acc in
  if is_key_tag (tag n) && truthy (node_content n) then
    b <- content_bytes (node_content n) ;;
    Ok (if decide (30 <= length b)%nat
        then {| endpoints := endpoints acc; audioKeys := Some b |}
        else acc)
  else Ok acc.

(** Pass 2 *)
Fixpoint traverse (toks : tokens) (n : node) (acc : found) {struct n}
  : result found exn :=
  acc <- visit toks n acc ;;
  match n with
  | Node _ _ (CList children) =>
      (fix each (cs : list node) (acc : found) : result found exn :=
         match cs with
         | [] => Ok acc
         | child :: cs => acc <- traverse toks child acc ;; each cs acc
         end) children acc
  | Node _ _ (CNode child) =>
      if decide (tag child = "") then Ok acc else traverse toks child acc
  | _ => Ok acc
  end.

(** The relays of a decoded offer's [relays] array. *)
Definition proto_ip (i : ipData) : option string :=
  match i with
  | IpMissing => None
  | IpString s => if decide (s = "") then None else Some s
  | IpArray parts =>
      let s := String.concat "." (map pretty parts) in
      if decide (s = "") then None else Some s
  end.

Definition proto_token (t : tokenData) : option buffer :=
  match t with
  | TokenMissing => None
  | TokenBytes bs => Some bs
  | TokenArray data => Some (from_array data)
  | TokenBase64 s => if decide (s = "") then None else Some (base64_decode s)
  | TokenJsonBuffer data => Some (from_array data)
  | TokenOther => None
  end.

Definition proto_relay (r : ProtoRelay) : option RelayEndpoint :=
  match proto_ip (r_ip r) with
  | Some i =>
      if decide (r_port r = 0) then None
      else Some {| ip := i; port := r_port r; token := proto_token (r_token r) |}
  | None => None
  end.

Definition proto_relays (o : offer) : list RelayEndpoint :=
  match o with
  | OfferProto c =>
      match relays c with
      | Some rs => omap proto_relay rs
      | None => []
      end
  | _ => []
  end.

(** [rootNode = (offer && offer.call) ? offer.call : offer] *)
Definition rootNode (o : offer) : option node :=
  match o with
  | OfferUndefined => None
  | OfferStanza n => Some n
  | OfferProto c => Some (as_node c)
  end.

(** Both passes: the token table, the relays and the last key blob
    of at least 30 bytes. *)
Definition scan (o : offer) : result (tokens * found) exn :=
  let start := {| endpoints := proto_relays o; audioKeys := None |} in
  match rootNode o with
  | None => Ok ([], start)
  | Some root =>
      toks <- collectTokens root [] ;;
      acc <- traverse toks root start ;;
      Ok (toks, acc)
  end.

(** "Logic to finalize keys": a 40-byte blob is taken for the base64
    text of the key. *)
Definition finalize (blob : buffer) : option (buffer * buffer) :=
  let keysBuffer :=
    if decide (length blob = 40%nat) then base64_decode_bytes blob else blob in
  if decide (30 <= length keysBuffer)%nat
  then Some (slice keysBuffer 0 16, slice keysBuffer 16 30)
  else None.

(** The orphan-token fallback. *)
Definition apply_fallback (toks : tokens) (rs : list RelayEndpoint) : list RelayEndpoint :=
  match rs, toks with
  | _ :: _, (_, fallbackToken) :: _ =>
      if existsb (fun r => bool_decide (is_Some (token r))) rs then rs
      else map (fun r => set_token r (Some fallbackToken)) rs
  | _, _ => rs
  end.

(** [extractSrtpKeys(offer)]; the outer [catch] returns [null]. *)
Definition extractSrtpKeys (o : offer) : option ExtractedKeys :=
  match scan o with
  | Error _ => None
  | Ok (toks, acc) =>
      let keys := match audioKeys acc ≫= finalize with
                  | Some k => Some k
                  | None => extractKeysFromDecryptedProto o
                  end in
      let rs := apply_fallback toks (endpoints acc) in
      match keys with
      | Some (key, salt) =>
          Some {| masterKey := key; masterSalt := salt; relayEndpoints := rs |}
      | None => None
      end
  end.

(** [extractRelaysFromTransport(node)] *)
Record TransportRelays : Type := {
  transport_relays : list RelayEndpoint;
  globalToken : option buffer
}.

Definition is_candidate_tag (t : string) : bool :=
  bool_decide (t = "te" \/ t = "cand" \/ t = "relay").

Fixpoint transport_walk (n : node) (acc : TransportRelays) {struct n}
  : result TransportRelays exn :=
  let 'Node t _ c := n in
  acc <- (if decide (t = "token") then
            b <- content_bytes c ;;
            Ok (if decide (0 < length b)%nat
                then {| transport_relays := transport_relays acc; globalToken := Some b |}
                else acc)
          else Ok acc) ;;
  let acc := if is_candidate_tag t then
               match parseRelayEndpoint n with
               | Some ep => {| transport_relays := transport_relays acc ++ [ep];
                               globalToken := globalToken acc |}
               | None => acc
               end
             else acc in
  match c with
  | CList children =>
      (fix each (cs : list node) (acc : TransportRelays) : result TransportRelays exn :=
         match cs with
         | [] => Ok acc
         | child :: cs => acc <- transport_walk child acc ;; each cs acc
         end) children acc
  | _ => Ok acc
  end.

Definition extractRelaysFromTransport (n : node) : result TransportRelays exn :=
  acc <- transport_walk n {| transport_relays := []; globalToken := None |} ;;
  Ok match globalToken acc with
     | Some g =>
         {| transport_relays :=
              map (fun r => match token r with
                            | Some _ => r
                            | None => set_token r (Some g)
                            end) (transport_relays acc);
            globalToken := Some g |}
     | None => acc
     end.

(** [extractRteFromOffer(offer)]: the first relay of a decoded offer.
    An empty array is a truthy [ip]. *)
Definition extractRteFromOffer (o : offer) : option (string * Z) :=
  match o with
  | OfferProto c =>
      match relays c with
      | Some (r :: _) =>
          if decide (r_port r = 0) then None
          else match r_ip r with
               | IpMissing => None
               | IpString s => if decide (s = "") then None else Some (s, r_port r)
               | IpArray parts => Some (String.concat "." (map pretty parts), r_port r)
               end
      | _ => None
      end
  | _ => None
  end.

(** Induction over a stanza tree, children included. *)
Section NodeInduction.

Variable P : node -> Prop.
Hypothesis Hundefined : forall t a, P (Node t a CUndefined).
Hypothesis Hstring : forall t a s, P (Node t a (CString s)).
Hypothesis Hbytes : forall t a bs, P (Node t a (CBytes bs)).
Hypothesis Hjson : forall t a data, P (Node t a (CJsonBuffer data)).
Hypothesis Hlist : forall t a children, Forall P children -> P (Node t a (CList children)).
Hypothesis Hnode : forall t a child, P child -> P (Node t a (CNode child)).


End NodeInduction.



End Extractor.

(** ** Call signaling ([whatsapp/client], [whatsapp/call-handler],
       [sip/call-bridge])

    The three objects share one store, [World]. An [async] function is
    written in direct style: [await] is sequencing, so a callee runs to
    its end before its caller resumes. The one task that waits for
    something other than the WhatsApp socket, [bridgeCall] (its first
    [await] is the UDP socket's bind), is queued when its listener
    fires and is run by [run_pending] once the current handler is done.
    Timers ([setTimeout]) are recorded and do not fire. *)

Module Signaling.

Import Buffer.
Export Extractor(node, Node, content, CUndefined, CString, CBytes, CJsonBuffer, CList, CNode).

(** What the sniffer stores for a call id: the decoded offer (or the
    raw offer stanza) with the stanza it arrived in. *)
Record StoredOffer : Type := {
  body : Extractor.offer;
  _stanzaId : option string;
  _from : option string;
  _callCreator : option string
}.

Record CallEvent : Type := {
  callId : string;
  from : string;
  timestamp : Z;
  isVideo : bool;
  isGroup : bool;
  offer : option StoredOffer;
  callCreator : option string
}.

(** An entry of the socket's ['call'] event. *)
Record WACall : Type := {
  id : string;
  wa_from : string;
  status : string;
  wa_isVideo : option bool;
  wa_isGroup : option bool
}.

Record CallState : Type := {
  gotTransport : bool;
  gotRelay : bool;
  accepted : bool
}.

Record Bridge : Type := {
  mediaBridge : Media.MediaBridge;
  stunClient : Stun.StunClient;
  sipSessionId : string;
  whatsappCall : CallEvent
}.

(** The collaborators outside the repository. *)
Record Env : Type := {
  jidNormalizedUser : string -> string;
  messageTag : nat -> string;       (* sock.generateMessageTag(), by epoch *)
  net : nat -> bool;                (* does the n-th socket operation succeed *)
  hmac_sha1 : buffer -> buffer -> buffer;
  entropy : nat -> buffer;          (* crypto.randomBytes, by draw *)
  random : nat -> Z;                (* Math.floor(Math.random() * k), by draw *)
  sip_answers : bool;               (* sipClient.makeCall resolves *)
  now : Z;                          (* Date.now() *)
  rtp_portMin : Z;                  (* config.rtp.portMin *)
  asterisk_host : string            (* config.asterisk.host *)
}.

Inductive task : Type :=
| BridgeCall (call : CallEvent).    (* bridgeCall(call).catch(log) *)

Inductive effect : Type :=
| Stanza (n : node)                         (* sock.sendNode(n) *)
| Reject (callId to : string)               (* sock.rejectCall(callId, to) *)
| Emit (emitter event callId : string)      (* emitter.emit(event, ..) *)
| Sleep (ms : Z)                            (* await a timeout *)
| Timer (ms : Z) (what : string)            (* setTimeout(.., ms) *)
| Udp (e : Stun.effect)
| SipCall (number session : string) (localRtpPort : Z)
| Unhandled (e : exn).                      (* a rejection nobody awaits *)

Record World : Type := {
  env : Env;
  (* WhatsAppClient *)
  sock : bool;
  epoch : nat;
  decryptedOffers : gmap string StoredOffer;
  callState : gmap string CallState;
  publicInfo : option (string * Z);
  (* CallHandler *)
  activeCalls : gmap string CallEvent;
  (* CallBridge *)
  activeBridges : gmap string Bridge;
  (* the outside *)
  ops : nat;                        (* socket operations so far *)
  draws : nat;                      (* random draws so far *)
  pending : list task;
  trace : list effect
}.

Definition M (A : Type) : Type := World -> result A exn * World.

Definition ret {A : Type} (a : A) : M A := fun w => (Ok a, w).
Definition throw {A : Type} (e : exn) : M A := fun w => (Error e, w).

Definition mbind {A B : Type} (m : M A) (k : A -> M B) : M B :=
  fun w => match m w with
           | (Ok a, w') => k a w'
           | (Error e, w') => (Error e, w')
           end.

Notation "x <~ m ;; k" := (mbind m (fun x => k))
  (at level 100, m at next level, right associativity).

(** [try { m } catch (e) { h e }]; what [m] did before it threw stays
    done. *)
Definition try_catch {A : Type} (m : M A) (h : exn -> M A) : M A :=
  fun w => match m w with
           | (Ok a, w') => (Ok a, w')
           | (Error e, w') => h e w'
           end.

Definition get {A : Type} (f : World -> A) : M A := fun w => (Ok (f w), w).
Definition modify (f : World -> World) : M unit := fun w => (Ok tt, f w).

Definition with_client (w : World) (s : bool) (e : nat)
    (offers : gmap string StoredOffer) (cs : gmap string CallState)
    (pub : option (string * Z)) : World := {|
  env := env w; sock := s; epoch := e; decryptedOffers := offers;
  callState := cs; publicInfo := pub;
  activeCalls := activeCalls w; activeBridges := activeBridges w;
  ops := ops w; draws := draws w; pending := pending w; trace := trace w
|}.

Definition set_epoch (e : nat) (w : World) : World :=
  with_client w (sock w) e (decryptedOffers w) (callState w) (publicInfo w).
Definition set_callState (cs : gmap string CallState) (w : World) : World :=
  with_client w (sock w) (epoch w) (decryptedOffers w) cs (publicInfo w).
Definition set_publicInfo (pub : option (string * Z)) (w : World) : World :=
  with_client w (sock w) (epoch w) (decryptedOffers w) (callState w) pub.

Definition set_activeCalls (calls : gmap string CallEvent) (w : World) : World := {|
  env := env w; sock := sock w; epoch := epoch w;
  decryptedOffers := decryptedOffers w; callState := callState w;
  publicInfo := publicInfo w;
  activeCalls := calls; activeBridges := activeBridges w;
  ops := ops w; draws := draws w; pending := pending w; trace := trace w
|}.

Definition set_activeBridges (bs : gmap string Bridge) (w : World) : World := {|
  env := env w; sock := sock w; epoch := epoch w;
  decryptedOffers := decryptedOffers w; callState := callState w;
  publicInfo := publicInfo w;
  activeCalls := activeCalls w; activeBridges := bs;
  ops := ops w; draws := draws w; pending := pending w; trace := trace w
|}.

Definition with_outside (w : World) (o d : nat) (p : list task) (t : list effect)
  : World := {|
  env := env w; sock := sock w; epoch := epoch w;
  decryptedOffers := decryptedOffers w; callState := callState w;
  publicInfo := publicInfo w;
  activeCalls := activeCalls w; activeBridges := activeBridges w;
  ops := o; draws := d; pending := p; trace := t
|}.

(** Append to the trace. *)
Definition log (e : effect) : M unit :=
  modify (fun w => with_outside w (ops w) (draws w) (pending w) (trace w ++ [e])).

Definition spawn (t : task) : M unit :=
  modify (fun w => with_outside w (ops w) (draws w) (pending w ++ [t]) (trace w)).

(** One operation on the WhatsApp socket: it goes out, or the promise
    rejects. *)
Definition socket_op (e : effect) : M unit :=
  fun w =>
    let w' := with_outside w (S (ops w)) (draws w) (pending w) (trace w) in
    if net (env w) (ops w) then log e w'
    else (Error (JsError "Connection Closed"), w').

(** [crypto.randomBytes(n)] *)
Definition randomBytes (n : nat) : M buffer :=
  fun w => (Ok (take n (entropy (env w) (draws w) ++ alloc n)),
            with_outside w (ops w) (S (draws w)) (pending w) (trace w)).

(** [Math.floor(Math.random() * k)] *)
Definition randomBelow (k : Z) : M Z :=
  fun w => (Ok (random (env w) (draws w) mod k),
            with_outside w (ops w) (S (draws w)) (pending w) (trace w)).

(** [this.sock.generateMessageTag()] *)
Definition generateMessageTag : M string :=
  fun w => (Ok (messageTag (env w) (epoch w)), set_epoch (S (epoch w)) w).

(** *** CallBridge: teardown *)

(** [endBridge(callId)] *)
Definition endBridge (callId : string) : M unit :=
  b <~ get (fun w => activeBridges w !! callId) ;;
  match b with
  | Some _ =>
      _ <~ modify (fun w => set_activeBridges (delete callId (activeBridges w)) w) ;;
      log (Emit "CallBridge" "bridge:ended" callId)
  | None => ret tt
  end.

(** *** WhatsAppClient: outgoing stanzas *)

(** [sendNode(node)] *)
Definition sendNode (n : node) : M unit :=
  s <~ get sock ;;
  if negb s then ret tt else socket_op (Stanza n).

Definition leaf (t : string) (a : gmap string string) : node := Node t a CUndefined.

Definition capability : node :=
  Node "capability" {[ "ver" := "1" ]} (CBytes [1; 5; 247; 9; 228; 250; 19]).

Definition preacceptNode (tag callId from : string) : node :=
  Node "call"
    {[ "id" := tag; "to" := from; "v" := "3"; "platform" := "android" ]}
    (CList [
      Node "preaccept"
        {[ "call-creator" := from; "call-id" := callId; "v" := "3";
           "platform" := "android"; "device_class" := "2016" ]}
        (CList [
          leaf "audio" {[ "enc" := "opus"; "rate" := "16000"; "ptime" := "20" ]};
          leaf "audio" {[ "enc" := "opus"; "rate" := "8000"; "ptime" := "20" ]};
          leaf "video" {[ "enc" := "none" ]};
          leaf "net" {[ "medium" := "3" ]};
          leaf "encopt" {[ "keygen" := "2" ]};
          capability ]) ]).

(** [sendPreaccept(callId, from)] *)
Definition sendPreaccept (callId from : string) : M unit :=
  s <~ get sock ;;
  if negb s then throw (JsError "WhatsApp socket not initialized")
  else
    tag <~ generateMessageTag ;;
    _ <~ sendNode (preacceptNode tag callId from) ;;
    log (Emit "WhatsAppClient" "call:preaccept-sent" callId).

Definition ringingNode (tag callId from : string) : node :=
  Node "call" {[ "id" := tag; "to" := from ]}
    (CList [
      leaf "ringing"
        {[ "call-creator" := from; "call-id" := callId; "v" := "3";
           "platform" := "android" ]} ]).

(** [sendRinging(callId, from)] *)
Definition sendRinging (callId from : string) : M unit :=
  s <~ get sock ;;
  if negb s then ret tt
  else
    tag <~ generateMessageTag ;;
    sendNode (ringingNode tag callId from).

Definition readyNode (tag callId from : string) : node :=
  Node "call"
    {[ "id" := tag; "to" := from; "v" := "3"; "platform" := "android" ]}
    (CList [
      leaf "ready"
        {[ "call-creator" := from; "call-id" := callId; "v" := "3";
           "platform" := "android"; "device_class" := "2016" ]} ]).

(** [sendReady(callId, from)]: a failed send is logged and dropped. *)
Definition sendReady (callId from : string) : M unit :=
  s <~ get sock ;;
  if negb s then ret tt
  else
    try_catch
      (tag <~ generateMessageTag ;;
       sendNode (readyNode tag callId from))
      (fun _ => ret tt).

Definition acceptNode (tag to callId : string) : node :=
  Node "call" {[ "to" := to; "id" := tag ]}
    (CList [
      Node "accept" {[ "call-id" := callId; "call-creator" := to ]}
        (CList [
          leaf "audio" {[ "enc" := "opus"; "rate" := "16000" ]};
          leaf "audio" {[ "enc" := "opus"; "rate" := "8000" ]};
          leaf "net" {[ "medium" := "3" ]};
          leaf "encopt" {[ "keygen" := "2" ]};
          capability ]) ]).

(** [WhatsAppClient.acceptCall(callId, from, callCreator)]. [state] is
    the object held by [callState]; marking it re-inserts it. *)
Definition WhatsAppClient_acceptCall (callId from : string) (creator : option string)
  : M unit :=
  s <~ get sock ;;
  if negb s then throw (JsError "WhatsApp socket not initialized")
  else
    state <~ get (fun w => callState w !! callId) ;;
    if match state with Some st => accepted st | None => false end
    then ret tt
    else
      _ <~ sendPreaccept callId from ;;
      _ <~ log (Sleep 1500) ;;
      normalized <~ get (fun w => jidNormalizedUser (env w) from) ;;
      tag <~ generateMessageTag ;;
      _ <~ sendNode (acceptNode tag normalized callId) ;;
      _ <~ sendReady callId from ;;
      _ <~ match state with
           | Some st =>
               modify (fun w =>
                 set_callState
                   (<[callId := {| gotTransport := gotTransport st;
                                    gotRelay := gotRelay st;
                                    accepted := true |}]> (callState w)) w)
           | None => ret tt
           end ;;
      log (Emit "WhatsAppClient" "call:accepted" callId).

Definition terminateNode (tag callId from reason : string) : node :=
  Node "call"
    {[ "id" := tag; "to" := from; "v" := "3"; "platform" := "android" ]}
    (CList [
      leaf "terminate"
        {[ "call-creator" := from; "call-id" := callId; "reason" := reason ]} ]).

(** [terminateCall(callId, from, reason = 'hangup')] *)
Definition terminateCall (callId from : string) : M unit :=
  s <~ get sock ;;
  if negb s then ret tt
  else
    tag <~ generateMessageTag ;;
    socket_op (Stanza (terminateNode tag callId from "hangup")).

Definition receiptNode (from stanzaId : string) : node :=
  leaf "receipt" {[ "to" := from; "id" := stanzaId; "class" := "call" ]}.

Definition nonempty (s : option string) : option string :=
  match s with
  | Some v => if decide (v = "") then None else Some v
  | None => None
  end.

(** [sendCallReceipt(from, callId)] *)
Definition sendCallReceipt (from callId : string) : M unit :=
  s <~ get sock ;;
  if negb s then ret tt
  else
    try_catch
      (offerData <~ get (fun w => decryptedOffers w !! callId) ;;
       stanzaId <~ match nonempty (offerData ≫= _stanzaId) with
                   | Some i => ret i
                   | None => generateMessageTag
                   end ;;
       socket_op (Stanza (receiptNode from stanzaId)))
      (fun _ => ret tt).

(** [WhatsAppClient.rejectCall(callId, from)] *)
Definition WhatsAppClient_rejectCall (callId from : string) : M unit :=
  s <~ get sock ;;
  if negb s then throw (JsError "WhatsApp socket not initialized")
  else
    _ <~ socket_op (Reject callId from) ;;
    log (Emit "WhatsAppClient" "call:rejected" callId).

(** *** CallHandler *)

(** [CallHandler.acceptCall(callId, from?, callCreator?)] *)
Definition CallHandler_acceptCall (callId : string) (from creator : option string)
  : M unit :=
  call <~ get (fun w => activeCalls w !! callId) ;;
  match call, nonempty from with
  | None, None => ret tt
  | _, _ =>
      let remoteJid :=
        match nonempty from with
        | Some f => Some f
        | None => nonempty (Signaling.from <$> call)
        end in
      let creator :=
        match nonempty creator with
        | Some c => Some c
        | None => match nonempty (call ≫= callCreator) with
                  | Some c => Some c
                  | None => remoteJid
                  end
        end in
      match remoteJid with
      | None => throw (JsError "Remote JID missing for acceptCall")
      | Some jid =>
          _ <~ WhatsAppClient_acceptCall callId jid creator ;;
          log (Emit "CallHandler" "call:accepted" callId)
      end
  end.

(** [CallHandler.rejectCall(callId, from)] *)
Definition CallHandler_rejectCall (callId from : string) : M unit :=
  _ <~ WhatsAppClient_rejectCall callId from ;;
  _ <~ modify (fun w => set_activeCalls (delete callId (activeCalls w)) w) ;;
  log (Emit "CallHandler" "call:rejected" callId).

(** [emit('call:ended', callId)] with the bridge's listener. *)
Definition emit_call_ended (callId : string) : M unit :=
  _ <~ log (Emit "CallHandler" "call:ended" callId) ;;
  endBridge callId.

(** [CallHandler.endCall(callId, from?)] *)
Definition endCall (callId : string) (from : option string) : M unit :=
  call <~ get (fun w => activeCalls w !! callId) ;;
  let remoteJid :=
    match nonempty from with
    | Some f => Some f
    | None => nonempty (Signaling.from <$> call)
    end in
  _ <~ match remoteJid with
       | Some jid => try_catch (terminateCall callId jid) (fun _ => ret tt)
       | None => ret tt
       end ;;
  _ <~ modify (fun w => set_activeCalls (delete callId (activeCalls w)) w) ;;
  emit_call_ended callId.

(** *** CallBridge: bridging an incoming call *)

(** [from.split('@')[0]] *)
Fixpoint before_at (s : string) : string :=
  match s with
  | EmptyString => EmptyString
  | String c rest => if decide (c = "@"%char) then EmptyString else String c (before_at rest)
  end.

(** [callId.slice(-8)] *)
Definition last8 (s : string) : string :=
  String.substring (String.length s - 8) 8 s.

Definition set_bridge (callId : string) (b : Bridge) : M unit :=
  modify (fun w => set_activeBridges (alter (fun _ => b) callId (activeBridges w)) w).

(** [stunClient.sendBindingRequest(relay, username, token)] *)
Definition sendBindingRequest (c : Stun.StunClient) (relay : Stun.Relay)
    (user : option string) (tok : option buffer) (useCandidate : bool) : M unit :=
  if negb (Stun.socket c) then ret tt
  else
    transactionId <~ randomBytes 12 ;;
    rnd <~ randomBytes 8 ;;
    h <~ get (fun w => hmac_sha1 (env w)) ;;
    match Stun.sendBindingRequest h c relay user tok useCandidate transactionId rnd with
    | Ok es => fun w => (Ok tt, with_outside w (ops w) (draws w) (pending w)
                                     (trace w ++ map Udp es))
    | Error e => throw e
    end.

Fixpoint for_each {A : Type} (f : A -> M unit) (xs : list A) : M unit :=
  match xs with
  | [] => ret tt
  | x :: xs => _ <~ f x ;; for_each f xs
  end.

Definition offer_body (o : option StoredOffer) : Extractor.offer :=
  match o with
  | Some so => body so
  | None => Extractor.OfferUndefined
  end.

(** [bridgeCall(call)]. The bridge object registered under the call
    id is the one the later steps mutate. *)
Definition bridgeCall (call : CallEvent) : M unit :=
  let phoneNumber := before_at (from call) in
  let sipSessionId := "wa-" +:+ last8 (callId call) in
  r <~ randomBelow 1000 ;;
  portMin <~ get (fun w => rtp_portMin (env w)) ;;
  host <~ get (fun w => asterisk_host (env w)) ;;
  let cfg := {| Media.localPort := portMin + r; Media.asteriskHost := host;
                Media.asteriskRtpPort := 0; Media.relayEndpoints := None |} in
  let stun := {| Stun.socket := false |} in
  let mb := Media.setStunClient (Media.new cfg) stun in
  let entry m s := {| mediaBridge := m; stunClient := s;
                      sipSessionId := sipSessionId; whatsappCall := call |} in
  _ <~ modify (fun w => set_activeBridges (<[callId call := entry mb stun]> (activeBridges w)) w) ;;
  try_catch
    ((* await mediaBridge.start(); await stunClient.start(socket) *)
     let stun := Stun.start stun in
     let mb := Media.setStunClient (Media.listening mb) stun in
     _ <~ set_bridge (callId call) (entry mb stun) ;;
     _ <~ match Extractor.extractSrtpKeys (offer_body (offer call)) with
          | Some keys =>
              let mb := Media.initialize mb
                          {| Media.masterKey := Extractor.masterKey keys;
                             Media.masterSalt := Extractor.masterSalt keys |} in
              let relaysWithAuth :=
                map (fun r => {| Stun.ip := Extractor.ip r;
                                 Stun.rport := Extractor.port r;
                                 Stun.token := Extractor.token r;
                                 Stun.username := Some (callId call);
                                 Stun.callCreator := None |})
                    (Extractor.relayEndpoints keys) in
              let mb := Media.updateRelays mb relaysWithAuth in
              _ <~ set_bridge (callId call) (entry mb stun) ;;
              _ <~ for_each (fun r => sendBindingRequest stun r (Stun.username r)
                                        (Stun.token r) false) relaysWithAuth ;;
              rnd <~ randomBelow 0xFFFF ;;
              set_bridge (callId call) (entry (Media.startSilence mb rnd) stun)
          | None => ret tt
          end ;;
     _ <~ log (Emit "CallBridge" "bridge:created" (callId call)) ;;
     _ <~ try_catch
            (CallHandler_acceptCall (callId call) (Some (from call)) (callCreator call))
            (fun _ => ret tt) ;;
     _ <~ log (SipCall phoneNumber sipSessionId (portMin + r)) ;;
     answers <~ get (fun w => sip_answers (env w)) ;;
     if answers then ret tt else endBridge (callId call))
    (fun _ => endBridge (callId call)).

(** A promise nobody awaits: a rejection goes unhandled. *)
Definition unawaited (m : M unit) : M unit :=
  try_catch m (fun e => log (Unhandled e)).

Definition run_task (t : task) : M unit :=
  match t with
  | BridgeCall call => try_catch (bridgeCall call) (fun _ => ret tt)
  end.

(** Run what the handlers queued. *)
Definition run_pending : M unit :=
  ts <~ get pending ;;
  _ <~ modify (fun w => with_outside w (ops w) (draws w) [] (trace w)) ;;
  for_each run_task ts.

(** *** CallHandler: the ['call:offer'] listener *)

(** [emit('call:incoming', call)] with the bridge's listener. *)
Definition emit_call_incoming (call : CallEvent) : M unit :=
  _ <~ log (Emit "CallHandler" "call:incoming" (callId call)) ;;
  spawn (BridgeCall call).

Definition onCallOffer (call : CallEvent) : M unit :=
  _ <~ modify (fun w => set_activeCalls (<[callId call := call]> (activeCalls w)) w) ;;
  _ <~ modify (fun w => set_activeCalls (<[callId call := call]> (activeCalls w)) w) ;;
  _ <~ emit_call_incoming call ;;
  _ <~ sendRinging (callId call) (from call) ;;
  _ <~ sendCallReceipt (from call) (callId call) ;;
  if isVideo call then CallHandler_rejectCall (callId call) (from call)
  else ret tt.

(** The listeners for ['call:timeout'], ['call:reject'] and
    ['call:accept']. *)
Definition onCallStatus (st callId : string) : M unit :=
  if decide (st = "timeout") then
    _ <~ modify (fun w => set_activeCalls (delete callId (activeCalls w)) w) ;;
    emit_call_ended callId
  else if decide (st = "reject") then
    _ <~ modify (fun w => set_activeCalls (delete callId (activeCalls w)) w) ;;
    log (Emit "CallHandler" "call:rejected" callId)
  else ret tt.

(** *** WhatsAppClient: the socket's ['call'] event *)

(** The retry loop: up to [attempts] polls, 200 ms apart. *)
Fixpoint pollOffer (attempts : nat) (callId : string) : M (option StoredOffer) :=
  match attempts with
  | O => ret None
  | S n =>
      _ <~ log (Sleep 200) ;;
      o <~ get (fun w => decryptedOffers w !! callId) ;;
      match o with
      | Some so => ret (Some so)
      | None => pollOffer n callId
      end
  end.

Definition or_else (a b : option string) : option string :=
  match nonempty a with
  | Some v => Some v
  | None => b
  end.

(** [decryptedOffer?.attrs?.['call-creator']] *)
Definition offer_attr_creator (so : StoredOffer) : option string :=
  match body so with
  | Extractor.OfferStanza n => Extractor.attr n "call-creator"
  | _ => None
  end.

Definition onCall (call : WACall) : M unit :=
  if decide (status call = "offer") then
    cached <~ get (fun w => decryptedOffers w !! id call) ;;
    decryptedOffer <~ match cached with
                      | Some so => ret (Some so)
                      | None => pollOffer 3 (id call)
                      end ;;
    _ <~ match decryptedOffer ≫= (fun so => Extractor.extractRteFromOffer (body so)) with
         | Some rte => modify (set_publicInfo (Some rte))
         | None => ret tt
         end ;;
    let extractedCallCreator :=
      or_else (decryptedOffer ≫= _callCreator) (decryptedOffer ≫= offer_attr_creator) in
    t <~ get (fun w => now (env w)) ;;
    let callEvent := {|
      callId := id call;
      from := default (wa_from call) (nonempty (decryptedOffer ≫= _from));
      callCreator := or_else extractedCallCreator (Some (wa_from call));
      timestamp := t;
      isVideo := default false (wa_isVideo call);
      isGroup := default false (wa_isGroup call);
      offer := decryptedOffer
    |} in
    _ <~ modify (fun w =>
           set_callState (<[id call := {| gotTransport := false; gotRelay := false;
                                           accepted := false |}]> (callState w)) w) ;;
    _ <~ log (Emit "WhatsAppClient" "call:offer" (id call)) ;;
    _ <~ unawaited (onCallOffer callEvent) ;;
    _ <~ sendRinging (id call) (from callEvent) ;;
    _ <~ sendCallReceipt (from callEvent) (id call) ;;
    match decryptedOffer with
    | Some _ => log (Timer 10000 "decryptedOffers.delete")
    | None => ret tt
    end
  else if decide (status call = "ringing") then
    log (Emit "WhatsAppClient" "call:ringing" (id call))
  else if decide (status call = "timeout" \/ status call = "reject"
                  \/ status call = "accept") then
    _ <~ modify (fun w => with_client w (sock w) (epoch w)
                            (delete (id call) (decryptedOffers w))
                            (delete (id call) (callState w)) (publicInfo w)) ;;
    _ <~ log (Emit "WhatsAppClient" ("call:" +:+ status call) (id call)) ;;
    onCallStatus (status call) (id call)
  else ret tt.

(** One ['call'] event with everything it sets off. *)
Definition handle (call : WACall) : M unit :=
  _ <~ onCall call ;;
  run_pending.

(** *** Reading a trace *)

(** The child tags of the [call] stanzas sent for [callId]. *)
Definition call_stanza (callId : string) (e : effect) : option string :=
  match e with
  | Stanza (Node "call" _ (CList (child :: _))) =>
      if decide (Extractor.attrs child !! "call-id" = Some callId)
      then Some (Extractor.tag child) else None
  | _ => None
  end.

Definition sent (kind callId : string) (t : list effect) : nat :=
  length (filter (fun e => call_stanza callId e = Some kind) t).

Definition is_receipt (e : effect) : bool :=
  match e with
  | Stanza (Node "receipt" _ _) => true
  | _ => false
  end.

Definition receipts (t : list effect) : nat :=
  length (filter (fun e => is_receipt e = true) t).

Definition is_reject (callId : string) (e : effect) : bool :=
  match e with
  | Reject c _ => bool_decide (c = callId)
  | _ => false
  end.

Definition rejected (callId : string) (t : list effect) : nat :=
  length (filter (fun e => is_reject callId e = true) t).

(** *** Assumptions and bookkeeping for the proofs *)

(** The socket is connected and every operation on it succeeds. *)
Definition healthy (w : World) : Prop := sock w = true /\ forall n, net (env w) n = true.

(** What the sends leave alone. *)
Definition frame (w w' : World) : Prop :=
  env w' = env w /\ sock w' = sock w
  /\ decryptedOffers w' = decryptedOffers w /\ callState w' = callState w.

(** [m] returns normally from [w], adding [t] to the trace. *)
Definition runs (m : M unit) (w : World) (t : list effect) (w' : World) : Prop :=
  m w = (Ok tt, w') /\ trace w' = trace w ++ t /\ frame w w'.

(** A session entry once the accept flow has completed. *)
Definition mark (st : CallState) : CallState :=
  {| gotTransport := gotTransport st; gotRelay := gotRelay st; accepted := true |}.

(** The entry [onCall] registers for a new offer. *)
Definition fresh : CallState :=
  {| gotTransport := false; gotRelay := false; accepted := false |}.

End Signaling.

(** ** Plain RTP relay ([whatsapp/voice-bridge]) *)

Module Voice.

Import Buffer.

Definition payloadType : Z := 111.
Definition frameSamples : Z := 960.

(** [VoiceBridge]: the targets are [undefined] until set. *)
Record VoiceBridge : Type := {
  isRunning : bool;
  asteriskIp : option string;
  asteriskPort : option Z;
  waIp : option string;
  waPort : option Z;
  ssrcOut : Z;
  seq : Z;
  timestamp : Z
}.

(** [new VoiceBridge(listenPort)]; [rnd] is
    [Math.floor(Math.random() * 0xffffffff)]. *)
Definition new (rnd : Z) : VoiceBridge := {|
  isRunning := false; asteriskIp := None; asteriskPort := None;
  waIp := None; waPort := None; ssrcOut := rnd; seq := 0; timestamp := 0
|}.

Definition set_running (v : VoiceBridge) (r : bool) : VoiceBridge := {|
  isRunning := r; asteriskIp := asteriskIp v; asteriskPort := asteriskPort v;
  waIp := waIp v; waPort := waPort v; ssrcOut := ssrcOut v; seq := seq v;
  timestamp := timestamp v
|}.

(** [start()] and [stop()], as far as [onMessage] sees them. *)
Definition start (v : VoiceBridge) : VoiceBridge :=
  if isRunning v then v else set_running v true.

Definition stop (v : VoiceBridge) : VoiceBridge := set_running v false.

Definition setAsteriskTarget (v : VoiceBridge) (ip : string) (port : Z) : VoiceBridge := {|
  isRunning := isRunning v; asteriskIp := Some ip; asteriskPort := Some port;
  waIp := waIp v; waPort := waPort v; ssrcOut := ssrcOut v; seq := seq v;
  timestamp := timestamp v
|}.

Definition setWhatsAppTarget (v : VoiceBridge) (ip : string) (port : Z) : VoiceBridge := {|
  isRunning := isRunning v; asteriskIp := asteriskIp v; asteriskPort := asteriskPort v;
  waIp := Some ip; waPort := Some port; ssrcOut := ssrcOut v; seq := seq v;
  timestamp := timestamp v
|}.

(** The state after one packet was rewritten. *)
Definition advance (v : VoiceBridge) : VoiceBridge := {|
  isRunning := isRunning v; asteriskIp := asteriskIp v; asteriskPort := asteriskPort v;
  waIp := waIp v; waPort := waPort v; ssrcOut := ssrcOut v;
  seq := Z.land (seq v + 1) 0xffff;
  timestamp := timestamp v + frameSamples
|}.

(** [rewriteRtp(packet)]: [None] is [null]. The counters advance only
    for a packet that is rewritten. *)
Definition rewriteRtp (v : VoiceBridge) (packet : buffer)
  : result (VoiceBridge * option buffer) exn :=
  if decide (length packet < 12)%nat then Ok (v, None)
  else
    let first := default 0 (packet !! 0%nat) in
    let version := Z.shiftr first 6 in
    if decide (version <> 2) then Ok (v, None)
    else if decide (first = 0x00 \/ first = 0x01) then Ok (v, None)
    else
      let body := drop 12 packet in
      let out := alloc (12 + length body) in
      let out := <[0%nat := 0x80]> out in
      let out := <[1%nat := payloadType]> out in
      let v := advance v in
      out <- writeUInt16BE (seq v) 2 out ;;
      out <- writeUInt32BE (Stun.u32 (timestamp v)) 4 out ;;
      out <- writeUInt32BE (Stun.u32 (ssrcOut v)) 8 out ;;
      Ok (v, Some (copy body out 12)).

(** A target is usable when its address is a non-empty string and its
    port a non-zero number. *)
Definition target (ip : option string) (port : option Z) : option (string * Z) :=
  match ip, port with
  | Some i, Some p => if decide (i = "" \/ p = 0) then None else Some (i, p)
  | _, _ => None
  end.

Definition comes_from (t : option (string * Z)) (rinfo : Stun.RemoteInfo) : bool :=
  match t with
  | Some (i, p) => bool_decide (Stun.address rinfo = i /\ Stun.port rinfo = p)
  | None => false
  end.

(** [onMessage(msg, rinfo)]: the state it leaves, and what it sent or
    the exception [socket.send] raised. *)
Definition onMessage (v : VoiceBridge) (msg : buffer) (rinfo : Stun.RemoteInfo)
  : VoiceBridge * result (list Stun.effect) exn :=
  if negb (isRunning v) then (v, Ok [])
  else
    let asterisk := target (asteriskIp v) (asteriskPort v) in
    let whatsapp := target (waIp v) (waPort v) in
    if comes_from asterisk rinfo then
      match whatsapp with
      | Some (ip, port) => (v, Stun.socket_send msg port ip)
      | None => (v, Ok [])
      end
    else if comes_from whatsapp rinfo then
      match asterisk with
      | None => (v, Ok [])
      | Some (ip, port) =>
          match rewriteRtp v msg with
          | Ok (v, Some rtp) => (v, Stun.socket_send rtp port ip)
          | Ok (v, None) => (v, Ok [])
          | Error e => (v, Error e)
          end
      end
    else (v, Ok []).

(** The packets in the WhatsApp-to-Asterisk direction, one after the
    other; the rewritten ones are collected. *)
Fixpoint rewrite_all (v : VoiceBridge) (packets : list buffer)
  : result (VoiceBridge * list buffer) exn :=
  match packets with
  | [] => Ok (v, [])
  | p :: ps =>
      r <- rewriteRtp v p ;;
      rest <- rewrite_all (fst r) ps ;;
      Ok (fst rest, match snd r with Some out => out :: snd rest | None => snd rest end)
  end.

(** A packet is rewritten when it holds at least the fixed RTP header
    and its first byte says version 2. *)
Definition rewritable (packet : buffer) : Prop :=
  (12 <= length packet)%nat /\ 128 <= default 0 (packet !! 0%nat) < 192.

(** The sequence number a packet carries, read back from its bytes. *)
Definition sequence_of (packet : buffer) : result Z exn := readUInt16BE packet 2.

End Voice.

(** ** Transport negotiation ([whatsapp/client]: [handleTransportMessage],
       [sip/call-bridge]: the ['call:transport'] listener)

    An attribute whose value is [undefined] is left out of the
    attribute map. [state.bestRelayTe], which [handleTransportMessage]
    stores and nothing reads, is left out. *)

Module Transport.

Import Buffer Signaling.

Definition with_attr (k : string) (v : option string) (a : gmap string string)
  : gmap string string :=
  match v with
  | Some x => <[k := x]> a
  | None => a
  end.

(** [node.tag === 'call' && Array.isArray(node.content)
                         && node.content[0]?.tag] *)
Definition ack_type (n : node) : option string :=
  if decide (Extractor.tag n = "call") then
    match Extractor.node_content n with
    | CList (child :: _) =>
        if decide (Extractor.tag child = "") then None else Some (Extractor.tag child)
    | _ => None
    end
  else None.

Definition ackNode (n : node) : node :=
  Node "ack"
    (with_attr "type" (ack_type n)
       (with_attr "to" (Extractor.attrs n !! "from")
          (with_attr "id" (Extractor.attrs n !! "id")
             (with_attr "class" (nonempty (Some (Extractor.tag n))) ∅))))
    CUndefined.

(** [sendCallAck(node)] *)
Definition sendCallAck (n : node) : M unit :=
  s <~ get sock ;;
  if negb s then ret tt else sendNode (ackNode n).

(** The [relayInfo] argument of [sendRelaylatency]. *)
Record RelayInfo : Type := {
  relay_name : option string;
  latency : option string;
  token : content
}.

Definition relaylatencyNode (tag callId : string) (from : option string)
    (relayInfo : option RelayInfo) : node :=
  Node "call" (with_attr "to" from {[ "id" := tag ]})
    (CList [
      Node "relaylatency"
        (with_attr "call-creator" from {[ "call-id" := callId; "v" := "3" ]})
        (CList [
          Node "te"
            {[ "relay_name" := default "gru1c02" (nonempty (relayInfo ≫= relay_name));
               "latency" := default "10" (nonempty (relayInfo ≫= latency)) ]}
            match relayInfo with
            | Some info =>
                if Extractor.truthy (token info) then token info else CBytes (alloc 6)
            | None => CBytes (alloc 6)
            end ]) ]).

(** [sendRelaylatency(callId, from, relayInfo?)] *)
Definition sendRelaylatency (callId : string) (from : option string)
    (relayInfo : option RelayInfo) : M unit :=
  s <~ get sock ;;
  if negb s then ret tt
  else
    tag <~ generateMessageTag ;;
    sendNode (relaylatencyNode tag callId from relayInfo).

Section Client.

(** [config.network.publicIp] *)
Variable network_publicIp : string.

Definition transportNode (tag callId : string) (from : option string)
    (round ip port : string) : node :=
  Node "call" (with_attr "to" from {[ "id" := tag ]})
    (CList [
      Node "transport"
        (with_attr "call-creator" from
           {[ "call-id" := callId; "p2p-cand-round" := round;
              "transport-message-type" := "2"; "v" := "3" ]})
        (CList [
          leaf "net" {[ "protocol" := "0"; "medium" := "3" ]};
          leaf "cand" {[ "ip" := ip; "port" := port; "type" := "host";
                         "protocol" := "udp"; "foundation" := "1";
                         "component" := "1"; "priority" := "2130706431" ]} ]) ]).

(** [this.publicInfo?.ip || config.network.publicIp] *)
Definition signaledIp (w : World) : string :=
  match publicInfo w with
  | Some (ip, _) => if decide (ip = "") then network_publicIp else ip
  | None => network_publicIp
  end.

(** [(this.publicInfo?.port || config.rtp.portMin).toString()] *)
Definition signaledPort (w : World) : string :=
  match publicInfo w with
  | Some (_, port) => if decide (port = 0) then pretty (rtp_portMin (env w)) else pretty port
  | None => pretty (rtp_portMin (env w))
  end.

(** [sendTransportResponse(callId, from, transportAttrs)] *)
Definition sendTransportResponse (callId : string) (from : option string)
    (transportAttrs : gmap string string) : M unit :=
  s <~ get sock ;;
  if negb s then ret tt
  else
    ip <~ get signaledIp ;;
    port <~ get signaledPort ;;
    tag <~ generateMessageTag ;;
    let round := default "1" (nonempty (transportAttrs !! "p2p-cand-round")) in
    socket_op (Stanza (transportNode tag callId from round ip port)).

(** The [rte] child of a transport item. *)
Definition find_rte (c : content) : option node :=
  match c with
  | CList children => List.find (fun c => bool_decide (Extractor.tag c = "rte")) children
  | CNode child => if decide (Extractor.tag child = "rte") then Some child else None
  | _ => None
  end.

Definition adopt (endpoint : option Extractor.RelayEndpoint) : M unit :=
  match endpoint with
  | Some ep => modify (set_publicInfo (Some (Extractor.ip ep, Extractor.port ep)))
  | None => ret tt
  end.

(** [state.gotTransport = true; this.callState.set(callId, state)]
    and the same for [gotRelay], when the call has a state. *)
Definition note (callId : string) (state : option CallState) (transport : bool) : M unit :=
  match state with
  | Some st =>
      modify (fun w =>
        set_callState
          (<[callId := {| gotTransport := if transport then true else gotTransport st;
                           gotRelay := if transport then gotRelay st else true;
                           accepted := accepted st |}]> (callState w)) w)
  | None => ret tt
  end.

(** One turn of the loop over the content items; the call id carries
    over from item to item. *)
Definition handle_item (from : option string) (item : node) (callId : option string)
  : M (option string) :=
  let callId := match Extractor.attr item "call-id" with
                | Some c => Some c
                | None => callId
                end in
  match callId with
  | None => ret None
  | Some cid =>
      state <~ get (fun w => callState w !! cid) ;;
      _ <~ (if decide (Extractor.tag item = "transport") then
              _ <~ note cid state true ;;
              _ <~ sendTransportResponse cid from (Extractor.attrs item) ;;
              adopt (find_rte (Extractor.node_content item) ≫= Extractor.parseRelayEndpoint)
            else ret tt) ;;
      _ <~ (if decide (Extractor.tag item = "relaylatency") then
              _ <~ note cid state false ;;
              let teNodes := match Extractor.node_content item with
                             | CList children => children
                             | _ => []
                             end in
              for_each (fun te =>
                if decide (Extractor.tag te = "te" \/ Extractor.tag te = "te2") then
                  sendRelaylatency cid from
                    (Some {| relay_name := Extractor.attrs te !! "relay_name";
                             latency := Some "10";
                             token := Extractor.node_content te |})
                else ret tt) teNodes
            else ret tt) ;;
      _ <~ (if decide (Extractor.tag item = "rte") then
              adopt (Extractor.parseRelayEndpoint item)
            else ret tt) ;;
      ret (Some cid)
  end.

Fixpoint handle_items (from : option string) (items : list node) (callId : option string)
  : M unit :=
  match items with
  | [] => ret tt
  | item :: items =>
      callId <~ handle_item from item callId ;;
      handle_items from items callId
  end.

(** [Array.isArray(node.content) ? node.content : [node.content]]; a
    content that is no node has neither tag nor attributes and is
    skipped by the loop. *)
Definition contentItems (c : content) : list node :=
  match c with
  | CList children => children
  | CNode child => [child]
  | _ => []
  end.

(** [handleTransportMessage(node)] *)
Definition handleTransportMessage (n : node) : M unit :=
  s <~ get sock ;;
  if negb s || negb (Extractor.truthy (Extractor.node_content n)) then ret tt
  else
    let from := Extractor.attrs n !! "from" in
    _ <~ sendCallAck n ;;
    handle_items from (contentItems (Extractor.node_content n)) None.

End Client.

(** The session entry after [note]. *)
Definition noted (w : World) (cid : string) (transport : bool) : gmap string CallState :=
  match callState w !! cid with
  | Some st => <[cid := {| gotTransport := if transport then true else gotTransport st;
                           gotRelay := if transport then gotRelay st else true;
                           accepted := accepted st |}]> (callState w)
  | None => callState w
  end.

(** The answer to the [i]-th relay ping of an item handled from [w]. *)
Definition echo (w : World) (callId : string) (from : option string) (i : nat) (te : node)
  : effect :=
  Stanza (relaylatencyNode (messageTag (env w) (epoch w + i)%nat) callId from
            (Some {| relay_name := Extractor.attrs te !! "relay_name";
                     latency := Some "10";
                     token := Extractor.node_content te |})).

Definition is_te (te : node) : Prop := Extractor.tag te = "te" \/ Extractor.tag te = "te2".

#[global] Instance is_te_dec (te : node) : Decision (is_te te).
Proof. unfold is_te. apply _. Defined.

(** The sessions are the same, with the same [accepted] marks. *)
Definition same_sessions (w w' : World) : Prop :=
  forall c, accepted <$> (callState w' !! c) = accepted <$> (callState w !! c).

(** [m] never opens, closes or accepts a session. *)
Definition keeps_sessions {A : Type} (m : M A) : Prop :=
  forall w, same_sessions w (snd (m w)).

(** *** The relay merge of the bridge's ['call:transport'] listener *)

(** [currentRelays.find(r => r.token)?.token || this.globalTransportToken] *)
Definition fallbackToken (currentRelays : list Stun.Relay)
    (globalTransportToken : option buffer) : option buffer :=
  match List.find (fun r => bool_decide (is_Some (Stun.token r))) currentRelays with
  | Some r => Stun.token r
  | None => globalTransportToken
  end.

(** [node.content?.[0]?.attrs?.['call-id']] *)
Definition first_call_id (n : node) : option string :=
  match Extractor.node_content n with
  | CList (child :: _) => Extractor.attr child "call-id"
  | _ => None
  end.

Definition or_token (a b : option buffer) : option buffer :=
  match a with
  | Some t => Some t
  | None => b
  end.

(** [newRelays.map(nr => ({ ...nr, token, username, callCreator }))] *)
Definition mergeRelays (n : node) (newRelays : list Extractor.RelayEndpoint)
    (currentRelays : list Stun.Relay) (globalTransportToken : option buffer)
    (call : CallEvent) : list Stun.Relay :=
  map (fun nr =>
         let existing :=
           List.find (fun cr => bool_decide (Stun.ip cr = Extractor.ip nr
                                             /\ Stun.rport cr = Extractor.port nr))
                     currentRelays in
         {| Stun.ip := Extractor.ip nr;
            Stun.rport := Extractor.port nr;
            Stun.token :=
              or_token (Extractor.token nr)
                (or_token (existing ≫= Stun.token)
                   (fallbackToken currentRelays globalTransportToken));
            Stun.username :=
              Some (default (callId call)
                      (nonempty (or_else (first_call_id n) (existing ≫= Stun.username))));
            Stun.callCreator := Some (from call) |})
      newRelays.

End Transport.

(** ** Configuration ([config]) *)

Module Configuration.

Section Environment.

(** [parseInt(value, 10)]; [None] is [NaN]. *)
Variable parseInt : string -> option Z.

(** [process.env] *)
Definition environment : Type := gmap string string.

Definition missing (key : string) : exn :=
  JsError ("Missing required environment variable: " +:+ key).

(** [getEnv(key, defaultValue?)] *)
Definition getEnv (env : environment) (key : string) (defaultValue : option string)
  : result string exn :=
  match Signaling.nonempty (env !! key), Signaling.nonempty defaultValue with
  | None, None => Error (missing key)
  | Some value, _ => Ok value
  | None, Some d => Ok d
  end.

(** [getEnvNumber(key, defaultValue?)]; a number is [None] when it is
    [NaN]. *)
Definition getEnvNumber (env : environment) (key : string) (defaultValue : option Z)
  : result (option Z) exn :=
  match Signaling.nonempty (env !! key), defaultValue with
  | None, None => Error (missing key)
  | Some value, _ => Ok (parseInt value)
  | None, Some d => Ok (Some d)
  end.

Record Config : Type := {
  asterisk_host : string;
  asterisk_port : option Z;
  asterisk_user : string;
  asterisk_password : string;
  asterisk_realm : string;
  asterisk_context : string;
  asterisk_transport : string;
  rtp_portMin : option Z;
  rtp_portMax : option Z;
  whatsapp_sessionDir : string;
  logging_level : string;
  logging_file : string;
  network_bindAddress : string;
  network_publicIp : string
}.

(** The [config] object, its fields evaluated in the order written. *)
Definition load (env : environment) : result Config exn :=
  host <- getEnv env "ASTERISK_HOST" None ;;
  port <- getEnvNumber env "ASTERISK_PORT" (Some 5060) ;;
  user <- getEnv env "ASTERISK_USER" None ;;
  password <- getEnv env "ASTERISK_PASSWORD" None ;;
  realm <- getEnv env "ASTERISK_REALM" (Some "asterisk.local") ;;
  context <- getEnv env "ASTERISK_CONTEXT" (Some "from-whatsapp") ;;
  transport <- getEnv env "SIP_TRANSPORT" (Some "UDP") ;;
  portMin <- getEnvNumber env "RTP_PORT_MIN" (Some 10000) ;;
  portMax <- getEnvNumber env "RTP_PORT_MAX" (Some 20000) ;;
  sessionDir <- getEnv env "WHATSAPP_SESSION_DIR" (Some "./auth_info") ;;
  level <- getEnv env "LOG_LEVEL" (Some "info") ;;
  file <- getEnv env "LOG_FILE" (Some "./logs/gateway.log") ;;
  bindAddress <- getEnv env "BIND_ADDRESS" (Some "0.0.0.0") ;;
  publicIp <- getEnv env "PUBLIC_IP" (Some "127.0.0.1") ;;
  Ok {| asterisk_host := host; asterisk_port := port; asterisk_user := user;
        asterisk_password := password; asterisk_realm := realm;
        asterisk_context := context; asterisk_transport := transport;
        rtp_portMin := portMin; rtp_portMax := portMax;
        whatsapp_sessionDir := sessionDir; logging_level := level;
        logging_file := file; network_bindAddress := bindAddress;
        network_publicIp := publicIp |}.

(** [a >= b] on numbers: false when either is [NaN]. *)
Definition geq (a b : option Z) : bool :=
  match a, b with
  | Some x, Some y => bool_decide (x >= y)
  | _, _ => false
  end.

Definition newline : string := String (Ascii.ascii_of_nat 10) "".

Definition errors (c : Config) : list string :=
  (if decide (asterisk_host c = "") then ["ASTERISK_HOST is required"] else [])
  ++ (if decide (asterisk_user c = "") then ["ASTERISK_USER is required"] else [])
  ++ (if decide (asterisk_password c = "") then ["ASTERISK_PASSWORD is required"] else [])
  ++ (if geq (rtp_portMin c) (rtp_portMax c)
      then ["RTP_PORT_MIN must be less than RTP_PORT_MAX"] else []).

(** [validateConfig()] *)
Definition validateConfig (c : Config) : result unit exn :=
  match errors c with
  | [] => Ok tt
  | es => Error (JsError ("Configuration validation failed:" +:+ newline
                          +:+ String.concat newline es))
  end.

End Environment.

End Configuration.

(** ** Sample inputs *)

Module Samples.

Import Buffer.

(** Stand-ins for the SRTP session and the RTP parser. *)
Definition no_decrypt : Media.MediaKeys -> buffer -> result (option buffer) exn :=
  fun _ _ => Error (JsError "auth tag mismatch").

Definition plain_encrypt : Media.MediaKeys -> buffer -> Media.RtpHeader -> result buffer exn :=
  fun _ body _ => Ok body.

Definition no_rtp : buffer -> result Media.RtpPacket exn :=
  fun _ => Error RangeError.

Definition sample_config : Media.Config := {|
  Media.localPort := 10007; Media.asteriskHost := "10.0.0.2";
  Media.asteriskRtpPort := 0; Media.relayEndpoints := None
|}.

Definition sample_rinfo : Stun.RemoteInfo :=
  {| Stun.address := "157.240.0.1"; Stun.port := 3478 |}.

Definition started_stun : Stun.StunClient := Stun.start {| Stun.socket := false |}.

(** A bridge after [setStunClient] and [start()]. *)
Definition listening_bridge : Media.MediaBridge :=
  Media.listening (Media.setStunClient (Media.new sample_config) started_stun).

Definition sample_keys : Media.MediaKeys :=
  {| Media.masterKey := seqZ 0 16; Media.masterSalt := seqZ 16 14 |}.

Definition sample_relay : Stun.Relay := {|
  Stun.ip := "157.240.0.1"; Stun.rport := 3478; Stun.token := Some [1; 2; 3; 4];
  Stun.username := Some "CALL1"; Stun.callCreator := None
|}.

(** A keyed bridge with an active relay, one packet before the wrap. *)
Definition sending_bridge : Media.MediaBridge := {|
  Media.udpSocket := true; Media.srtpSession := Some sample_keys;
  Media.authKeys := Some sample_keys; Media.activeRelay := Some sample_relay;
  Media.stunClient := Some started_stun; Media.packetsRx := 1;
  Media.config := sample_config; Media.silenceInterval := true;
  Media.outSeq := 65534; Media.outSsrc := 123456; Media.silenceTs := 0
|}.

(** A Binding Error response cut off after its attribute header:
    24 bytes, type 0x0111. *)
Definition short_binding_error : buffer :=
  [0x01; 0x11; 0x00; 0x04; 0x21; 0x12; 0xA4; 0x42;
   1; 2; 3; 4; 5; 6; 7; 8; 9; 10; 11; 12;
   0x00; 0x09; 0x00; 0x00].


Definition key_leaf (blob : buffer) : Extractor.offer :=
  Extractor.OfferStanza (Extractor.Node "call-key" ∅ (Extractor.CBytes blob)).


(** An offer stanza with one relay candidate and no key. *)
Definition relay_only_offer : Extractor.offer :=
  Extractor.OfferStanza
    (Extractor.Node "offer" {[ "call-id" := "CALL1" ]}
       (Extractor.CList
          [Extractor.Node "te" ∅ (Extractor.CBytes [157; 240; 0; 1; 13; 150; 1; 2; 3; 4])])).

Definition sample_env : Signaling.Env := {|
  Signaling.jidNormalizedUser := fun jid => jid;
  Signaling.messageTag := fun n => "3EB0." +:+ pretty n;
  Signaling.net := fun _ => true;
  Signaling.hmac_sha1 := fun _ _ => replicate 20 0;
  Signaling.entropy := fun _ => [];
  Signaling.random := fun _ => 7;
  Signaling.sip_answers := true;
  Signaling.now := 1770000000000;
  Signaling.rtp_portMin := 10000;
  Signaling.asterisk_host := "10.0.0.2"
|}.

(** A connected client with nothing in flight. *)
Definition idle_world : Signaling.World := {|
  Signaling.env := sample_env; Signaling.sock := true; Signaling.epoch := 0;
  Signaling.decryptedOffers := ∅; Signaling.callState := ∅;
  Signaling.publicInfo := None; Signaling.activeCalls := ∅;
  Signaling.activeBridges := ∅; Signaling.ops := 0; Signaling.draws := 0;
  Signaling.pending := []; Signaling.trace := []
|}.

(** The same client once an offer for CALL1 has been registered. *)
Definition offered_world : Signaling.World := {|
  Signaling.env := sample_env; Signaling.sock := true; Signaling.epoch := 4;
  Signaling.decryptedOffers := ∅;
  Signaling.callState := {[ "CALL1" := Signaling.fresh ]};
  Signaling.publicInfo := None; Signaling.activeCalls := ∅;
  Signaling.activeBridges := ∅; Signaling.ops := 4; Signaling.draws := 0;
  Signaling.pending := []; Signaling.trace := []
|}.

Definition caller : string := "5511999990000:12@s.whatsapp.net".

Definition video_offer : Signaling.WACall := {|
  Signaling.id := "CALL1"; Signaling.wa_from := caller; Signaling.status := "offer";
  Signaling.wa_isVideo := Some true; Signaling.wa_isGroup := None
|}.


(** A stand-in for HMAC-SHA1: twenty zero bytes. *)
Definition zero_hmac : Buffer.buffer -> Buffer.buffer -> Buffer.buffer :=
  fun _ _ => replicate 20 0.

(** The signed request for CALL1 with token 01 02 03 04. *)
Definition signed_request : Buffer.buffer :=
  Stun.layout zero_hmac (Some "CALL1") [1; 2; 3; 4] false (seqZ 1 12) (seqZ 100 8).

(** A stand-in for SRTP decryption that returns the packet itself. *)
Definition unseal : Media.MediaKeys -> Buffer.buffer -> result (option Buffer.buffer) exn :=
  fun _ msg => Ok (Some msg).

(** A stand-in for the RTP parser: every packet is PCMU (payload type
    0) at time stamp 160, its payload what follows the first two
    bytes. *)
Definition pcmu_packet (msg : Buffer.buffer) : Media.RtpPacket :=
  {| Media.header :=
       {| Media.version := 2; Media.padding := false;
          Media.extension := false; Media.marker := false;
          Media.payloadType := 0; Media.sequenceNumber := 1;
          Media.timestamp := 160; Media.ssrc := 99 |};
     Media.payload := drop 2 msg |}.

Definition pcmu_rtp : Buffer.buffer -> result Media.RtpPacket exn :=
  fun msg => Ok (pcmu_packet msg).

Definition asterisk_rinfo : Stun.RemoteInfo :=
  {| Stun.address := "10.0.0.2"; Stun.port := 4000 |}.

(** A bridge in mid-call: keyed, with an active relay and the
    Asterisk port known. *)
Definition answering_bridge : Media.MediaBridge := {|
  Media.udpSocket := true; Media.srtpSession := Some sample_keys;
  Media.authKeys := Some sample_keys; Media.activeRelay := Some sample_relay;
  Media.stunClient := Some started_stun; Media.packetsRx := 1;
  Media.config := {| Media.localPort := 10007; Media.asteriskHost := "10.0.0.2";
                     Media.asteriskRtpPort := 4000;
                     Media.relayEndpoints := Some [sample_relay] |};
  Media.silenceInterval := true;
  Media.outSeq := 65534; Media.outSsrc := 123456; Media.silenceTs := 0
|}.

Definition fixed_entropy : nat -> Buffer.buffer * Buffer.buffer :=
  fun _ => (seqZ 1 12, seqZ 100 8).

(** A relay candidate whose port bytes were zero. *)
Definition portless_relay : Stun.Relay := {|
  Stun.ip := "157.240.0.1"; Stun.rport := 0; Stun.token := Some [1; 2; 3; 4];
  Stun.username := Some "CALL1"; Stun.callCreator := None
|}.

(** A listening bridge that knows only that candidate. *)
Definition unreachable_bridge : Media.MediaBridge :=
  Media.updateRelays listening_bridge [portless_relay].

(** A keyed bridge that has not heard from a relay yet. *)
Definition waiting_bridge : Media.MediaBridge := {|
  Media.udpSocket := true; Media.srtpSession := Some sample_keys;
  Media.authKeys := Some sample_keys; Media.activeRelay := None;
  Media.stunClient := Some started_stun; Media.packetsRx := 0;
  Media.config := sample_config; Media.silenceInterval := true;
  Media.outSeq := 5; Media.outSsrc := 123456; Media.silenceTs := 0
|}.

(** An offer stanza with a key, one token and one relay candidate
    that has no token of its own. *)
Definition offer_with_relay (address : Buffer.buffer) : Extractor.offer :=
  Extractor.OfferStanza
    (Extractor.Node "offer" {[ "call-id" := "CALL1" ]}
       (Extractor.CList
          [Extractor.Node "te" ∅ (Extractor.CBytes address);
           Extractor.Node "token" {[ "id" := "1" ]} (Extractor.CBytes [1; 2; 3; 4]);
           Extractor.Node "call-key" ∅ (Extractor.CBytes (seqZ 0 32))])).

(** An incoming call whose only relay candidate has port 0. *)
Definition portless_call : Signaling.CallEvent := {|
  Signaling.callId := "CALL1"; Signaling.from := caller;
  Signaling.timestamp := 1770000000000;
  Signaling.isVideo := false; Signaling.isGroup := false;
  Signaling.offer :=
    Some {| Signaling.body := offer_with_relay [157; 240; 0; 1; 0; 0];
            Signaling._stanzaId := None; Signaling._from := None;
            Signaling._callCreator := None |};
  Signaling.callCreator := None
|}.

Definition call_status (status : string) : Signaling.WACall := {|
  Signaling.id := "CALL1"; Signaling.wa_from := caller; Signaling.status := status;
  Signaling.wa_isVideo := None; Signaling.wa_isGroup := None
|}.

(** A network on which the seventh socket operation fails. *)
Definition lossy_env : Signaling.Env := {|
  Signaling.jidNormalizedUser := fun jid => jid;
  Signaling.messageTag := fun n => "3EB0." +:+ pretty n;
  Signaling.net := fun n => negb (Nat.eqb n 6);
  Signaling.hmac_sha1 := fun _ _ => replicate 20 0;
  Signaling.entropy := fun _ => [];
  Signaling.random := fun _ => 7;
  Signaling.sip_answers := true;
  Signaling.now := 1770000000000;
  Signaling.rtp_portMin := 10000;
  Signaling.asterisk_host := "10.0.0.2"
|}.

(** The client of [offered_world] on that network. *)
Definition lossy_world : Signaling.World := {|
  Signaling.env := lossy_env; Signaling.sock := true; Signaling.epoch := 4;
  Signaling.decryptedOffers := ∅;
  Signaling.callState := {[ "CALL1" := Signaling.fresh ]};
  Signaling.publicInfo := None; Signaling.activeCalls := ∅;
  Signaling.activeBridges := ∅; Signaling.ops := 4; Signaling.draws := 0;
  Signaling.pending := []; Signaling.trace := []
|}.

(** A relay running between Asterisk and a WhatsApp endpoint, one
    packet before its sequence counter wraps. *)
Definition running_relay : Voice.VoiceBridge := {|
  Voice.isRunning := true;
  Voice.asteriskIp := Some "10.0.0.2"; Voice.asteriskPort := Some 4000;
  Voice.waIp := Some "157.240.0.1"; Voice.waPort := Some 3478;
  Voice.ssrcOut := 123456; Voice.seq := 65534; Voice.timestamp := 0
|}.

(** A 13-byte RTP packet, version 2. *)
Definition rtp_packet : Buffer.buffer := [0x80; 0x00; 0; 1; 0; 0; 0; 160; 0; 0; 0; 99; 42].

(** A transport stanza for CALL1 and a relay-latency stanza with two
    relay pings and a child that is none. *)
Definition transport_attrs : gmap string string :=
  {[ "call-id" := "CALL1"; "p2p-cand-round" := "2" ]}.

Definition stanza_attrs : gmap string string := {[ "from" := caller; "id" := "S1" ]}.

Definition relay_pings : list Extractor.node :=
  [Extractor.Node "te" {[ "relay_name" := "gru1c02" ]} (Extractor.CBytes [1; 2; 3; 4]);
   Extractor.Node "net" ∅ Extractor.CUndefined;
   Extractor.Node "te2" ∅ (Extractor.CBytes [5; 6])].

(** A relay update: one candidate with a token, one without. *)
Definition announced_relays : list Extractor.RelayEndpoint :=
  [{| Extractor.ip := "157.240.0.1"; Extractor.port := 3478;
      Extractor.token := Some [9; 9] |};
   {| Extractor.ip := "157.240.0.2"; Extractor.port := 3478;
      Extractor.token := None |}].

(** An environment with the three required variables and a port
    range that is no range. *)
Definition sample_environment : Configuration.environment :=
  {[ "ASTERISK_HOST" := "10.0.0.2"; "ASTERISK_USER" := "gateway";
     "ASTERISK_PASSWORD" := "secret"; "RTP_PORT_MIN" := "20000" ]}.

(** A stand-in for [parseInt]: every value reads as 20000. *)
Definition parse_20000 : string -> option Z := fun _ => Some 20000.

Definition candidate (tok : option Buffer.buffer) : Extractor.RelayEndpoint :=
  {| Extractor.ip := "157.240.0.1"; Extractor.port := 3478; Extractor.token := tok |}.

(** What the extractor returns for [offer_with_relay]. *)
Definition found_keys (relays : list Extractor.RelayEndpoint) : Extractor.ExtractedKeys :=
  {| Extractor.masterKey := seqZ 0 16; Extractor.masterSalt := seqZ 16 14;
     Extractor.relayEndpoints := relays |}.

(** A transport stanza with one candidate and the token for it. *)
Definition transport_stanza : Extractor.node :=
  Extractor.Node "transport" transport_attrs
    (Extractor.CList
       [Extractor.Node "te" ∅ (Extractor.CBytes [157; 240; 0; 1; 13; 150]);
        Extractor.Node "token" ∅ (Extractor.CBytes [7; 7])]).

(** The configuration [sample_environment] loads as. *)
Definition sample_configuration : Configuration.Config := {|
  Configuration.asterisk_host := "10.0.0.2";
  Configuration.asterisk_port := Some 5060;
  Configuration.asterisk_user := "gateway";
  Configuration.asterisk_password := "secret";
  Configuration.asterisk_realm := "asterisk.local";
  Configuration.asterisk_context := "from-whatsapp";
  Configuration.asterisk_transport := "UDP";
  Configuration.rtp_portMin := Some 20000;
  Configuration.rtp_portMax := Some 20000;
  Configuration.whatsapp_sessionDir := "./auth_info";
  Configuration.logging_level := "info";
  Configuration.logging_file := "./logs/gateway.log";
  Configuration.network_bindAddress := "0.0.0.0";
  Configuration.network_publicIp := "127.0.0.1"
|}.

End Samples.

(** * Properties *)

(** ** The exception monad *)

Lemma bind_ok {A B : Type} (m : result A exn) (k : A -> result B exn) (b : B) :
  bind m k = Ok b -> exists a, m = Ok a /\ k a = Ok b.
Proof. destruct m as [a | e]; cbn; [eauto | discriminate]. Qed.

(** ** The STUN Binding Request *)

Section StunProperties.

Import Buffer Stun.

Variable hmac_sha1 : buffer -> buffer -> buffer.

Lemma writeUInt16BE_ok (v : Z) (off : nat) (b : buffer) :
  0 <= v <= 65535 -> (off + 2 <= length b)%nat ->
  writeUInt16BE v off b = Ok (write_at b off (be16 v)).
Proof. intros Hv Hoff. unfold writeUInt16BE. by rewrite decide_True. Qed.

Lemma writeUInt32BE_ok (v : Z) (off : nat) (b : buffer) :
  0 <= v <= 4294967295 -> (off + 4 <= length b)%nat ->
  writeUInt32BE v off b = Ok (write_at b off (be32 v)).
Proof. intros Hv Hoff. unfold writeUInt32BE. by rewrite decide_True. Qed.

Lemma length_alloc (n : nat) : length (alloc n) = n.
Proof. apply length_replicate. Qed.

(** Writing into the zeroed tail of a buffer. *)
Lemma write_at_tail (pre bs : buffer) (k : nat) :
  write_at (pre ++ alloc (length bs + k)) (length pre) bs = pre ++ bs ++ alloc k.
Proof.
  unfold write_at, alloc. rewrite take_app_length. f_equal. f_equal.
  rewrite drop_app_add. apply drop_replicate_add.
Qed.

Lemma copy_tail (pre src : buffer) (k : nat) :
  copy src (pre ++ alloc (length src + k)) (length pre) = pre ++ src ++ alloc k.
Proof.
  unfold copy. rewrite length_app, length_alloc.
  replace (length pre + (length src + k) - length pre)%nat with (length src + k)%nat by lia.
  rewrite take_ge by lia. apply write_at_tail.
Qed.

(** The three writes every attribute is built with amount to [tlv]. *)
Lemma tlv_attr {B : Type} (type : Z) (value : buffer) (k : buffer -> result B exn) :
  0 <= type <= 65535 -> Z.of_nat (length value) <= 65535 ->
  (attr <- writeUInt16BE type 0 (alloc (4 + length value + (4 - length value mod 4) mod 4)) ;;
   attr <- writeUInt16BE (Z.of_nat (length value)) 2 attr ;;
   k (copy value attr 4)) = k (tlv type value).
Proof.
  intros Htype Hlen.
  set (pad := ((4 - length value mod 4) mod 4)%nat).
  rewrite writeUInt16BE_ok; [| done | rewrite length_alloc; lia].
  cbn [bind].
  change (alloc (4 + length value + pad))
    with ([] ++ alloc (length (be16 type) + (2 + length value + pad))).
  rewrite (write_at_tail [] (be16 type)).
  change ([] ++ be16 type ++ alloc (2 + length value + pad))
    with (be16 type ++ alloc (length (be16 (Z.of_nat (length value))) + (length value + pad))).
  rewrite writeUInt16BE_ok;
    [| lia | rewrite length_app, length_alloc; cbn; lia].
  cbn [bind]. rewrite (write_at_tail (be16 type)).
  change (be16 type ++ be16 (Z.of_nat (length value)) ++ alloc (length value + pad))
    with ((be16 type ++ be16 (Z.of_nat (length value))) ++ alloc (length value + pad)).
  f_equal.
  etrans; [apply (copy_tail (be16 type ++ be16 (Z.of_nat (length value))) value pad) |].
  unfold tlv. by rewrite <- app_assoc.
Qed.

Lemma username_attr_tlv (u : string) :
  Z.of_nat (length (from_string u)) <= 65535 ->
  username_attr u = Ok (tlv 0x0006 (from_string u)).
Proof. intros Hlen. unfold username_attr. by apply (tlv_attr 0x0006 (from_string u) Ok). Qed.

Lemma ice_controlled_attr_tlv (rnd : buffer) :
  length rnd = 8%nat -> ice_controlled_attr rnd = Ok (tlv 0x8029 rnd).
Proof.
  intros Hlen. unfold ice_controlled_attr.
  rewrite <- (tlv_attr 0x8029 rnd Ok) by (rewrite ?Hlen; lia). by rewrite Hlen.
Qed.

Lemma priority_attr_tlv : priority_attr = Ok (tlv 0x0024 (be32 1845494271)).
Proof. reflexivity. Qed.

Lemma use_candidate_attr_tlv : use_candidate_attr = Ok (tlv 0x0025 []).
Proof. reflexivity. Qed.

Lemma length_tlv (type : Z) (value : buffer) :
  (length value <= length (tlv type value))%nat.
Proof. unfold tlv. rewrite !length_app. cbn. lia. Qed.

Lemma message_integrity_layout (tok tid body : buffer) (attrs : list buffer) :
  length tid = 12%nat -> (forall k m, length (hmac_sha1 k m) = 20%nat) ->
  concat attrs = body -> 0 <= Z.of_nat (length body) + 24 <= 65535 ->
  message_integrity hmac_sha1 tok tid (write_at (alloc 20) 0 (be16 STUN_BINDING_REQUEST)) attrs
  = Ok (layout_header (Z.of_nat (length body) + 24) tid,
        attrs ++ [tlv 0x0008 (hmac_sha1 tok
                    (layout_header (Z.of_nat (length body) + 24) tid ++ body))]).
Proof.
  intros Htid Hmac Hbody Hrange. unfold message_integrity, total_length. rewrite Hbody.
  rewrite writeUInt16BE_ok by (cbn; lia). cbn [bind].
  rewrite writeUInt32BE_ok by (cbn; unfold STUN_MAGIC_COOKIE; lia). cbn [bind].
  assert (Hheader : copy tid
            (write_at (write_at (write_at (alloc 20) 0 (be16 STUN_BINDING_REQUEST))
                         2 (be16 (Z.of_nat (length body) + 24))) 4 (be32 STUN_MAGIC_COOKIE)) 8
          = layout_header (Z.of_nat (length body) + 24) tid).
  { unfold copy, write_at. cbn. rewrite take_ge by lia. rewrite Htid. cbn.
    unfold layout_header. cbn. by rewrite app_nil_r. }
  rewrite Hheader.
  set (sig := hmac_sha1 tok _).
  assert (Hsig : length sig = 20%nat) by apply Hmac.
  rewrite <- (tlv_attr 0x0008 sig (fun attr => Ok (layout_header (Z.of_nat (length body) + 24) tid,
                                                  attrs ++ [attr]))) by (rewrite ?Hsig; lia).
  by rewrite Hsig.
Qed.

Lemma fingerprint_layout (header rest body : buffer) (attrs : list buffer) (len : Z) :
  header = layout_header len rest -> concat attrs = body ->
  0 <= Z.of_nat (length body) + 8 <= 65535 ->
  fingerprint header attrs
  = Ok (layout_header (Z.of_nat (length body) + 8) rest,
        attrs ++ [tlv 0x8028
                    (be32 (u32 (Z.lxor (crc32 (layout_header (Z.of_nat (length body) + 8) rest
                                               ++ body)) 0x5354554e)))]).
Proof.
  intros -> Hbody Hrange. unfold fingerprint, total_length. rewrite Hbody.
  rewrite writeUInt16BE_ok by (unfold layout_header; cbn; lia). cbn [bind].
  assert (Hheader : write_at (layout_header len rest) 2 (be16 (Z.of_nat (length body) + 8))
                    = layout_header (Z.of_nat (length body) + 8) rest) by reflexivity.
  rewrite Hheader.
  set (fp := u32 _).
  assert (Hfp : 0 <= fp <= 4294967295).
  { subst fp. unfold u32. pose proof (Z.mod_pos_bound (Z.lxor (crc32 (layout_header
      (Z.of_nat (length body) + 8) rest ++ body)) 1398035790) 4294967296). lia. }
  rewrite writeUInt16BE_ok by (cbn; lia). cbn [bind].
  rewrite writeUInt16BE_ok by (cbn; lia). cbn [bind].
  rewrite writeUInt32BE_ok by (cbn; lia). cbn [bind]. reflexivity.
Qed.

(** With a token, [buildBindingRequest] produces the layout of the
    specification, byte for byte. *)
Lemma request_with_token_layout (user : option string) (tok transactionId rnd : buffer)
    (useCandidate : bool) :
  length transactionId = 12%nat -> length rnd = 8%nat ->
  (forall k m, length (hmac_sha1 k m) = 20%nat) ->
  Z.of_nat (length (layout_body user useCandidate rnd)) + 32 <= 65535 ->
  buildBindingRequest hmac_sha1 user (Some tok) useCandidate transactionId rnd
  = Ok (layout hmac_sha1 user tok useCandidate transactionId rnd).
Proof.
  intros Htid Hrnd Hmac Hsize. unfold buildBindingRequest.
  set (body := layout_body user useCandidate rnd) in *.
  rewrite writeUInt16BE_ok by (rewrite ?length_alloc; unfold STUN_BINDING_REQUEST; lia).
  cbn [bind].
  set (name := match user with
               | Some u => if decide (u = "") then [] else [tlv 0x0006 (from_string u)]
               | None => []
               end).
  assert (Hname : match user with
                  | Some u => if decide (u = "") then Ok []
                              else attr <- username_attr u ;; Ok ([] ++ [attr])
                  | None => Ok []
                  end = Ok name).
  { subst name body. destruct user as [u |]; [| done].
    destruct (decide (u = "")) as [-> | Hu]; [done |].
    rewrite username_attr_tlv; [done |].
    unfold layout_body in Hsize. rewrite decide_False in Hsize by done.
    rewrite length_app in Hsize. pose proof (length_tlv 0x0006 (from_string u)). lia. }
  rewrite Hname. cbn [bind].
  rewrite ice_controlled_attr_tlv by done. cbn [bind].
  rewrite priority_attr_tlv. cbn [bind].
  set (attrs := if useCandidate
                then (name ++ [tlv 0x8029 rnd]) ++ [tlv 0x0024 (be32 1845494271)]
                       ++ [tlv 0x0025 []]
                else (name ++ [tlv 0x8029 rnd]) ++ [tlv 0x0024 (be32 1845494271)]).
  assert (Hattrs : (if useCandidate
                    then attr <- use_candidate_attr ;;
                         Ok (((name ++ [tlv 0x8029 rnd]) ++ [tlv 0x0024 (be32 1845494271)])
                               ++ [attr])
                    else Ok ((name ++ [tlv 0x8029 rnd]) ++ [tlv 0x0024 (be32 1845494271)]))
                   = Ok attrs).
  { subst attrs. destruct useCandidate; [| done].
    rewrite use_candidate_attr_tlv. cbn [bind]. by rewrite <- !app_assoc. }
  rewrite Hattrs. cbn [bind].
  assert (Hconcat : concat attrs = body).
  { subst attrs name body. unfold layout_body.
    destruct user as [u |]; [destruct (decide (u = "")) |]; destruct useCandidate;
      cbn [concat app]; rewrite <- ?app_assoc, ?app_nil_r; reflexivity. }
  rewrite (message_integrity_layout tok transactionId body attrs) by (done || lia).
  cbn [bind].
  set (integrity := tlv 0x0008 _).
  assert (Hintegrity : length integrity = 24%nat).
  { subst integrity. unfold tlv. rewrite !length_app, Hmac. reflexivity. }
  rewrite (fingerprint_layout _ transactionId (body ++ integrity) _
             (Z.of_nat (length body) + 24)); [| done | |].
  - cbn [bind]. unfold layout. fold body. fold integrity.
    rewrite !concat_app. cbn [concat]. rewrite Hconcat, !app_nil_r.
    rewrite length_app, Hintegrity.
    replace (Z.of_nat (length body + 24) + 8) with (Z.of_nat (length body) + 32) by lia.
    by rewrite <- !app_assoc.
  - rewrite concat_app. cbn [concat]. by rewrite Hconcat, app_nil_r.
  - rewrite length_app, Hintegrity. lia.
Qed.

(** Without a token the cookie and the transaction id are never
    written: whatever the user name and the nomination flag, bytes
    4..19 of the datagram are zero. *)
Lemma request_without_token_header (user : option string) (useCandidate : bool)
    (transactionId rnd pkt : buffer) :
  buildBindingRequest hmac_sha1 user None useCandidate transactionId rnd = Ok pkt ->
  exists len, take 4 pkt = [0; 1; len / 256; len mod 256]
              /\ take 16 (drop 4 pkt) = alloc 16.
Proof.
  unfold buildBindingRequest. intros H.
  apply bind_ok in H as (header & Hheader & H).
  vm_compute in Hheader. injection Hheader as <-.
  apply bind_ok in H as (attrs1 & _ & H).
  apply bind_ok in H as (ice & _ & H).
  apply bind_ok in H as (prio & _ & H).
  apply bind_ok in H as (attrs2 & _ & H).
  apply bind_ok in H as ([header' attrs3] & Hsigned & H).
  injection Hsigned as <- <-.
  apply bind_ok in H as ([header' attrs4] & Hfp & H).
  injection H as <-.
  unfold fingerprint in Hfp.
  apply bind_ok in Hfp as (header2 & Hlen & Hfp).
  unfold writeUInt16BE in Hlen.
  destruct (decide _) as [Hrange | ]; [| discriminate]. injection Hlen as <-.
  apply bind_ok in Hfp as (a1 & _ & Hfp). apply bind_ok in Hfp as (a2 & _ & Hfp).
  apply bind_ok in Hfp as (a3 & _ & Hfp). injection Hfp as <- <-.
  eexists. cbn. split; reflexivity.
Qed.

(** C2. A Binding Request built without a token, as the connectivity
    test sends it, is not the datagram the layout describes: its header
    carries the type and the length, then sixteen zero bytes where the
    magic cookie 0x2112A442 and the twelve bytes of the transaction id
    belong. *)
Theorem binding_request_without_token_lacks_cookie :
  buildBindingRequest hmac_sha1 None None false
    [1; 2; 3; 4; 5; 6; 7; 8; 9; 10; 11; 12] [100; 101; 102; 103; 104; 105; 106; 107]
  = Ok ([0x00; 0x01; 0x00; 0x1c;
         0; 0; 0; 0;
         0; 0; 0; 0; 0; 0; 0; 0; 0; 0; 0; 0]
        ++ [0x80; 0x29; 0x00; 0x08; 100; 101; 102; 103; 104; 105; 106; 107]
        ++ [0x00; 0x24; 0x00; 0x04; 0x6e; 0x00; 0x01; 0xff]
        ++ [0x80; 0x28; 0x00; 0x04; 246; 46; 222; 152])
  /\ layout_header 0x1c [1; 2; 3; 4; 5; 6; 7; 8; 9; 10; 11; 12]
     = [0x00; 0x01; 0x00; 0x1c;
        0x21; 0x12; 0xA4; 0x42;
        1; 2; 3; 4; 5; 6; 7; 8; 9; 10; 11; 12].
Proof. split; vm_compute; reflexivity. Qed.

End StunProperties.

(** ** The demultiplexer and the packet handlers *)

Section MediaProperties.

Import Buffer Media.

Variable decrypt : MediaKeys -> buffer -> result (option buffer) exn.
Variable encrypt : MediaKeys -> buffer -> RtpHeader -> result buffer exn.
Variable deSerialize : buffer -> result RtpPacket exn.

Abbreviation demux := (Media.demux decrypt encrypt deSerialize).
Abbreviation handleMedia := (Media.handleMedia decrypt encrypt deSerialize).
Abbreviation sendRtp := (Media.sendRtp encrypt).
Abbreviation silenceTick := (Media.silenceTick encrypt).
Abbreviation send_all := (Media.send_all encrypt deSerialize).
Abbreviation encrypts := (Media.encrypts encrypt).

(** C5. A datagram whose first byte is 0..3 goes to the STUN client
    and nowhere else; every other first byte, 4..255, goes to the
    media handler. *)
Theorem demux_classifies_by_first_byte
    (b : MediaBridge) (c : Stun.StunClient) (first : Z) (rest : buffer)
    (rinfo : Stun.RemoteInfo) :
  0 <= first < 256 ->
  stunClient b = Some c ->
  (first <= 3 ->
     demux b (first :: rest) rinfo
     = (es <- Stun.handleMessage (first :: rest) rinfo ;; Ok (b, map StunEffect es)))
  /\ (4 <= first ->
     demux b (first :: rest) rinfo = Ok (handleMedia b (first :: rest) rinfo)).
Proof.
  intros Hbyte Hstun. unfold Media.demux. simpl. split; intros Hfirst.
  - destruct (decide (0 <= first /\ first <= 3)) as [_ | Hno]; [| lia].
    now rewrite Hstun.
  - destruct (decide (0 <= first /\ first <= 3)) as [Hyes | _]; [lia | reflexivity].
Qed.

(** [handleMessage] returns exactly when the datagram holds the bytes
    it reads: the type, and for a Binding Error longer than the
    header, the two bytes at offset 26. *)
Lemma handleMessage_returns_iff (msg : buffer) (rinfo : Stun.RemoteInfo) :
  returns (Stun.handleMessage msg rinfo)
  <-> (2 <= length msg)%nat
      /\ (Buffer.readUInt16BE msg 0 = Ok 0x0111 -> (20 < length msg)%nat ->
          (28 <= length msg)%nat).
Proof.
  unfold Stun.handleMessage, returns, Buffer.readUInt16BE.
  destruct (msg !! 0%nat) as [hi |] eqn:E0; simpl.
  2: { apply lookup_ge_None in E0. split; [intros [a Ha]; discriminate | lia]. }
  destruct (msg !! 1%nat) as [lo |] eqn:E1; simpl.
  2: { apply lookup_ge_None in E1. split; [intros [a Ha]; discriminate | lia]. }
  apply lookup_lt_Some in E1.
  destruct (decide (hi * 256 + lo = 257)) as [H257 | H257].
  { split; [intros _ | eauto]. split; [lia |]. intros [=]; lia. }
  destruct (decide (hi * 256 + lo = 273)) as [H273 | H273].
  2: { split; [intros _ | eauto]. split; [lia |]. intros [=]; lia. }
  destruct (decide (20 < length msg)%nat) as [Hlong | Hshort]; simpl.
  2: { split; [intros _ | eauto]. split; [lia |]. intros _ ?; lia. }
  destruct (msg !! 26%nat) as [x |] eqn:E26; simpl.
  2: { apply lookup_ge_None in E26.
       split; [intros [a Ha]; discriminate | intros [_ H]].
       specialize (H (f_equal _ H273) Hlong). lia. }
  destruct (msg !! 27%nat) as [y |] eqn:E27; simpl.
  2: { apply lookup_ge_None in E27.
       split; [intros [a Ha]; discriminate | intros [_ H]].
       specialize (H (f_equal _ H273) Hlong). lia. }
  apply lookup_lt_Some in E27.
  split; [intros _ | eauto]. split; lia.
Qed.

(** [demux] raises on the empty datagram, and on a STUN-classified
    datagram that [handleMessage] cannot read; on nothing else. *)
Lemma demux_returns_iff (b : MediaBridge) (msg : buffer) (rinfo : Stun.RemoteInfo) :
  returns (demux b msg rinfo)
  <-> exists first, msg !! 0%nat = Some first
      /\ (0 <= first <= 3 -> is_Some (stunClient b) ->
          returns (Stun.handleMessage msg rinfo)).
Proof.
  unfold Media.demux, returns.
  destruct (msg !! 0%nat) as [first |] eqn:E0.
  2: { split; [intros [a Ha]; discriminate | intros (f & Hf & _); discriminate]. }
  destruct (decide (0 <= first /\ first <= 3)) as [Hstun | Hmedia].
  - destruct (stunClient b) as [c |].
    + destruct (Stun.handleMessage msg rinfo) as [es | e] eqn:Eh; simpl.
      * split; [intros _ | eauto]. exists first. eauto.
      * split; [intros [a Ha]; discriminate |].
        intros (f & Hf & H). injection Hf as <-.
        destruct H as [a Ha]; [lia | eauto | discriminate].
    + split; [intros _ | eauto]. exists first. split; [done |].
      intros _ [c Hc]. discriminate.
  - split; [intros _ | eauto]. exists first. split; [done |]. intros ?. lia.
Qed.

(** C8. With a STUN client attached, the empty datagram, a one-byte
    STUN datagram and a 24-byte Binding Error response each raise out
    of [demux], the socket's message listener. *)
Theorem demux_raises_on_short_datagrams
    (cfg : Config) (rinfo : Stun.RemoteInfo) :
  let b := setStunClient (Media.new cfg) (Stun.start {| Stun.socket := false |}) in
  demux b [] rinfo = Error TypeError
  /\ demux b [0x01] rinfo = Error RangeError
  /\ Stun.handleMessage Samples.short_binding_error rinfo = Error RangeError
  /\ demux b Samples.short_binding_error rinfo = Error RangeError.
Proof. repeat split. Qed.

(** *** Outbound sequence numbers *)

Lemma sendRtp_ready (b : MediaBridge) (body : buffer) (pt ts : Z) (mark : bool) :
  ready b -> encrypts ->
  exists es,
    sendRtp b body pt ts mark = (set_outSeq b ((outSeq b + 1) mod 65535), es)
    /\ sequence_numbers es = [outSeq b].
Proof.
  intros (Hsock & [keys Hkeys] & target & Htarget & Hport) Henc.
  unfold Media.sendRtp. rewrite Htarget, Hkeys, Hsock.
  match goal with |- context [encrypt ?k ?p ?h] => destruct (Henc k p h) as [c ->] end.
  destruct (decide (0 < Stun.rport target < 65536)) as [_ | Hbad]; [| lia].
  eexists. split; reflexivity.
Qed.

Lemma silenceTick_ready (b : MediaBridge) :
  ready b -> encrypts ->
  exists es,
    silenceTick b
    = (set_silenceTs (set_outSeq b ((outSeq b + 1) mod 65535)) (silenceTs b + 320), es)
    /\ sequence_numbers es = [outSeq b].
Proof.
  intros Hready Henc. unfold Media.silenceTick.
  destruct Hready as (Hsock & [keys Hkeys] & Htarget). rewrite Hkeys.
  destruct (sendRtp_ready b [0xF8; 0xFF; 0xFE] 111 (silenceTs b) true) as (es & -> & Hes);
    [by repeat split; eauto | done |].
  exists es. split; [reflexivity | done].
Qed.

Lemma ready_after_tick (b : MediaBridge) (s t : Z) :
  ready b -> ready (set_silenceTs (set_outSeq b s) t).
Proof. intros H. exact H. Qed.

Lemma sequence_numbers_app (es es' : list effect) :
  sequence_numbers (es ++ es') = sequence_numbers es ++ sequence_numbers es'.
Proof. unfold sequence_numbers. apply omap_app. Qed.

(** The sequence numbers of [n] silence packets in a row. *)
Lemma silence_sequence (n : nat) : forall b : MediaBridge,
  ready b -> encrypts ->
  sequence_numbers (snd (send_all b (repeat Silence n)))
  = match n with
    | O => []
    | S m => outSeq b :: map (fun i => (outSeq b + Z.of_nat i) mod 65535) (seq 1 m)
    end.
Proof.
  induction n as [| n IH]; intros b Hready Henc; [reflexivity |].
  cbn [repeat Media.send_all Media.send_one].
  destruct (silenceTick_ready b Hready Henc) as (es & -> & Hes).
  specialize (IH _ (ready_after_tick b ((outSeq b + 1) mod 65535) (silenceTs b + 320) Hready) Henc).
  destruct (send_all _ (repeat Silence n)) as [b2 es'] eqn:Erest.
  cbn [snd] in *. rewrite sequence_numbers_app, Hes, IH. cbn [app]. f_equal.
  destruct n as [| m]; [reflexivity |].
  cbn [outSeq set_silenceTs set_outSeq seq map]. f_equal.
  rewrite <- (seq_shift m 1), map_map. apply map_ext. intros i.
  rewrite Z.add_mod_idemp_l by lia. f_equal. lia.
Qed.

(** C4. A bridge that sends with sequence number 65534 sends its next
    packet with sequence number 0: the counter is reduced modulo
    65535, so 65535 is skipped. *)
Theorem sequence_number_65535_is_skipped (b : MediaBridge) :
  ready b -> encrypts -> outSeq b = 65534 ->
  sequence_numbers (snd (send_all b [Silence; Silence])) = [65534; 0].
Proof.
  intros Hready Henc Hseq.
  change [Silence; Silence] with (repeat Silence 2).
  rewrite silence_sequence by done. rewrite Hseq. reflexivity.
Qed.

Lemma silence_sequence_lookup (b : MediaBridge) (n i : nat) :
  ready b -> encrypts -> 0 <= outSeq b < 65535 -> (i < n)%nat ->
  sequence_numbers (snd (send_all b (repeat Silence n))) !! i
  = Some ((outSeq b + Z.of_nat i) mod 65535).
Proof.
  intros Hready Henc Hrange Hi. rewrite silence_sequence by done.
  destruct n as [| m]; [lia |]. destruct i as [| i].
  - cbn. f_equal. rewrite Z.add_0_r, Z.mod_small; lia.
  - cbn [lookup list_lookup]. change (map ?f ?l !! i) with ((f <$> l) !! i).
    rewrite list_lookup_fmap, lookup_seq_lt by lia. reflexivity.
Qed.

(** The sequence repeats after 65535 packets, one short of a cycle. *)
Lemma sequence_repeats_after_65535 (b : MediaBridge) (n i : nat) :
  ready b -> encrypts -> 0 <= outSeq b < 65535 ->
  (i + Z.to_nat 65535 < n)%nat ->
  let numbers := sequence_numbers (snd (send_all b (repeat Silence n))) in
  numbers !! (i + Z.to_nat 65535)%nat = numbers !! i.
Proof.
  intros Hready Henc Hrange Hn numbers. subst numbers.
  rewrite !silence_sequence_lookup by (done || lia). f_equal.
  replace (outSeq b + Z.of_nat (i + Z.to_nat 65535))
    with (outSeq b + Z.of_nat i + 1 * 65535) by lia.
  apply Z.mod_add. lia.
Qed.

(** No packet ever carries the sequence number 65535. *)
Lemma sequence_never_65535 (b : MediaBridge) (n : nat) :
  ready b -> encrypts -> 0 <= outSeq b < 65535 ->
  65535 ∉ sequence_numbers (snd (send_all b (repeat Silence n))).
Proof.
  intros Hready Henc Hrange Hin.
  apply list_elem_of_lookup in Hin as [i Hi].
  destruct (decide (i < n)%nat) as [Hlt | Hge].
  - rewrite silence_sequence_lookup in Hi by done. injection Hi as Hi.
    pose proof (Z.mod_pos_bound (outSeq b + Z.of_nat i) 65535). lia.
  - apply lookup_lt_Some in Hi. rewrite silence_sequence in Hi by done.
    destruct n; cbn in Hi; [lia |]. rewrite length_map, length_seq in Hi. lia.
Qed.

End MediaProperties.

Lemma demux_classifies_by_first_byte_witness :
  Media.demux Samples.no_decrypt Samples.plain_encrypt Samples.no_rtp
    Samples.listening_bridge [0x01; 0x01] Samples.sample_rinfo
  = Ok (Samples.listening_bridge,
        [Media.StunEffect (Stun.BindingSuccess Samples.sample_rinfo)])
  /\ Media.demux Samples.no_decrypt Samples.plain_encrypt Samples.no_rtp
       Samples.listening_bridge [0x80; 0x6f] Samples.sample_rinfo
     = Ok (Samples.listening_bridge, []).
Proof.
  split.
  - apply (demux_classifies_by_first_byte Samples.no_decrypt Samples.plain_encrypt
             Samples.no_rtp Samples.listening_bridge Samples.started_stun
             1 [0x01] Samples.sample_rinfo);
      [lia | reflexivity | lia].
  - apply (demux_classifies_by_first_byte Samples.no_decrypt Samples.plain_encrypt
             Samples.no_rtp Samples.listening_bridge Samples.started_stun
             0x80 [0x6f] Samples.sample_rinfo);
      [lia | reflexivity | lia].
Defined.

Lemma ready_sending_bridge : Media.ready Samples.sending_bridge.
Proof.
  split; [reflexivity |]. split; [by eexists |].
  exists Samples.sample_relay. split; [reflexivity |]. cbn. lia.
Defined.

Lemma encrypts_plain_encrypt : Media.encrypts Samples.plain_encrypt.
Proof. intros k p h. by eexists. Defined.

Lemma sequence_number_65535_is_skipped_witness :
  Media.sequence_numbers
    (snd (Media.send_all Samples.plain_encrypt Samples.no_rtp Samples.sending_bridge
            [Media.Silence; Media.Silence]))
  = [65534; 0].
Proof.
  apply sequence_number_65535_is_skipped;
    [exact ready_sending_bridge | exact encrypts_plain_encrypt | reflexivity].
Defined.

(** ** The key extractor *)

Section ExtractorProperties.

Import Buffer Extractor.









(** C3. An offer in which the traversal finds relay candidates, and
    neither pass nor the decoded-proto helper yields key material,
    makes [extractSrtpKeys] return null: the candidates are not
    returned. *)
Theorem relays_are_dropped_without_keys (o : offer) (toks : tokens) (acc : found) :
  scan o = Ok (toks, acc) ->
  endpoints acc <> [] ->
  audioKeys acc ≫= finalize = None ->
  extractKeysFromDecryptedProto o = None ->
  extractSrtpKeys o = None.
Proof.
  intros Hscan _ Hkeys Hproto. unfold extractSrtpKeys. by rewrite Hscan, Hkeys, Hproto.
Qed.

End ExtractorProperties.



(** One relay candidate in the offer and no key: the candidate is
    found, and the result is null. *)
Lemma relay_candidates_are_lost :
  (exists toks,
     Extractor.scan Samples.relay_only_offer
     = Ok (toks, {| Extractor.endpoints :=
                      [ {| Extractor.ip := "157.240.0.1"; Extractor.port := 3478;
                           Extractor.token := Some [1; 2; 3; 4] |} ];
                    Extractor.audioKeys := None |}))
  /\ Extractor.extractSrtpKeys Samples.relay_only_offer = None.
Proof. split; [by eexists |]. reflexivity. Qed.

Lemma relays_are_dropped_without_keys_witness :
  Extractor.extractSrtpKeys Samples.relay_only_offer = None.
Proof.
  apply (relays_are_dropped_without_keys Samples.relay_only_offer []
           {| Extractor.endpoints :=
                [ {| Extractor.ip := "157.240.0.1"; Extractor.port := 3478;
                     Extractor.token := Some [1; 2; 3; 4] |} ];
              Extractor.audioKeys := None |});
    [reflexivity | discriminate | reflexivity | reflexivity].
Defined.

(** ** Call signaling *)

Section SignalingProperties.

Import Buffer Signaling.

Lemma frame_refl (w : World) : frame w w.
Proof. by repeat split. Qed.

Lemma frame_trans (w1 w2 w3 : World) : frame w1 w2 -> frame w2 w3 -> frame w1 w3.
Proof. unfold frame. intros (-> & -> & -> & ->) (-> & -> & -> & ->). by repeat split. Qed.

Lemma frame_healthy (w w' : World) : frame w w' -> healthy w -> healthy w'.
Proof. unfold frame, healthy. intros (-> & -> & _) H. exact H. Qed.

Lemma runs_bind (m : M unit) (k : unit -> M unit) (w w1 w2 : World) (t t' : list effect) :
  runs m w t w1 -> runs (k tt) w1 t' w2 -> runs (mbind m k) w (t ++ t') w2.
Proof.
  intros (Hm & Ht & Hf) (Hk & Ht' & Hf'). unfold runs, mbind. rewrite Hm. split; [exact Hk |].
  split; [by rewrite Ht', Ht, app_assoc | by eapply frame_trans].
Qed.

Lemma runs_ret (w : World) : runs (ret tt) w [] w.
Proof. unfold runs, ret. split; [done |]. split; [by rewrite app_nil_r | apply frame_refl]. Qed.

Lemma runs_log (e : effect) (w : World) :
  exists w', runs (log e) w [e] w' /\ activeCalls w' = activeCalls w
             /\ pending w' = pending w /\ activeBridges w' = activeBridges w.
Proof. eexists. repeat split. Qed.

Lemma sendRinging_runs (w : World) (callId from : string) :
  healthy w ->
  exists w' tag, runs (sendRinging callId from) w [Stanza (ringingNode tag callId from)] w'
                 /\ activeCalls w' = activeCalls w /\ pending w' = pending w
                 /\ activeBridges w' = activeBridges w.
Proof.
  intros [Hsock Hnet]. unfold runs, sendRinging, sendNode, mbind, get, generateMessageTag, socket_op.
  repeat first [progress cbn | rewrite Hsock | rewrite Hnet].
  eexists _, _. repeat split; cbn; done.
Qed.

Lemma sendCallReceipt_runs (w : World) (callId from : string) :
  healthy w ->
  exists w' stanzaId, runs (sendCallReceipt from callId) w [Stanza (receiptNode from stanzaId)] w'
                 /\ activeCalls w' = activeCalls w /\ pending w' = pending w
                 /\ activeBridges w' = activeBridges w.
Proof.
  intros [Hsock Hnet].
  unfold runs, sendCallReceipt, try_catch, mbind, get, generateMessageTag, socket_op, ret.
  repeat first [progress cbn | rewrite Hsock].
  destruct (nonempty (decryptedOffers w !! callId ≫= _stanzaId)) as [sid |];
    repeat first [progress cbn | rewrite Hsock | rewrite Hnet];
    eexists _, _; repeat split; cbn; done.
Qed.

Lemma CallHandler_rejectCall_runs (w : World) (callId from : string) :
  healthy w ->
  exists w', runs (CallHandler_rejectCall callId from) w
               [Reject callId from; Emit "WhatsAppClient" "call:rejected" callId;
                Emit "CallHandler" "call:rejected" callId] w'
             /\ activeCalls w' = delete callId (activeCalls w) /\ pending w' = pending w
             /\ activeBridges w' = activeBridges w.
Proof.
  intros [Hsock Hnet].
  unfold runs, CallHandler_rejectCall, WhatsAppClient_rejectCall, mbind, get, socket_op, log, modify.
  repeat first [progress cbn | rewrite Hsock | rewrite Hnet].
  eexists. repeat split; cbn; by rewrite <- ?app_assoc.
Qed.

(** Counting over a trace. *)

Lemma sent_app (kind callId : string) (t t' : list effect) :
  sent kind callId (t ++ t') = (sent kind callId t + sent kind callId t')%nat.
Proof. unfold sent. by rewrite filter_app, length_app. Qed.

Lemma sent_cons (kind callId : string) (e : effect) (t : list effect) :
  sent kind callId (e :: t)
  = ((if decide (call_stanza callId e = Some kind) then 1 else 0) + sent kind callId t)%nat.
Proof. unfold sent. rewrite filter_cons. by destruct (decide _). Qed.

Lemma receipts_app (t t' : list effect) : receipts (t ++ t') = (receipts t + receipts t')%nat.
Proof. unfold receipts. by rewrite filter_app, length_app. Qed.

Lemma rejected_app (callId : string) (t t' : list effect) :
  rejected callId (t ++ t') = (rejected callId t + rejected callId t')%nat.
Proof. unfold rejected. by rewrite filter_app, length_app. Qed.

Lemma receipts_cons (e : effect) (t : list effect) :
  receipts (e :: t) = ((if is_receipt e then 1 else 0) + receipts t)%nat.
Proof. unfold receipts. rewrite filter_cons. by destruct (is_receipt e). Qed.

Lemma rejected_cons (callId : string) (e : effect) (t : list effect) :
  rejected callId (e :: t)
  = ((if is_reject callId e then 1 else 0) + rejected callId t)%nat.
Proof. unfold rejected. rewrite filter_cons. by destruct (is_reject callId e). Qed.

Lemma call_stanza_ringing (tag callId from : string) :
  call_stanza callId (Stanza (ringingNode tag callId from)) = Some "ringing".
Proof.
  unfold call_stanza, ringingNode, leaf. cbn [Extractor.attrs Extractor.tag].
  rewrite decide_True; [done |]. by simplify_map_eq.
Qed.

Lemma call_stanza_preaccept (tag callId from : string) :
  call_stanza callId (Stanza (preacceptNode tag callId from)) = Some "preaccept".
Proof.
  unfold call_stanza, preacceptNode. cbn [Extractor.attrs Extractor.tag].
  rewrite decide_True; [done |]. by simplify_map_eq.
Qed.

Lemma call_stanza_accept (tag to callId : string) :
  call_stanza callId (Stanza (acceptNode tag to callId)) = Some "accept".
Proof.
  unfold call_stanza, acceptNode. cbn [Extractor.attrs Extractor.tag].
  rewrite decide_True; [done |]. by simplify_map_eq.
Qed.

Lemma call_stanza_ready (tag callId from : string) :
  call_stanza callId (Stanza (readyNode tag callId from)) = Some "ready".
Proof.
  unfold call_stanza, readyNode, leaf. cbn [Extractor.attrs Extractor.tag].
  rewrite decide_True; [done |]. by simplify_map_eq.
Qed.

Lemma call_stanza_receipt (callId from stanzaId : string) :
  call_stanza callId (Stanza (receiptNode from stanzaId)) = None.
Proof. reflexivity. Qed.

Ltac count :=
  repeat first
    [ rewrite sent_app | rewrite receipts_app | rewrite rejected_app | rewrite sent_cons
    | rewrite receipts_cons | rewrite rejected_cons
    | rewrite call_stanza_ringing | rewrite call_stanza_preaccept
    | rewrite call_stanza_accept | rewrite call_stanza_ready
    | rewrite call_stanza_receipt ];
  cbn; rewrite ?bool_decide_eq_true_2 by done; cbn;
  repeat case_decide; cbn; try done; try lia.

Lemma onCallOffer_runs (w : World) (call : CallEvent) :
  healthy w ->
  exists w' t,
    runs (onCallOffer call) w t w'
    /\ sent "ringing" (callId call) t = 1%nat
    /\ receipts t = 1%nat
    /\ sent "preaccept" (callId call) t = 0%nat
    /\ rejected (callId call) t = (if isVideo call then 1 else 0)%nat
    /\ pending w' = pending w ++ [BridgeCall call]
    /\ activeBridges w' = activeBridges w
    /\ (isVideo call = true -> activeCalls w' !! callId call = None).
Proof.
  intros Hw. unfold onCallOffer, emit_call_incoming.
  set (w1 := set_activeCalls (<[callId call := call]>
               (activeCalls (set_activeCalls (<[callId call := call]> (activeCalls w)) w)))
               (set_activeCalls (<[callId call := call]> (activeCalls w)) w)).
  destruct (runs_log (Emit "CallHandler" "call:incoming" (callId call)) w1)
    as (w2 & Hlog & Hc2 & Hp2 & Hb2).
  set (w3 := with_outside w2 (ops w2) (draws w2) (pending w2 ++ [BridgeCall call]) (trace w2)).
  assert (Hw3 : healthy w3).
  { destruct Hlog as (_ & _ & Hf). eapply (frame_healthy w1); [exact Hf |]. exact Hw. }
  destruct (sendRinging_runs w3 (callId call) (from call) Hw3)
    as (w4 & tag & Hring & Hc4 & Hp4 & Hb4).
  assert (Hw4 : healthy w4).
  { destruct Hring as (_ & _ & Hf). by eapply frame_healthy. }
  destruct (sendCallReceipt_runs w4 (callId call) (from call) Hw4)
    as (w5 & sid & Hrec & Hc5 & Hp5 & Hb5).
  assert (Hw5 : healthy w5).
  { destruct Hrec as (_ & _ & Hf). by eapply frame_healthy. }
  assert (Hprefix : forall k w6 t6,
             runs k w5 t6 w6 ->
             runs (_ <~ modify (fun w => set_activeCalls (<[callId call := call]> (activeCalls w)) w) ;;
                   _ <~ modify (fun w => set_activeCalls (<[callId call := call]> (activeCalls w)) w) ;;
                   _ <~ (_ <~ log (Emit "CallHandler" "call:incoming" (callId call)) ;;
                         spawn (BridgeCall call)) ;;
                   _ <~ sendRinging (callId call) (from call) ;;
                   _ <~ sendCallReceipt (from call) (callId call) ;; k) w
                  ([Emit "CallHandler" "call:incoming" (callId call);
                    Stanza (ringingNode tag (callId call) (from call));
                    Stanza (receiptNode (from call) sid)] ++ t6) w6).
  { intros k w6 t6 (Hk & Ht6 & Hf6).
    destruct Hlog as (Hl & Htl & Hfl), Hring as (Hr & Htr & Hfr), Hrec as (Hc & Htc & Hfc).
    unfold runs, mbind, modify, spawn, modify. cbn beta iota. fold w1. rewrite Hl. cbn beta iota.
    fold w3. rewrite Hr, Hc. split; [exact Hk |]. split.
    - rewrite Ht6, Htc, Htr. subst w3. cbn [trace with_outside]. rewrite Htl.
      subst w1. cbn. by rewrite <- !app_assoc.
    - eapply frame_trans; [| exact Hf6]. eapply frame_trans; [| exact Hfc].
      eapply frame_trans; [| exact Hfr].
      destruct Hfl as (? & ? & ? & ?). subst w3 w1. by repeat split. }
  destruct (isVideo call) eqn:Hvideo.
  - destruct (CallHandler_rejectCall_runs w5 (callId call) (from call) Hw5)
      as (w6 & Hrej & Hc6 & Hp6 & Hb6).
    eexists w6, _. split; [apply Hprefix, Hrej |].
    repeat split; try by count.
    + rewrite Hp6, Hp5, Hp4. subst w3. cbn. by rewrite Hp2.
    + rewrite Hb6, Hb5, Hb4. subst w3. cbn. by rewrite Hb2.
    + intros _. rewrite Hc6. apply lookup_delete_eq.
  - eexists w5, _. split; [apply Hprefix, runs_ret |].
    repeat split; try by count.
    + rewrite Hp5, Hp4. subst w3. cbn. by rewrite Hp2.
    + rewrite Hb5, Hb4. subst w3. cbn. by rewrite Hb2.
Qed.

Lemma pollOffer_miss (n : nat) (callId : string) : forall w : World,
  decryptedOffers w !! callId = None ->
  pollOffer n callId w
  = (Ok None, with_outside w (ops w) (draws w) (pending w)
                (trace w ++ repeat (Sleep 200) n)).
Proof.
  induction n as [| n IH]; intros w Hmiss.
  - cbn. unfold ret. rewrite app_nil_r. by destruct w.
  - cbn [pollOffer]. unfold mbind, log, modify, get. cbn beta iota.
    cbn [decryptedOffers with_outside]. rewrite Hmiss. rewrite IH by done.
    cbn. by rewrite <- app_assoc.
Qed.

(** What [onCall] does once it has settled on the decrypted offer:
    the listener's part [heard], then the client's own RINGING and
    receipt. *)
Lemma offer_tail (w : World) (ev : CallEvent) (o : option StoredOffer) :
  healthy w ->
  exists w' heard tag sid,
    (_ <~ modify (fun w => set_callState (<[callId ev := fresh]> (callState w)) w) ;;
     _ <~ log (Emit "WhatsAppClient" "call:offer" (callId ev)) ;;
     _ <~ unawaited (onCallOffer ev) ;;
     _ <~ sendRinging (callId ev) (from ev) ;;
     _ <~ sendCallReceipt (from ev) (callId ev) ;;
     match o with
     | Some _ => log (Timer 10000 "decryptedOffers.delete")
     | None => ret tt
     end) w = (Ok tt, w')
    /\ trace w' = trace w ++ [Emit "WhatsAppClient" "call:offer" (callId ev)]
                    ++ heard
                    ++ [Stanza (ringingNode tag (callId ev) (from ev));
                        Stanza (receiptNode (from ev) sid)]
                    ++ match o with
                       | Some _ => [Timer 10000 "decryptedOffers.delete"]
                       | None => []
                       end
    /\ healthy w'
    /\ sent "ringing" (callId ev) heard = 1%nat
    /\ receipts heard = 1%nat
    /\ sent "preaccept" (callId ev) heard = 0%nat
    /\ rejected (callId ev) heard = (if isVideo ev then 1 else 0)%nat
    /\ pending w' = pending w ++ [BridgeCall ev]
    /\ activeBridges w' = activeBridges w
    /\ callState w' !! callId ev = Some fresh
    /\ (isVideo ev = true -> activeCalls w' !! callId ev = None).
Proof.
  intros Hw.
  set (w1 := set_callState (<[callId ev := fresh]> (callState w)) w).
  destruct (runs_log (Emit "WhatsAppClient" "call:offer" (callId ev)) w1)
    as (w2 & (Hl & Htl & Hfl) & Hc2 & Hp2 & Hb2).
  assert (Hw2 : healthy w2) by (eapply (frame_healthy w1); [exact Hfl | exact Hw]).
  destruct (onCallOffer_runs w2 ev Hw2)
    as (w3 & t3 & (Ho & Hto & Hfo) & Hring3 & Hrec3 & Hpre3 & Hrej3 & Hp3 & Hb3 & Hc3).
  assert (Hw3 : healthy w3) by (by eapply frame_healthy).
  destruct (sendRinging_runs w3 (callId ev) (from ev) Hw3)
    as (w4 & tag & (Hr & Htr & Hfr) & Hc4 & Hp4 & Hb4).
  assert (Hw4 : healthy w4) by (by eapply frame_healthy).
  destruct (sendCallReceipt_runs w4 (callId ev) (from ev) Hw4)
    as (w5 & sid & (Hc & Htc & Hfc) & Hc5 & Hp5 & Hb5).
  assert (Hw5 : healthy w5) by (by eapply frame_healthy).
  assert (Hcs5 : callState w5 !! callId ev = Some fresh).
  { destruct Hfc as (_ & _ & _ & ->), Hfr as (_ & _ & _ & ->), Hfo as (_ & _ & _ & ->),
      Hfl as (_ & _ & _ & ->). subst w1. cbn. apply lookup_insert_eq. }
  assert (Htrace5 : trace w5 = trace w ++ [Emit "WhatsAppClient" "call:offer" (callId ev)]
                      ++ t3 ++ [Stanza (ringingNode tag (callId ev) (from ev));
                                Stanza (receiptNode (from ev) sid)]).
  { rewrite Htc, Htr, Hto, Htl. subst w1. cbn. by rewrite <- !app_assoc. }
  assert (Hpending5 : pending w5 = pending w ++ [BridgeCall ev]).
  { rewrite Hp5, Hp4, Hp3, Hp2. by subst w1. }
  assert (Hbridges5 : activeBridges w5 = activeBridges w).
  { rewrite Hb5, Hb4, Hb3, Hb2. by subst w1. }
  assert (Hcalls5 : isVideo ev = true -> activeCalls w5 !! callId ev = None).
  { intros Hv. rewrite Hc5, Hc4. by apply Hc3. }
  assert (Hrun5 : forall k : M unit,
     (_ <~ modify (fun w => set_callState (<[callId ev := fresh]> (callState w)) w) ;;
      _ <~ log (Emit "WhatsAppClient" "call:offer" (callId ev)) ;;
      _ <~ unawaited (onCallOffer ev) ;;
      _ <~ sendRinging (callId ev) (from ev) ;;
      _ <~ sendCallReceipt (from ev) (callId ev) ;; k) w = k w5).
  { intros k. unfold mbind, modify, unawaited, try_catch. cbn beta iota. fold w1.
    rewrite Hl. cbn beta iota. rewrite Ho, Hr, Hc. reflexivity. }
  destruct o as [so |].
  - destruct (runs_log (Timer 10000 "decryptedOffers.delete") w5)
      as (w6 & (Hl6 & Htl6 & Hfl6) & Hc6 & Hp6 & Hb6).
    exists w6, t3, tag, sid.
    split; [by rewrite Hrun5 |]. split; [rewrite Htl6, Htrace5; by rewrite <- !app_assoc |].
    split; [by eapply frame_healthy |].
    destruct Hfl6 as (_ & _ & _ & Hcs6).
    repeat split; try done; try congruence.
    intros Hv. rewrite Hc6. by apply Hcalls5.
  - exists w5, t3, tag, sid.
    split; [by rewrite Hrun5 |]. split; [rewrite Htrace5; cbn; reflexivity |].
    split; [exact Hw5 |]. by repeat split.
Qed.

(** An offer, from the socket's event to the end of the client's
    handler. *)
Lemma onCall_offer (w : World) (call : WACall) :
  healthy w -> status call = "offer" ->
  exists w' ev waited heard tag sid timer,
    onCall call w = (Ok tt, w')
    /\ trace w' = trace w ++ waited
                    ++ [Emit "WhatsAppClient" "call:offer" (id call)]
                    ++ heard
                    ++ [Stanza (ringingNode tag (id call) (from ev));
                        Stanza (receiptNode (from ev) sid)]
                    ++ timer
    /\ sent "ringing" (id call) waited = 0%nat /\ receipts waited = 0%nat
    /\ sent "preaccept" (id call) waited = 0%nat /\ rejected (id call) waited = 0%nat
    /\ sent "ringing" (id call) timer = 0%nat /\ receipts timer = 0%nat
    /\ sent "preaccept" (id call) timer = 0%nat /\ rejected (id call) timer = 0%nat
    /\ healthy w'
    /\ callId ev = id call
    /\ isVideo ev = default false (wa_isVideo call)
    /\ offer ev = decryptedOffers w !! id call
    /\ (decryptedOffers w !! id call = None -> from ev = wa_from call)
    /\ sent "ringing" (id call) heard = 1%nat
    /\ receipts heard = 1%nat
    /\ sent "preaccept" (id call) heard = 0%nat
    /\ rejected (id call) heard = (if isVideo ev then 1 else 0)%nat
    /\ pending w' = pending w ++ [BridgeCall ev]
    /\ activeBridges w' = activeBridges w
    /\ callState w' !! id call = Some fresh
    /\ (isVideo ev = true -> activeCalls w' !! id call = None).
Proof.
  intros Hw Hstatus. unfold onCall.
  destruct (decide (status call = "offer")) as [_ | Hno]; [| done].
  unfold mbind at 1, get at 1. cbn beta iota.
  destruct (decryptedOffers w !! id call) as [so |] eqn:Hcached.
  - unfold mbind at 1, ret at 1. cbn beta iota. unfold mbind at 1.
    set (ev t := {| callId := id call;
                    from := default (wa_from call) (nonempty (Some so ≫= _from));
                    timestamp := t;
                    isVideo := default false (wa_isVideo call);
                    isGroup := default false (wa_isGroup call);
                    offer := Some so;
                    callCreator := or_else (or_else (Some so ≫= _callCreator)
                                              (Some so ≫= offer_attr_creator))
                                     (Some (wa_from call)) |}).
    destruct (Some so ≫= (fun so0 => Extractor.extractRteFromOffer (body so0))) as [rte |].
    + unfold modify at 1. cbn beta iota. unfold mbind at 1, get at 1. cbn beta iota.
      set (wa := set_publicInfo (Some rte) w).
      destruct (offer_tail wa (ev (now (env wa))) (Some so) Hw)
        as (w' & heard & tag & sid & Hrun & Htrace & Hrest).
      exists w', (ev (now (env wa))), [], heard, tag, sid,
        [Timer 10000 "decryptedOffers.delete"].
      split; [exact Hrun |]. split; [exact Htrace |]. repeat split; try done; apply Hrest.
    + unfold ret at 1. cbn beta iota. unfold mbind at 1, get at 1. cbn beta iota.
      destruct (offer_tail w (ev (now (env w))) (Some so) Hw)
        as (w' & heard & tag & sid & Hrun & Htrace & Hrest).
      exists w', (ev (now (env w))), [], heard, tag, sid,
        [Timer 10000 "decryptedOffers.delete"].
      split; [exact Hrun |]. split; [exact Htrace |]. repeat split; try done; apply Hrest.
  - unfold mbind at 1. rewrite pollOffer_miss by done. cbn beta iota.
    unfold mbind at 1, ret at 1. cbn beta iota. unfold mbind at 1, get at 1. cbn beta iota.
    set (wa := with_outside w (ops w) (draws w) (pending w)
                 (trace w ++ repeat (Sleep 200) 3)).
    pose (ev := {| callId := id call; from := wa_from call; timestamp := now (env wa);
                   isVideo := default false (wa_isVideo call);
                   isGroup := default false (wa_isGroup call);
                   offer := None; callCreator := Some (wa_from call) |}).
    destruct (offer_tail wa ev None Hw)
      as (w' & heard & tag & sid & Hrun & Htrace & Hrest).
    exists w', ev, (repeat (Sleep 200) 3), heard, tag, sid, [].
    split; [exact Hrun |].
    split; [rewrite Htrace; subst wa; cbn; by rewrite <- !app_assoc |].
    repeat split; try done; apply Hrest.
Qed.


Lemma acceptCall_first (w : World) (callId from : string) (creator : option string)
    (st : CallState) :
  healthy w -> callState w !! callId = Some st -> accepted st = false ->
  exists w',
    WhatsAppClient_acceptCall callId from creator w = (Ok tt, w')
    /\ healthy w'
    /\ callState w' = <[callId := mark st]> (callState w)
    /\ activeCalls w' = activeCalls w
    /\ activeBridges w' = activeBridges w
    /\ trace w' = trace w ++
         [ Stanza (preacceptNode (messageTag (env w) (epoch w)) callId from);
           Emit "WhatsAppClient" "call:preaccept-sent" callId;
           Sleep 1500;
           Stanza (acceptNode (messageTag (env w) (S (epoch w)))
                     (jidNormalizedUser (env w) from) callId);
           Stanza (readyNode (messageTag (env w) (S (S (epoch w)))) callId from);
           Emit "WhatsAppClient" "call:accepted" callId ].
Proof.
  intros [Hsock Hnet] Hstate Hfresh.
  unfold WhatsAppClient_acceptCall, mbind, get. cbn beta. rewrite Hsock. cbn [negb].
  rewrite Hstate, Hfresh.
  unfold sendPreaccept, sendReady, sendNode, try_catch, mbind, get, generateMessageTag,
    socket_op, log, modify, ret.
  repeat first [progress cbn | rewrite Hsock | rewrite Hnet].
  eexists. split; [reflexivity |]. split; [split; [exact Hsock | exact Hnet] |].
  repeat split. cbn. by rewrite <- !app_assoc.
Qed.

Lemma acceptCall_again (w : World) (callId from : string) (creator : option string)
    (st : CallState) :
  sock w = true -> callState w !! callId = Some st -> accepted st = true ->
  WhatsAppClient_acceptCall callId from creator w = (Ok tt, w).
Proof.
  intros Hsock Hstate Hdone.
  unfold WhatsAppClient_acceptCall, mbind, get. cbn beta. rewrite Hsock. cbn [negb].
  by rewrite Hstate, Hdone.
Qed.


Lemma CallHandler_acceptCall_first (w : World) (callId from : string)
    (creator : option string) (st : CallState) :
  healthy w -> from <> "" -> callState w !! callId = Some st -> accepted st = false ->
  exists w' t,
    CallHandler_acceptCall callId (Some from) creator w = (Ok tt, w')
    /\ trace w' = trace w ++ t
    /\ sent "preaccept" callId t = 1%nat
    /\ sent "accept" callId t = 1%nat
    /\ sent "ready" callId t = 1%nat
    /\ rejected callId t = 0%nat
    /\ activeCalls w' = activeCalls w.
Proof.
  intros Hw Hfrom Hstate Hfresh.
  unfold CallHandler_acceptCall. unfold mbind at 1, get at 1. cbn beta iota.
  assert (Hjid : nonempty (Some from) = Some from).
  { unfold nonempty. by destruct (decide (from = "")). }
  rewrite Hjid.
  set (who := match nonempty creator with Some c => Some c | None => _ end).
  destruct (acceptCall_first w callId from who st Hw Hstate Hfresh)
    as (w1 & Hrun & Hw1 & _ & Hcalls & _ & Htrace).
  assert (Hgo : (_ <~ WhatsAppClient_acceptCall callId from who ;;
                 log (Emit "CallHandler" "call:accepted" callId)) w
                = log (Emit "CallHandler" "call:accepted" callId) w1).
  { unfold mbind. by rewrite Hrun. }
  eexists _, _.
  split; [destruct (activeCalls w !! callId); exact Hgo |].
  cbn. rewrite Htrace. split; [by rewrite <- app_assoc |].
  repeat split; try by count.
Qed.

Lemma mbind_ok {A B : Type} (m : M A) (k : A -> M B) (w w' : World) (a : A) :
  m w = (Ok a, w') -> mbind m k w = k a w'.
Proof. intros H. unfold mbind. by rewrite H. Qed.

Lemma try_catch_ok {A : Type} (m : M A) (h : exn -> M A) (w w' : World) (a : A) :
  m w = (Ok a, w') -> try_catch m h w = (Ok a, w').
Proof. intros H. unfold try_catch. by rewrite H. Qed.

Ltac step := erewrite mbind_ok by reflexivity; cbn beta zeta iota.

(** [bridgeCall] for a call whose offer was never decrypted. *)
Lemma bridgeCall_without_offer (w : World) (ev : CallEvent) :
  healthy w -> offer ev = None -> from ev <> "" ->
  callState w !! callId ev = Some fresh ->
  exists w' t,
    bridgeCall ev w = (Ok tt, w')
    /\ trace w' = trace w ++ t
    /\ sent "preaccept" (callId ev) t = 1%nat
    /\ sent "accept" (callId ev) t = 1%nat
    /\ sent "ready" (callId ev) t = 1%nat
    /\ rejected (callId ev) t = 0%nat
    /\ activeCalls w' = activeCalls w.
Proof.
  intros Hw Hoffer Hfrom Hstate.
  unfold bridgeCall. rewrite Hoffer. cbn [offer_body].
  change (Extractor.extractSrtpKeys Extractor.OfferUndefined)
    with (@None Extractor.ExtractedKeys).
  do 4 step.
  match goal with |- context [try_catch _ _ ?w0] => set (wb := w0) end.
  set (created := Emit "CallBridge" "bridge:created" (callId ev)).
  set (sip := SipCall _ _ _).
  match goal with |- context [set_bridge _ ?b] => set (entry := b) end.
  set (wc := with_outside
               (set_activeBridges (alter (fun _ => entry) (callId ev) (activeBridges wb)) wb)
               (ops wb) (draws wb) (pending wb) (trace wb ++ [created])).
  assert (Hwc : healthy wc) by exact Hw.
  destruct (CallHandler_acceptCall_first wc (callId ev) (from ev) (callCreator ev) fresh
              Hwc Hfrom Hstate eq_refl)
    as (wd & td & Hrun & Htrace & Hpre & Hacc & Hready & Hrej & Hcalls).
  assert (Hbody : forall k : M unit,
            exists we, (forall h, try_catch
               (_ <~ set_bridge (callId ev) entry ;;
                _ <~ ret tt ;;
                _ <~ log created ;;
                _ <~ try_catch (CallHandler_acceptCall (callId ev) (Some (from ev))
                                  (callCreator ev)) (fun _ => ret tt) ;;
                _ <~ log sip ;; k) h wb = try_catch k h we)
            /\ trace we = trace w ++ created :: td ++ [sip]
            /\ activeCalls we = activeCalls w).
  { intros k. eexists. split.
    - intros h. unfold try_catch at 1. do 3 step. fold wc.
      erewrite mbind_ok by (apply try_catch_ok; exact Hrun). cbn beta.
      step. reflexivity.
    - cbn. rewrite Htrace, Hcalls. subst wc wb. cbn. by rewrite <- !app_assoc. }
  destruct (Hbody (answers <~ get (fun w0 => sip_answers (env w0)) ;;
                   if answers then ret tt else endBridge (callId ev)))
    as (we & Hgo & Htrace_e & Hcalls_e).
  rewrite Hgo. unfold try_catch. step.
  destruct (sip_answers (env we)).
  - exists we, (created :: td ++ [sip]). split; [reflexivity |]. split; [exact Htrace_e |].
    repeat split; try (subst created sip; count; rewrite ?Hpre, ?Hacc, ?Hready, ?Hrej; by count).
  - unfold endBridge. step. destruct (activeBridges we !! callId ev).
    + step. eexists _, ((created :: td ++ [sip]) ++ [Emit "CallBridge" "bridge:ended" (callId ev)]).
      split; [reflexivity |].
      split; [cbn; rewrite Htrace_e; by rewrite <- (app_assoc (trace w)) |].
      repeat split; try (subst created sip; count; rewrite ?Hpre, ?Hacc, ?Hready, ?Hrej; by count).
    + exists we, (created :: td ++ [sip]). split; [reflexivity |]. split; [exact Htrace_e |].
      repeat split; try (subst created sip; count; rewrite ?Hpre, ?Hacc, ?Hready, ?Hrej; by count).
Qed.

(** C7. A video offer that arrives with the socket up, before any
    offer payload was decrypted: the call handler rejects it and
    drops the session, and the bridge queued by the same listener
    then runs the accept flow for the same call id. *)
Theorem video_offer_is_rejected_then_accepted (w : World) (call : WACall) :
  healthy w -> status call = "offer" -> wa_isVideo call = Some true ->
  wa_from call <> "" -> decryptedOffers w !! id call = None -> pending w = [] ->
  exists w' t,
    handle call w = (Ok tt, w')
    /\ trace w' = trace w ++ t
    /\ rejected (id call) t = 1%nat
    /\ activeCalls w' !! id call = None
    /\ sent "preaccept" (id call) t = 1%nat.
Proof.
  intros Hw Hstatus Hvideo Hfrom Hmiss Hidle.
  destruct (onCall_offer w call Hw Hstatus)
    as (w1 & ev & waited & heard & tag & sid & timer & Hrun & Htrace
        & _ & _ & Hw3 & Hw4 & _ & _ & Ht3 & Ht4 & Hw1 & Hid & Hv & Hoffer & Hevfrom
        & _ & _ & Hh3 & Hh4 & Hpending & _ & Hstate & Hgone).
  rewrite Hvideo in Hv. cbn in Hv. rewrite Hv in Hh4. specialize (Hgone Hv).
  rewrite Hmiss in Hoffer. specialize (Hevfrom Hmiss).
  rewrite Hidle in Hpending. cbn in Hpending.
  set (w2 := with_outside w1 (ops w1) (draws w1) [] (trace w1)).
  destruct (bridgeCall_without_offer w2 ev)
    as (w3 & tb & Hbridge & Htb & Hpre & _ & _ & Hrej & Hcalls);
    [exact Hw1 | exact Hoffer | by rewrite Hevfrom | by rewrite Hid |].
  exists w3, (waited ++ [Emit "WhatsAppClient" "call:offer" (id call)] ++ heard
              ++ [Stanza (ringingNode tag (id call) (from ev));
                  Stanza (receiptNode (from ev) sid)] ++ timer ++ tb).
  split.
  { unfold handle, mbind at 1. rewrite Hrun. unfold run_pending, mbind, get, modify.
    cbn beta iota. rewrite Hpending. fold w2. cbn [for_each run_task].
    unfold try_catch, mbind. rewrite Hbridge. reflexivity. }
  split; [rewrite Htb; subst w2; cbn; rewrite Htrace; by rewrite <- !app_assoc |].
  rewrite Hid in Hpre, Hrej.
  repeat split.
  - by count.
  - rewrite Hcalls. exact Hgone.
  - by count.
Qed.

Ltac close_endCall before after :=
  eexists; split; [reflexivity |]; split;
  [ cbn; apply lookup_delete_eq
  | exists before, after; cbn; rewrite <- ?app_assoc; reflexivity ].

(** C9. Whatever the socket does, [endCall] returns normally, the
    call is gone from the registry, and [call:ended] is in the trace:
    a TERMINATE that cannot be sent is caught and the cleanup runs. *)
Theorem endCall_clears_session (w : World) (callId : string) (from : option string) :
  exists w' : World,
    endCall callId from w = (Ok tt, w')
    /\ activeCalls w' !! callId = None
    /\ exists before after,
         trace w' = trace w ++ before ++ [Emit "CallHandler" "call:ended" callId] ++ after.
Proof.
  unfold endCall, mbind, get, modify, emit_call_ended, endBridge, mbind, get, modify, log, modify.
  cbn beta.
  set (remoteJid := match nonempty from with Some f => Some f | None => _ end).
  destruct remoteJid as [jid |].
  - unfold try_catch, terminateCall, mbind, get, generateMessageTag, socket_op, log, modify, ret.
    destruct (sock w); cbn.
    + destruct (net (env w) (ops w)); cbn.
      * set (bye := Stanza (terminateNode (messageTag (env w) (epoch w)) callId jid "hangup")).
        destruct (activeBridges w !! callId); cbn.
        -- close_endCall [bye] [Emit "CallBridge" "bridge:ended" callId].
        -- close_endCall [bye] (@nil effect).
      * destruct (activeBridges w !! callId); cbn.
        -- close_endCall (@nil effect) [Emit "CallBridge" "bridge:ended" callId].
        -- close_endCall (@nil effect) (@nil effect).
    + destruct (activeBridges w !! callId); cbn.
      -- close_endCall (@nil effect) [Emit "CallBridge" "bridge:ended" callId].
      -- close_endCall (@nil effect) (@nil effect).
  - unfold ret. cbn.
    destruct (activeBridges w !! callId); cbn.
    -- close_endCall (@nil effect) [Emit "CallBridge" "bridge:ended" callId].
    -- close_endCall (@nil effect) (@nil effect).
Qed.

End SignalingProperties.

Lemma healthy_idle_world : Signaling.healthy Samples.idle_world.
Proof. split; [reflexivity | intros n; reflexivity]. Defined.




(** A video offer on a connected client. *)
Lemma video_offer_is_rejected_then_accepted_witness :
  exists w' t,
    Signaling.handle Samples.video_offer Samples.idle_world = (Ok tt, w')
    /\ Signaling.trace w' = Signaling.trace Samples.idle_world ++ t
    /\ Signaling.rejected "CALL1" t = 1%nat
    /\ Signaling.activeCalls w' !! "CALL1" = None
    /\ Signaling.sent "preaccept" "CALL1" t = 1%nat.
Proof.
  apply (video_offer_is_rejected_then_accepted Samples.idle_world Samples.video_offer);
    [exact healthy_idle_world | reflexivity | reflexivity | discriminate
    | reflexivity | reflexivity].
Defined.

(** * Further properties *)

(** ** STUN requests *)

Section StunRequests.

Import Buffer Stun.

Variable hmac_sha1 : buffer -> buffer -> buffer.

Lemma length_write_at (b : buffer) (off : nat) (bs : list Z) :
  (off + length bs <= length b)%nat -> length (write_at b off bs) = length b.
Proof.
  intros H. unfold write_at. rewrite !length_app, length_take, length_drop. lia.
Qed.

Lemma lookup_write_at_lt (b : list Z) (off i : nat) (bs : list Z) :
  (i < off)%nat -> (off <= length b)%nat -> write_at b off bs !! i = b !! i.
Proof.
  intros Hi Hoff. unfold write_at, buffer.
  rewrite lookup_app_l by (rewrite length_take; lia). by rewrite lookup_take_lt.
Qed.

Lemma lookup_write_at (b : list Z) (off i : nat) (bs : list Z) :
  (off <= length b)%nat -> (i < length bs)%nat ->
  write_at b off bs !! (off + i)%nat = bs !! i.
Proof.
  intros Hoff Hi. unfold write_at, buffer.
  rewrite lookup_app_r by (rewrite length_take; lia).
  rewrite length_take, Nat.min_l by lia.
  replace (off + i - off)%nat with i by lia. by rewrite lookup_app_l.
Qed.

Lemma length_copy (src target : buffer) (start : nat) :
  (start <= length target)%nat -> length (copy src target start) = length target.
Proof.
  intros H. unfold copy. apply length_write_at. rewrite length_take. lia.
Qed.

Lemma lookup_copy_lt (src target : list Z) (start i : nat) :
  (i < start)%nat -> (start <= length target)%nat ->
  copy src target start !! i = target !! i.
Proof. intros Hi Hs. unfold copy. by apply lookup_write_at_lt. Qed.

Lemma writeUInt16BE_inv (v : Z) (off : nat) (b b' : buffer) :
  writeUInt16BE v off b = Ok b' ->
  b' = write_at b off (be16 v) /\ 0 <= v <= 65535 /\ (off + 2 <= length b)%nat.
Proof.
  unfold writeUInt16BE. destruct (decide _) as [[Hv Hoff] |]; [| discriminate].
  by intros [= <-].
Qed.

Lemma writeUInt32BE_inv (v : Z) (off : nat) (b b' : buffer) :
  writeUInt32BE v off b = Ok b' ->
  b' = write_at b off (be32 v) /\ (off + 4 <= length b)%nat.
Proof.
  unfold writeUInt32BE. destruct (decide _) as [[Hv Hoff] |]; [| discriminate].
  by intros [= <-].
Qed.

(** An attribute built by two 16-bit writes and a copy into a zeroed
    buffer keeps the buffer's length. *)
Lemma length_attr (n : nat) (t l : Z) (value attr : buffer) :
  (a <- writeUInt16BE t 0 (alloc n) ;; a <- writeUInt16BE l 2 a ;; Ok (copy value a 4))
  = Ok attr ->
  length attr = n.
Proof.
  intros H. apply bind_ok in H as (a1 & H1 & H).
  apply bind_ok in H as (a2 & H2 & H). injection H as <-.
  apply writeUInt16BE_inv in H1 as (-> & _ & Hn1).
  apply writeUInt16BE_inv in H2 as (-> & _ & Hn2).
  rewrite length_alloc in Hn1.
  rewrite length_write_at, length_alloc in Hn2 by (cbn; rewrite ?length_alloc; lia).
  assert (Hlen : length (write_at (write_at (alloc n) 0 (be16 t)) 2 (be16 l)) = n).
  { rewrite length_write_at; rewrite length_write_at; rewrite ?length_alloc; cbn; lia. }
  rewrite length_copy; lia.
Qed.

Lemma length_username_attr (u : string) (attr : buffer) :
  username_attr u = Ok attr -> (length attr mod 4 = 0)%nat.
Proof.
  unfold username_attr. intros H. apply length_attr in H. rewrite H.
  set (n := length (from_string u)).
  replace (4 + n + (4 - n mod 4) mod 4)%nat
    with ((n + (4 - n mod 4) mod 4) + 1 * 4)%nat by lia.
  rewrite Nat.Div0.mod_add.
  pose proof (Nat.mod_upper_bound n 4). pose proof (Nat.div_mod_eq n 4).
  destruct (decide (n mod 4 = 0)%nat) as [E | E].
  - rewrite E. cbn. rewrite Nat.add_0_r. exact E.
  - rewrite (Nat.mod_small (4 - n mod 4)) by lia.
    replace (n + (4 - n mod 4))%nat with (0 + (n / 4 + 1) * 4)%nat by lia.
    by rewrite Nat.Div0.mod_add.
Qed.

Lemma length_ice_controlled_attr (rnd attr : buffer) :
  ice_controlled_attr rnd = Ok attr -> length attr = 12%nat.
Proof. apply length_attr. Qed.

Lemma length_priority_attr (attr : buffer) : priority_attr = Ok attr -> length attr = 8%nat.
Proof. vm_compute. by intros [= <-]. Qed.

Lemma length_use_candidate_attr (attr : buffer) :
  use_candidate_attr = Ok attr -> length attr = 4%nat.
Proof. vm_compute. by intros [= <-]. Qed.

(** MESSAGE-INTEGRITY leaves the header 20 bytes long with its type
    in place, and appends 24 bytes. *)
Lemma message_integrity_shape (tok tid header header' : buffer) (attrs attrs' : list buffer) :
  length header = 20%nat ->
  message_integrity hmac_sha1 tok tid header attrs = Ok (header', attrs') ->
  length header' = 20%nat /\ take 2 header' = take 2 header
  /\ exists attr, attrs' = attrs ++ [attr] /\ length attr = 24%nat.
Proof.
  intros Hlen H. unfold message_integrity in H.
  apply bind_ok in H as (h1 & H1 & H). apply bind_ok in H as (h2 & H2 & H).
  apply writeUInt16BE_inv in H1 as (-> & _ & _).
  apply writeUInt32BE_inv in H2 as (-> & _).
  set (h3 := copy tid _ 8) in H.
  set (sig := hmac_sha1 tok _) in H.
  destruct (a <- writeUInt16BE 8 0 (alloc 24) ;; a <- writeUInt16BE 20 2 a ;;
            Ok (copy sig a 4)) as [attr |] eqn:Hattr.
  2: { exfalso. revert H Hattr. clear.
       intros H Hattr. apply bind_ok in H as (a1 & H1 & H).
       apply bind_ok in H as (a2 & H2 & H).
       rewrite H1 in Hattr. cbn [bind] in Hattr. rewrite H2 in Hattr. discriminate. }
  assert (Hres : header' = h3 /\ attrs' = attrs ++ [attr]).
  { revert H Hattr. clear. intros H Hattr.
    apply bind_ok in H as (a1 & H1 & H). apply bind_ok in H as (a2 & H2 & H).
    rewrite H1 in Hattr. cbn [bind] in Hattr. rewrite H2 in Hattr. cbn [bind] in Hattr.
    injection Hattr as <-. by injection H as <- <-. }
  destruct Hres as [-> ->]. apply length_attr in Hattr.
  assert (Hl2 : length (write_at (write_at header 2 (be16 (total_length attrs + 24))) 4
                          (be32 STUN_MAGIC_COOKIE)) = 20%nat).
  { rewrite !length_write_at; cbn; rewrite ?length_write_at; cbn; lia. }
  split; [| split].
  - subst h3. rewrite length_copy; lia.
  - subst h3. apply list_eq. intros i. destruct (decide (i < 2)%nat) as [Hi | Hi].
    + rewrite !lookup_take_lt by done.
      rewrite lookup_copy_lt by lia.
      rewrite lookup_write_at_lt by (rewrite ?length_write_at; cbn; lia).
      by rewrite lookup_write_at_lt by lia.
    + by rewrite !lookup_take_ge by lia.
  - by exists attr.
Qed.

(** FINGERPRINT writes the final length into the header and appends
    8 bytes. *)
Lemma fingerprint_shape (header header' : buffer) (attrs attrs' : list buffer) :
  length header = 20%nat ->
  fingerprint header attrs = Ok (header', attrs') ->
  header' = write_at header 2 (be16 (total_length attrs + 8))
  /\ 0 <= total_length attrs + 8 <= 65535
  /\ exists attr, attrs' = attrs ++ [attr] /\ length attr = 8%nat.
Proof.
  intros Hlen H. unfold fingerprint in H.
  apply bind_ok in H as (h1 & H1 & H).
  apply writeUInt16BE_inv in H1 as (-> & Hrange & _).
  apply bind_ok in H as (a1 & H1 & H). apply bind_ok in H as (a2 & H2 & H).
  apply bind_ok in H as (a3 & H3 & H). injection H as <- <-.
  apply writeUInt16BE_inv in H1 as (-> & _ & _).
  apply writeUInt16BE_inv in H2 as (-> & _ & _).
  apply writeUInt32BE_inv in H3 as (-> & _).
  split; [done |]. split; [done |]. eexists. split; [done |].
  rewrite !length_write_at; cbn; lia.
Qed.

Lemma length_concat_snoc (attrs : list buffer) (attr : buffer) :
  length (concat (attrs ++ [attr])) = (length (concat attrs) + length attr)%nat.
Proof. rewrite concat_app, length_app. cbn. by rewrite app_nil_r. Qed.

(** The shape of every request [buildBindingRequest] returns. *)
Lemma built_request_shape (user : option string) (tok : option buffer)
    (useCandidate : bool) (transactionId rnd pkt : buffer) :
  buildBindingRequest hmac_sha1 user tok useCandidate transactionId rnd = Ok pkt ->
  readUInt16BE pkt 0 = Ok 0x0001
  /\ readUInt16BE pkt 2 = Ok (Z.of_nat (length pkt) - 20)
  /\ (length pkt mod 4 = 0)%nat.
Proof.
  unfold buildBindingRequest. intros H.
  apply bind_ok in H as (header & Hheader & H).
  vm_compute in Hheader. injection Hheader as <-.
  set (header := [0; 1; 0; 0; 0; 0; 0; 0; 0; 0; 0; 0; 0; 0; 0; 0; 0; 0; 0; 0]) in *.
  apply bind_ok in H as (attrs1 & H1 & H).
  assert (Hn1 : (length (concat attrs1) mod 4 = 0)%nat).
  { destruct user as [u |]; [destruct (decide (u = "")) |]; try (by injection H1 as <-).
    apply bind_ok in H1 as (attr & Hattr & H1). injection H1 as <-.
    cbn. rewrite app_nil_r. by apply length_username_attr in Hattr. }
  apply bind_ok in H as (ice & Hice & H). apply length_ice_controlled_attr in Hice.
  apply bind_ok in H as (prio & Hprio & H). apply length_priority_attr in Hprio.
  apply bind_ok in H as (attrs2 & H2 & H).
  assert (Hn2 : (length (concat attrs2) mod 4 = 0)%nat).
  { destruct useCandidate.
    - apply bind_ok in H2 as (attr & Hattr & H2). injection H2 as <-.
      apply length_use_candidate_attr in Hattr.
      rewrite !length_concat_snoc, Hice, Hprio, Hattr.
      replace (length (concat attrs1) + 12 + 8 + 4)%nat
        with (length (concat attrs1) + 6 * 4)%nat by lia.
      by rewrite Nat.Div0.mod_add.
    - injection H2 as <-. rewrite !length_concat_snoc, Hice, Hprio.
      replace (length (concat attrs1) + 12 + 8)%nat
        with (length (concat attrs1) + 5 * 4)%nat by lia.
      by rewrite Nat.Div0.mod_add. }
  apply bind_ok in H as ([header3 attrs3] & Hsigned & H).
  assert (Hs : length header3 = 20%nat /\ take 2 header3 = [0; 1]
               /\ (length (concat attrs3) mod 4 = 0)%nat).
  { destruct tok as [t |].
    - apply message_integrity_shape in Hsigned as (Hl & Ht & attr & -> & Hattr); [| done].
      split; [done |]. split; [done |].
      rewrite length_concat_snoc, Hattr.
      replace (length (concat attrs2) + 24)%nat
        with (length (concat attrs2) + 6 * 4)%nat by lia.
      by rewrite Nat.Div0.mod_add.
    - by injection Hsigned as <- <-. }
  destruct Hs as (Hl3 & Ht3 & Hn3).
  apply bind_ok in H as ([header4 attrs4] & Hfp & H). injection H as <-.
  apply fingerprint_shape in Hfp as (-> & Hrange & attr & -> & Hattr); [| done].
  unfold total_length in *.
  assert (Hl4 : length (write_at header3 2 (be16 (Z.of_nat (length (concat attrs3)) + 8)))
                = 20%nat) by (rewrite length_write_at; cbn; lia).
  assert (H0 : write_at header3 2 (be16 (Z.of_nat (length (concat attrs3)) + 8)) !! 0%nat
               = Some 0).
  { rewrite lookup_write_at_lt by lia.
    rewrite <- (lookup_take_lt header3 2) by lia. by rewrite Ht3. }
  assert (H1' : write_at header3 2 (be16 (Z.of_nat (length (concat attrs3)) + 8)) !! 1%nat
                = Some 1).
  { rewrite lookup_write_at_lt by lia.
    rewrite <- (lookup_take_lt header3 2) by lia. by rewrite Ht3. }
  split; [| split].
  - unfold readUInt16BE, buffer in *. rewrite !lookup_app_l by (rewrite Hl4; lia).
    by rewrite H0, H1'.
  - unfold readUInt16BE, buffer in *. rewrite !lookup_app_l by (rewrite Hl4; lia).
    rewrite (lookup_write_at header3 2 0) by (cbn; lia).
    rewrite (lookup_write_at header3 2 1) by (cbn; lia). cbn.
    f_equal. rewrite length_app, Hl4, length_concat_snoc, Hattr.
    pose proof (Z.div_mod (Z.of_nat (length (concat attrs3)) + 8) 256). lia.
  - rewrite length_app, Hl4, length_concat_snoc, Hattr.
    replace (20 + (length (concat attrs3) + 8))%nat
      with (length (concat attrs3) + 7 * 4)%nat by lia.
    by rewrite Nat.Div0.mod_add.
Qed.

(** X1. Every Binding Request the client sends, signed or not, starts
    with the type 0x0001, carries in its length field the number of
    bytes that follow the 20-byte header, and is a whole number of
    32-bit words. *)
Theorem binding_request_length_field (c : StunClient) (relay : Relay)
    (user : option string) (tok : option buffer) (useCandidate : bool)
    (transactionId rnd pkt : buffer) (p : Z) (host : string) :
  sendBindingRequest hmac_sha1 c relay user tok useCandidate transactionId rnd
  = Ok [Send pkt p host] ->
  readUInt16BE pkt 0 = Ok 0x0001
  /\ readUInt16BE pkt 2 = Ok (Z.of_nat (length pkt) - 20)
  /\ (length pkt mod 4 = 0)%nat.
Proof.
  unfold sendBindingRequest. destruct (negb (socket c)); [discriminate |].
  intros H. apply bind_ok in H as (built & Hbuilt & H).
  unfold socket_send in H. destruct (decide _); [| discriminate].
  injection H as <- _ _. by apply built_request_shape in Hbuilt.
Qed.

(** X2. With the socket attached, a token and a usable port, the client
    sends one datagram to the relay, and it is the specified layout:
    header, then USERNAME when given, ICE-CONTROLLED, PRIORITY,
    USE-CANDIDATE when nominating, MESSAGE-INTEGRITY and FINGERPRINT. *)
Theorem binding_request_with_token_is_sent (c : StunClient) (relay : Relay)
    (user : option string) (tok transactionId rnd : buffer) (useCandidate : bool) :
  socket c = true ->
  length transactionId = 12%nat -> length rnd = 8%nat ->
  (forall k m, length (hmac_sha1 k m) = 20%nat) ->
  Z.of_nat (length (layout_body user useCandidate rnd)) + 32 <= 65535 ->
  0 < rport relay < 65536 ->
  sendBindingRequest hmac_sha1 c relay user (Some tok) useCandidate transactionId rnd
  = Ok [Send (layout hmac_sha1 user tok useCandidate transactionId rnd)
          (rport relay) (ip relay)].
Proof.
  intros Hsock Htid Hrnd Hmac Hsize Hport. unfold sendBindingRequest.
  rewrite Hsock. cbn [negb].
  rewrite request_with_token_layout by done. cbn [bind].
  unfold socket_send. by rewrite decide_True.
Qed.

Lemma sendBindingRequest_bad_port (c : StunClient) (relay : Relay)
    (user : option string) (tok : option buffer) (useCandidate : bool)
    (transactionId rnd : buffer) :
  socket c = true -> ~ 0 < rport relay < 65536 ->
  throws (sendBindingRequest hmac_sha1 c relay user tok useCandidate transactionId rnd).
Proof.
  unfold sendBindingRequest, throws. intros -> Hport. cbn [negb].
  destruct (buildBindingRequest _ _ _ _ _ _) as [pkt | e]; cbn [bind]; [| by eexists].
  unfold socket_send. rewrite decide_False by done. by eexists.
Qed.

End StunRequests.

Lemma binding_request_length_field_witness :
  Buffer.readUInt16BE Samples.signed_request 0 = Ok 0x0001
  /\ Buffer.readUInt16BE Samples.signed_request 2
     = Ok (Z.of_nat (length Samples.signed_request) - 20)
  /\ (length Samples.signed_request mod 4 = 0)%nat.
Proof.
  apply (binding_request_length_field Samples.zero_hmac Samples.started_stun
           Samples.sample_relay (Some "CALL1") (Some [1; 2; 3; 4]) false
           (seqZ 1 12) (seqZ 100 8) _ 3478 "157.240.0.1").
  reflexivity.
Defined.

Lemma binding_request_with_token_is_sent_witness :
  Stun.sendBindingRequest Samples.zero_hmac Samples.started_stun Samples.sample_relay
    (Some "CALL1") (Some [1; 2; 3; 4]) true (seqZ 1 12) (seqZ 100 8)
  = Ok [Stun.Send
          (Stun.layout Samples.zero_hmac (Some "CALL1") [1; 2; 3; 4] true (seqZ 1 12)
             (seqZ 100 8))
          3478 "157.240.0.1"].
Proof.
  apply (binding_request_with_token_is_sent Samples.zero_hmac Samples.started_stun
           Samples.sample_relay (Some "CALL1") [1; 2; 3; 4] (seqZ 1 12) (seqZ 100 8) true);
    [reflexivity | reflexivity | reflexivity | intros; reflexivity | by vm_compute
    | cbn; lia].
Defined.

(** ** Media handling *)

Section MediaHandling.

Import Buffer Media.

Variable decrypt : MediaKeys -> buffer -> result (option buffer) exn.
Variable encrypt : MediaKeys -> buffer -> RtpHeader -> result buffer exn.
Variable deSerialize : buffer -> result RtpPacket exn.

Abbreviation handleMedia := (Media.handleMedia decrypt encrypt deSerialize).
Abbreviation forwardToWhatsApp := (Media.forwardToWhatsApp encrypt deSerialize).
Abbreviation sendRtp := (Media.sendRtp encrypt).
Abbreviation silenceTick := (Media.silenceTick encrypt).
Abbreviation send_all := (Media.send_all encrypt deSerialize).

(** [(x & 0x80) | 111] on a byte: the low seven bits become 111, the
    top bit stays. *)
Lemma opus_byte (x : Z) :
  0 <= x < 256 ->
  Z.land (Z.lor (Z.land x 0x80) 111) 0x7F = 111
  /\ Z.land (Z.lor (Z.land x 0x80) 111) 0x80 = Z.land x 0x80.
Proof.
  intros Hx.
  assert (Hall : forallb (fun x => (Z.land (Z.lor (Z.land x 0x80) 111) 0x7F =? 111)
                                   && (Z.land (Z.lor (Z.land x 0x80) 111) 0x80
                                       =? Z.land x 0x80)) (seqZ 0 256) = true)
    by (vm_compute; reflexivity).
  rewrite forallb_forall in Hall.
  assert (Hin : In x (seqZ 0 256)) by (apply list_elem_of_In, elem_of_seqZ; lia).
  apply Hall, andb_prop in Hin as [H1 H2]. split; lia.
Qed.

Lemma sendRtp_keeps (b : MediaBridge) (body : buffer) (pt ts : Z) (mark : bool) :
  let b' := fst (sendRtp b body pt ts mark) in
  config b' = config b /\ silenceInterval b' = silenceInterval b
  /\ activeRelay b' = activeRelay b /\ srtpSession b' = srtpSession b
  /\ udpSocket b' = udpSocket b /\ silenceTs b' = silenceTs b
  /\ packetsRx b' = packetsRx b.
Proof.
  unfold Media.sendRtp. destruct (activeRelay b) as [target |] eqn:Et.
  2: { cbn. by rewrite Et. }
  destruct (srtpSession b) as [session |] eqn:Es.
  2: { cbn. by rewrite Et, Es. }
  destruct (udpSocket b) eqn:Eu.
  2: { cbn. by rewrite Et, Es, Eu. }
  destruct (encrypt _ _ _); [destruct (decide (0 < _ < 65536)) |]; cbn;
    by rewrite Et, Es, Eu.
Qed.

Lemma forwardToWhatsApp_keeps (b : MediaBridge) (msg : buffer) :
  let b' := fst (forwardToWhatsApp b msg) in
  config b' = config b /\ silenceInterval b' = false.
Proof.
  unfold Media.forwardToWhatsApp.
  assert (Hstop : config (stopSilence b) = config b /\ silenceInterval (stopSilence b) = false).
  { unfold stopSilence. destruct (silenceInterval b) eqn:E; [by cbn | by rewrite E]. }
  destruct Hstop as [Hc Hs].
  destruct (srtpSession (stopSilence b)); [| by cbn].
  destruct (deSerialize msg) as [pkt |]; [| by cbn].
  destruct (sendRtp_keeps (stopSilence b) (payload pkt) 111 (timestamp (header pkt))
              (marker (header pkt))) as (Hc' & Hs' & _).
  cbn zeta in *. by rewrite Hc', Hs'.
Qed.

(** X3. A packet that decrypts, from any host other than Asterisk, goes
    to Asterisk with the payload type of its second byte rewritten to
    111 and nothing else changed, its marker bit included; the sender
    becomes the active relay and keeps the token and user name of the
    configured relay with the same address, if there is one. *)
Theorem relay_packet_is_forwarded_as_opus (b : MediaBridge) (msg dec : buffer)
    (rinfo : Stun.RemoteInfo) (session : MediaKeys) :
  Stun.address rinfo <> asteriskHost (config b) ->
  srtpSession b = Some session ->
  decrypt session msg = Ok (Some dec) ->
  udpSocket b = true ->
  0 < asteriskRtpPort (config b) < 65536 ->
  wf dec ->
  exists out,
    snd (handleMedia b msg rinfo)
    = [ToAsterisk out (asteriskRtpPort (config b)) (asteriskHost (config b))]
    /\ length out = length dec
    /\ (forall i, i <> 1%nat -> out !! i = dec !! i)
    /\ (forall x, dec !! 1%nat = Some x ->
        exists y, out !! 1%nat = Some y
                  /\ Z.land y 0x7F = 111 /\ Z.land y 0x80 = Z.land x 0x80)
    /\ activeRelay (fst (handleMedia b msg rinfo))
       = Some {| Stun.ip := Stun.address rinfo; Stun.rport := Stun.port rinfo;
                 Stun.token := find_relay b rinfo ≫= Stun.token;
                 Stun.username := find_relay b rinfo ≫= Stun.username;
                 Stun.callCreator := None |}
    /\ packetsRx (fst (handleMedia b msg rinfo)) = packetsRx b + 1.
Proof.
  intros Hfrom Hkeys Hdec Hsock Hport Hwf. unfold Media.handleMedia.
  rewrite decide_False by done. rewrite Hkeys, Hdec. cbn [set_received udpSocket config].
  rewrite Hsock, bool_decide_eq_true_2 by done. cbn [andb fst snd].
  exists (force_opus dec). split; [reflexivity |]. unfold force_opus, buffer in *.
  split; [apply length_insert |]. split; [| split; [| done]].
  - intros i Hi. by rewrite list_lookup_insert_ne.
  - intros x Hx. rewrite Hx. cbn [default].
    exists (Z.lor (Z.land x 128) 111). split.
    + apply list_lookup_insert_eq. by apply lookup_lt_Some in Hx.
    + apply opus_byte. unfold wf in Hwf. rewrite Forall_lookup in Hwf. by apply (Hwf 1%nat).
Qed.

(** X4. The two directions never cross: what arrives from the Asterisk
    host leaves only towards the relay, what arrives from anywhere
    else leaves only towards the Asterisk host, and the media handler
    sends no STUN. *)
Theorem media_directions_never_cross (b : MediaBridge) (msg : buffer)
    (rinfo : Stun.RemoteInfo) (e : effect) :
  e ∈ snd (handleMedia b msg rinfo) ->
  match e with
  | ToRelay _ _ _ _ => Stun.address rinfo = asteriskHost (config b)
  | ToAsterisk _ _ host =>
      Stun.address rinfo <> asteriskHost (config b) /\ host = asteriskHost (config b)
  | StunEffect _ => False
  end.
Proof.
  unfold Media.handleMedia.
  destruct (decide (Stun.address rinfo = asteriskHost (config b))) as [Hfrom | Hfrom].
  - set (b1 := if decide (asteriskRtpPort (config b) = 0) then _ else b).
    unfold Media.forwardToWhatsApp.
    destruct (srtpSession (stopSilence b1)); [| by intros ?%elem_of_nil].
    destruct (deSerialize msg) as [pkt |]; [| by intros ?%elem_of_nil].
    unfold Media.sendRtp.
    destruct (activeRelay (stopSilence b1)); [| by intros ?%elem_of_nil].
    destruct (srtpSession (stopSilence b1)); [| by intros ?%elem_of_nil].
    destruct (udpSocket (stopSilence b1)); [| by intros ?%elem_of_nil].
    destruct (encrypt _ _ _); [destruct (decide (0 < _ < 65536)) |]; cbn [snd];
      try (by intros ?%elem_of_nil).
    by intros ->%list_elem_of_singleton.
  - destruct (srtpSession b) as [session |]; [| by intros ?%elem_of_nil].
    destruct (decrypt session msg) as [[dec |] |]; try (by intros ?%elem_of_nil).
    destruct (_ && _); cbn [snd]; [| by intros ?%elem_of_nil].
    by intros ->%list_elem_of_singleton.
Qed.

(** X5. Any packet from the Asterisk host, whether or not it can be
    parsed, encrypted or sent, stops the silence timer and, while no
    port is known, makes its source port the Asterisk RTP port; a port
    once known is never replaced. Packets from other hosts do not
    touch the port. *)
Theorem asterisk_port_is_latched (b : MediaBridge) (msg : buffer)
    (rinfo : Stun.RemoteInfo) :
  let b' := fst (handleMedia b msg rinfo) in
  asteriskRtpPort (config b')
  = (if decide (Stun.address rinfo = asteriskHost (config b)
                /\ asteriskRtpPort (config b) = 0)
     then Stun.port rinfo else asteriskRtpPort (config b))
  /\ asteriskHost (config b') = asteriskHost (config b)
  /\ (Stun.address rinfo = asteriskHost (config b) -> silenceInterval b' = false).
Proof.
  unfold Media.handleMedia.
  destruct (decide (Stun.address rinfo = asteriskHost (config b))) as [Hfrom | Hfrom].
  - set (b1 := if decide (asteriskRtpPort (config b) = 0) then _ else b).
    destruct (forwardToWhatsApp_keeps b1 msg) as [Hc Hs]. cbn zeta in *.
    rewrite Hc. subst b1.
    destruct (decide (asteriskRtpPort (config b) = 0)) as [Hzero | Hset].
    + rewrite decide_True by done. by cbn.
    + rewrite decide_False by (intros [_ ?]; done). done.
  - rewrite decide_False by (intros [? _]; done).
    destruct (srtpSession b) as [session |]; [| done].
    destruct (decrypt session msg) as [[dec |] |]; try done.
    destruct (_ && _); by cbn.
Qed.

(** X6. A packet from the Asterisk host that parses is relayed under a
    fresh header: version 2, no padding, no extension, payload type
    111 whatever the packet's own, the bridge's sequence counter and
    SSRC, and the packet's time stamp and marker. *)
Theorem asterisk_packet_is_relayed_as_opus (b : MediaBridge) (msg sealed : buffer)
    (rinfo : Stun.RemoteInfo) (session : MediaKeys) (target : Stun.Relay)
    (pkt : RtpPacket) :
  Stun.address rinfo = asteriskHost (config b) ->
  udpSocket b = true -> srtpSession b = Some session ->
  activeRelay b = Some target -> 0 < Stun.rport target < 65536 ->
  deSerialize msg = Ok pkt ->
  let hdr := {| version := 2; padding := false; extension := false;
                marker := marker (header pkt); payloadType := 111;
                sequenceNumber := outSeq b; timestamp := timestamp (header pkt);
                ssrc := outSsrc b |} in
  encrypt session (payload pkt) hdr = Ok sealed ->
  snd (handleMedia b msg rinfo)
  = [ToRelay hdr sealed (Stun.rport target) (Stun.ip target)]
  /\ outSeq (fst (handleMedia b msg rinfo)) = (outSeq b + 1) mod 65535.
Proof.
  intros Hfrom Hsock Hkeys Htarget Hport Hpkt hdr Hseal. unfold Media.handleMedia.
  rewrite decide_True by done.
  set (b1 := if decide (asteriskRtpPort (config b) = 0) then _ else b).
  assert (H1 : udpSocket (stopSilence b1) = true /\ srtpSession (stopSilence b1) = Some session
               /\ activeRelay (stopSilence b1) = Some target
               /\ outSeq (stopSilence b1) = outSeq b /\ outSsrc (stopSilence b1) = outSsrc b).
  { subst b1. unfold stopSilence.
    destruct (decide (asteriskRtpPort (config b) = 0));
      cbn [updateAsteriskRtp set_config silenceInterval];
      destruct (silenceInterval b); by cbn. }
  destruct H1 as (Hs1 & Hk1 & Ht1 & Ho1 & Hss1).
  unfold Media.forwardToWhatsApp. rewrite Hk1, Hpkt. unfold Media.sendRtp.
  rewrite Ht1, Hk1, Hs1, decide_True by (by left). rewrite Ho1, Hss1. fold hdr.
  rewrite Hseal, decide_True by done. cbn [fst snd set_outSeq outSeq]. done.
Qed.

(** X7. While no relay is active the silence timer sends nothing and
    leaves the sequence counter alone, yet its time stamp advances by
    320 on every tick. *)
Theorem silence_waits_for_a_relay (n : nat) : forall b : MediaBridge,
  is_Some (srtpSession b) -> activeRelay b = None ->
  let b' := fst (send_all b (repeat Silence n)) in
  snd (send_all b (repeat Silence n)) = []
  /\ outSeq b' = outSeq b
  /\ silenceTs b' = silenceTs b + 320 * Z.of_nat n
  /\ activeRelay b' = None.
Proof.
  induction n as [| n IH]; intros b Hkeys Hnone; cbn zeta.
  - cbn. repeat split; [lia | done].
  - cbn [repeat Media.send_all Media.send_one]. unfold Media.silenceTick.
    destruct Hkeys as [keys Hkeys]. rewrite Hkeys. unfold Media.sendRtp. rewrite Hnone.
    specialize (IH (set_silenceTs b (silenceTs b + 320))). cbn zeta in IH.
    destruct (send_all (set_silenceTs b (silenceTs b + 320)) (repeat Silence n))
      as [b2 es] eqn:Erest.
    cbn [fst snd] in *.
    destruct IH as (-> & Hseq & Hts & Hrelay); [by eexists | done |].
    cbn in Hseq, Hts. repeat split; [done | lia | done].
Qed.

End MediaHandling.

Lemma relay_packet_is_forwarded_as_opus_witness :
  exists out,
    snd (Media.handleMedia Samples.unseal Samples.plain_encrypt Samples.no_rtp
           Samples.answering_bridge [0x80; 0xE0; 7; 7] Samples.sample_rinfo)
    = [Media.ToAsterisk out 4000 "10.0.0.2"]
    /\ length out = length [0x80; 0xE0; 7; 7]
    /\ (forall i, i <> 1%nat -> out !! i = [0x80; 0xE0; 7; 7] !! i)
    /\ (forall x, [0x80; 0xE0; 7; 7] !! 1%nat = Some x ->
        exists y, out !! 1%nat = Some y
                  /\ Z.land y 0x7F = 111 /\ Z.land y 0x80 = Z.land x 0x80)
    /\ Media.activeRelay
         (fst (Media.handleMedia Samples.unseal Samples.plain_encrypt Samples.no_rtp
                 Samples.answering_bridge [0x80; 0xE0; 7; 7] Samples.sample_rinfo))
       = Some {| Stun.ip := "157.240.0.1"; Stun.rport := 3478;
                 Stun.token := Media.find_relay Samples.answering_bridge Samples.sample_rinfo
                               ≫= Stun.token;
                 Stun.username := Media.find_relay Samples.answering_bridge
                                    Samples.sample_rinfo ≫= Stun.username;
                 Stun.callCreator := None |}
    /\ Media.packetsRx
         (fst (Media.handleMedia Samples.unseal Samples.plain_encrypt Samples.no_rtp
                 Samples.answering_bridge [0x80; 0xE0; 7; 7] Samples.sample_rinfo))
       = 1 + 1.
Proof.
  apply (relay_packet_is_forwarded_as_opus Samples.unseal Samples.plain_encrypt
           Samples.no_rtp Samples.answering_bridge [0x80; 0xE0; 7; 7] [0x80; 0xE0; 7; 7]
           Samples.sample_rinfo Samples.sample_keys);
    [discriminate | reflexivity | reflexivity | reflexivity | cbn; lia
    | repeat constructor; lia].
Defined.

Lemma media_directions_never_cross_witness :
  Stun.address Samples.sample_rinfo <> "10.0.0.2" /\ "10.0.0.2" = "10.0.0.2".
Proof.
  apply (media_directions_never_cross Samples.unseal Samples.plain_encrypt Samples.no_rtp
           Samples.answering_bridge [0x80; 0xE0; 7; 7] Samples.sample_rinfo
           (Media.ToAsterisk [0x80; 0xEF; 7; 7] 4000 "10.0.0.2")).
  apply list_elem_of_singleton. reflexivity.
Defined.

Lemma asterisk_packet_is_relayed_as_opus_witness :
  snd (Media.handleMedia Samples.unseal Samples.plain_encrypt Samples.pcmu_rtp
         Samples.answering_bridge [0x80; 0x00; 7; 7] Samples.asterisk_rinfo)
  = [Media.ToRelay
       {| Media.version := 2; Media.padding := false; Media.extension := false;
          Media.marker := false; Media.payloadType := 111;
          Media.sequenceNumber := 65534; Media.timestamp := 160;
          Media.ssrc := 123456 |}
       [7; 7] 3478 "157.240.0.1"]
  /\ Media.outSeq
       (fst (Media.handleMedia Samples.unseal Samples.plain_encrypt Samples.pcmu_rtp
               Samples.answering_bridge [0x80; 0x00; 7; 7] Samples.asterisk_rinfo))
     = (65534 + 1) mod 65535.
Proof.
  apply (asterisk_packet_is_relayed_as_opus Samples.unseal Samples.plain_encrypt
           Samples.pcmu_rtp Samples.answering_bridge [0x80; 0x00; 7; 7] [7; 7]
           Samples.asterisk_rinfo Samples.sample_keys Samples.sample_relay
           (Samples.pcmu_packet [0x80; 0x00; 7; 7]));
    [reflexivity | reflexivity | reflexivity | reflexivity | cbn; lia | reflexivity
    | reflexivity].
Defined.

Lemma silence_waits_for_a_relay_witness :
  snd (Media.send_all Samples.plain_encrypt Samples.no_rtp Samples.waiting_bridge
         (repeat Media.Silence 3)) = []
  /\ Media.outSeq
       (fst (Media.send_all Samples.plain_encrypt Samples.no_rtp Samples.waiting_bridge
               (repeat Media.Silence 3))) = 5
  /\ Media.silenceTs
       (fst (Media.send_all Samples.plain_encrypt Samples.no_rtp Samples.waiting_bridge
               (repeat Media.Silence 3))) = 0 + 320 * Z.of_nat 3
  /\ Media.activeRelay
       (fst (Media.send_all Samples.plain_encrypt Samples.no_rtp Samples.waiting_bridge
               (repeat Media.Silence 3))) = None.
Proof.
  apply (silence_waits_for_a_relay Samples.plain_encrypt Samples.no_rtp 3
           Samples.waiting_bridge);
    [exists Samples.sample_keys; reflexivity | reflexivity].
Defined.

(** ** The keep-alive timer *)

Section KeepaliveProperties.

Import Buffer Media.

Variable hmac_sha1 : buffer -> buffer -> buffer.
Variable entropy : nat -> buffer * buffer.

Abbreviation probe := (Media.probe hmac_sha1 entropy).
Abbreviation poke := (Media.poke hmac_sha1 entropy).

(** A request leaves as one datagram to the relay's own address, or
    not at all. *)
Lemma sendBindingRequest_effects (c : Stun.StunClient) (relay : Stun.Relay)
    (user : option string) (tok : option buffer) (useCandidate : bool)
    (transactionId rnd : buffer) (es : list Stun.effect) :
  Stun.sendBindingRequest hmac_sha1 c relay user tok useCandidate transactionId rnd = Ok es ->
  es = []
  \/ Stun.socket c = true /\ 0 < Stun.rport relay < 65536
     /\ exists pkt, es = [Stun.Send pkt (Stun.rport relay) (Stun.ip relay)].
Proof.
  unfold Stun.sendBindingRequest. destruct (Stun.socket c); cbn [negb].
  - intros H. apply bind_ok in H as (pkt & _ & H). unfold Stun.socket_send in H.
    destruct (decide _); [| discriminate]. injection H as <-. right. eauto.
  - intros [= <-]. by left.
Qed.

Lemma probe_effects (stun : Stun.StunClient) (target : Stun.Relay) (k : nat)
    (user : option string) (tok : option buffer) :
  (length (fst (probe stun target k user tok)) <= 1)%nat
  /\ forall e, e ∈ fst (probe stun target k user tok) ->
       0 < Stun.rport target < 65536
       /\ exists pkt, e = StunEffect (Stun.Send pkt (Stun.rport target) (Stun.ip target)).
Proof.
  unfold Media.probe.
  destruct (Stun.sendBindingRequest _ _ _ _ _ _ _ _) as [es | err] eqn:E; cbn [fst].
  - apply sendBindingRequest_effects in E as [-> | (_ & Hport & pkt & ->)]; cbn.
    + split; [lia | by intros e ?%elem_of_nil].
    + split; [lia |]. intros e ->%list_elem_of_singleton. eauto.
  - split; [cbn; lia | by intros e ?%elem_of_nil].
Qed.

Lemma and_then_effects (P : effect -> Prop) (first next : outcome) (n m : nat) :
  (length (fst first) <= n)%nat -> (length (fst next) <= m)%nat ->
  (forall e, e ∈ fst first -> P e) -> (forall e, e ∈ fst next -> P e) ->
  (length (fst (and_then first next)) <= n + m)%nat
  /\ forall e, e ∈ fst (and_then first next) -> P e.
Proof.
  intros Hn Hm Hfirst Hnext. destruct first as [es [err |]]; cbn [and_then fst] in *.
  - split; [lia | done].
  - split; [rewrite length_app; lia |].
    intros e [? | ?]%elem_of_app; eauto.
Qed.

Lemma nothing_effects (P : effect -> Prop) (n : nat) :
  (length (fst (([], None) : outcome)) <= n)%nat
  /\ forall e, e ∈ fst (([], None) : outcome) -> P e.
Proof. split; [cbn; lia |]. intros e He. cbn in He. by apply elem_of_nil in He. Qed.

(** X8. A tick of the keep-alive timer sends at most four requests, all
    of them to one relay: the active relay if there is one, otherwise
    the first configured relay. *)
Theorem poke_probes_one_relay (b : MediaBridge) :
  (length (fst (poke b)) <= 4)%nat
  /\ forall e, e ∈ fst (poke b) ->
       exists target pkt,
         poke_target b = Some target
         /\ (forall t, activeRelay b = Some t -> target = t)
         /\ e = StunEffect (Stun.Send pkt (Stun.rport target) (Stun.ip target)).
Proof.
  unfold Media.poke.
  destruct (poke_target b) as [target |] eqn:Etarget;
    [| split; [cbn; lia | intros e He; cbn in He; by apply elem_of_nil in He]].
  destruct (stunClient b) as [stun |];
    [| split; [cbn; lia | intros e He; cbn in He; by apply elem_of_nil in He]].
  set (P e := 0 < Stun.rport target < 65536
              /\ exists pkt, e = StunEffect (Stun.Send pkt (Stun.rport target)
                                               (Stun.ip target))).
  assert (Hkey : forall k user,
             (length (fst (match masterKey <$> authKeys b with
                           | Some key => probe stun target k user (Some key)
                           | None => ([], None)
                           end)) <= 1)%nat
             /\ forall e, e ∈ fst (match masterKey <$> authKeys b with
                                   | Some key => probe stun target k user (Some key)
                                   | None => ([], None)
                                   end) -> P e).
  { intros k user. destruct (masterKey <$> authKeys b); [apply probe_effects |].
    apply nothing_effects. }
  assert (Hcreator :
    (length (fst (match Stun.callCreator target with
                  | Some creator =>
                      if decide (creator = "") then ([], None)
                      else and_then (probe stun target 2 (Some creator) (Stun.token target))
                             (match masterKey <$> authKeys b with
                              | Some key => probe stun target 3 (Some creator) (Some key)
                              | None => ([], None)
                              end)
                  | None => ([], None)
                  end)) <= 1 + 1)%nat
    /\ forall e, e ∈ fst (match Stun.callCreator target with
                  | Some creator =>
                      if decide (creator = "") then ([], None)
                      else and_then (probe stun target 2 (Some creator) (Stun.token target))
                             (match masterKey <$> authKeys b with
                              | Some key => probe stun target 3 (Some creator) (Some key)
                              | None => ([], None)
                              end)
                  | None => ([], None)
                  end) -> P e).
  { destruct (Stun.callCreator target) as [creator |];
      [destruct (decide (creator = "")) |]; try apply nothing_effects.
    apply and_then_effects; try apply probe_effects; apply Hkey. }
  destruct (probe_effects stun target 0 (Stun.username target) (Stun.token target))
    as [Hp0 Hp0'].
  destruct (Hkey 1%nat (Stun.username target)) as [Hk1 Hk1'].
  destruct Hcreator as [Hc Hc'].
  destruct (and_then_effects P _ _ 1 (1 + 1) Hk1 Hc Hk1' Hc') as [Hi Hi'].
  destruct (and_then_effects P _ _ 1 (1 + (1 + 1)) Hp0 Hi Hp0' Hi') as [Hlen Hall].
  split; [exact Hlen |]. intros e He. destruct (Hall e He) as (_ & pkt & ->).
  exists target, pkt. split; [done |]. split; [| done].
  intros t Ht. unfold poke_target in Etarget. rewrite Ht in Etarget. by injection Etarget.
Qed.

(** X9. With a started client, a relay whose port is not in 1..65535
    makes the timer callback raise on its first request, before
    anything is sent. *)
Theorem poke_raises_on_a_bad_port (b : MediaBridge) (stun : Stun.StunClient)
    (target : Stun.Relay) :
  poke_target b = Some target -> stunClient b = Some stun ->
  Stun.socket stun = true -> ~ 0 < Stun.rport target < 65536 ->
  exists e, poke b = ([], Some e).
Proof.
  intros Htarget Hstun Hsock Hport. unfold Media.poke. rewrite Htarget, Hstun.
  unfold Media.probe at 1.
  destruct (sendBindingRequest_bad_port hmac_sha1 stun target
              (Stun.username target) (Stun.token target) false
              (fst (entropy 0)) (snd (entropy 0)) Hsock Hport) as [e ->].
  by exists e.
Qed.

End KeepaliveProperties.

Lemma poke_raises_on_a_bad_port_witness :
  exists e, Media.poke Samples.zero_hmac Samples.fixed_entropy Samples.unreachable_bridge
            = ([], Some e).
Proof.
  apply (poke_raises_on_a_bad_port Samples.zero_hmac Samples.fixed_entropy
           Samples.unreachable_bridge Samples.started_stun Samples.portless_relay);
    [reflexivity | reflexivity | reflexivity | cbn; lia].
Defined.

(** ** Relay candidates and tokens *)

Section RelayCandidates.

Import Buffer Extractor.

(** X10. Parsing the six-byte form of an endpoint, followed by a token,
    gives back the address, the port and the token; a candidate of
    exactly six bytes has no token. *)
Theorem parseRelayEndpoint_round_trip (t : string) (a : gmap string string)
    (a0 a1 a2 a3 p : Z) (tok : buffer) :
  0 <= p < 65536 ->
  parseRelayEndpoint (Node t a (CBytes ([a0; a1; a2; a3] ++ be16 p ++ tok)))
  = Some {| ip := pretty a0 +:+ "." +:+ pretty a1 +:+ "." +:+ pretty a2 +:+ "."
                  +:+ pretty a3;
            port := p;
            token := if decide (tok = []) then None else Some tok |}.
Proof.
  intros Hp. unfold parseRelayEndpoint. cbn [node_content app be16 length].
  destruct (decide (6 <= _)%nat) as [_ | Hshort]; [| lia].
  cbn [lookup list_lookup default]. f_equal. f_equal.
  - unfold id. pose proof (Z.div_mod p 256). lia.
  - destruct tok as [| x tok]; cbn [length].
    + rewrite decide_False by lia. by rewrite decide_True.
    + rewrite decide_True by lia. by rewrite decide_False.
Qed.

(** X11. Whatever the offer, keys that are returned have the sizes the
    SRTP profile needs: a 16-byte master key and a 14-byte salt. *)
Theorem extracted_keys_have_profile_sizes (o : offer) (k : ExtractedKeys) :
  extractSrtpKeys o = Some k ->
  length (masterKey k) = 16%nat /\ length (masterSalt k) = 14%nat.
Proof.
  unfold extractSrtpKeys. destruct (scan o) as [[toks acc] |]; [| discriminate].
  assert (Hslices : forall kb : buffer, (30 <= length kb)%nat ->
            length (slice kb 0 16) = 16%nat /\ length (slice kb 16 30) = 14%nat).
  { intros kb Hkb. unfold slice. rewrite !length_take, !length_drop. lia. }
  assert (Hkeys : forall key salt,
            match audioKeys acc ≫= finalize with
            | Some k => Some k
            | None => extractKeysFromDecryptedProto o
            end = Some (key, salt) ->
            length key = 16%nat /\ length salt = 14%nat).
  { intros key salt. destruct (audioKeys acc ≫= finalize) as [[key' salt'] |] eqn:Efin.
    - intros [= <- <-]. destruct (audioKeys acc) as [blob |]; [| discriminate].
      cbn in Efin. unfold finalize in Efin.
      destruct (decide (30 <= length _)%nat) as [Hlen |]; [| discriminate].
      injection Efin as <- <-. by apply Hslices.
    - unfold extractKeysFromDecryptedProto. destruct o as [| n | c]; try discriminate.
      destruct (callKey_bytes (callKey c)) as [kb |]; [| discriminate].
      destruct (decide (30 <= length kb)%nat); [| discriminate].
      intros [= <- <-]. by apply Hslices. }
  destruct (match audioKeys acc ≫= finalize with
            | Some k => Some k
            | None => extractKeysFromDecryptedProto o
            end) as [[key salt] |]; [| discriminate].
  intros [= <-]. cbn. by apply Hkeys.
Qed.

(** X12. When the offer carries at least one token, relays are never
    returned without any: if no relay came with a token of its own,
    every relay is given the first token of the offer. *)
Theorem relays_share_the_first_token (o : offer) (k : ExtractedKeys)
    (id : string) (first : buffer) (toks : tokens) (acc : found) :
  extractSrtpKeys o = Some k ->
  scan o = Ok ((id, first) :: toks, acc) ->
  relayEndpoints k <> [] ->
  Exists (fun r => is_Some (token r)) (relayEndpoints k)
  /\ (Forall (fun r => token r = None) (endpoints acc) ->
      relayEndpoints k = map (fun r => set_token r (Some first)) (endpoints acc)).
Proof.
  unfold extractSrtpKeys. intros Hk Hscan. rewrite Hscan in Hk.
  destruct (match audioKeys acc ≫= finalize with
            | Some k => Some k
            | None => extractKeysFromDecryptedProto o
            end) as [[key salt] |]; [| discriminate].
  injection Hk as <-. cbn [relayEndpoints]. unfold apply_fallback.
  destruct (endpoints acc) as [| r rs] eqn:Ers; [done |]. intros _.
  destruct (existsb _ (r :: rs)) eqn:Eany.
  - split.
    + apply existsb_exists in Eany as (x & Hin & Hx).
      apply Exists_exists. exists x. split; [by apply list_elem_of_In |].
      by apply bool_decide_eq_true in Hx.
    + intros Hnone. exfalso.
      apply existsb_exists in Eany as (x & Hin & Hx).
      apply bool_decide_eq_true in Hx. rewrite Forall_forall in Hnone.
      rewrite (Hnone x) in Hx by (by apply list_elem_of_In). by destruct Hx.
  - split; [| done]. cbn [map]. apply Exists_cons_hd. by eexists.
Qed.


(** X14. A transport message that carries a token leaves no relay
    without one: relays that came with their own keep it, the others
    receive the message's token. *)
Theorem transport_token_reaches_every_relay (n : node) (r : TransportRelays) (g : buffer) :
  extractRelaysFromTransport n = Ok r ->
  globalToken r = Some g ->
  Forall (fun e => is_Some (token e)) (transport_relays r)
  /\ exists found,
       transport_walk n {| transport_relays := []; globalToken := None |} = Ok found
       /\ Forall2 (fun e e' => ip e' = ip e /\ port e' = port e
                               /\ token e' = Some (default g (token e)))
            (transport_relays found) (transport_relays r).
Proof.
  unfold extractRelaysFromTransport. intros H Hg.
  apply bind_ok in H as (acc & Hwalk & H). injection H as <-.
  destruct (globalToken acc) as [g' |] eqn:Eg; [| by rewrite Eg in Hg].
  cbn in Hg. injection Hg as ->. cbn [transport_relays]. split.
  - apply Forall_fmap, Forall_true. intros e. cbn. destruct (token e) eqn:E; by rewrite ?E.
  - exists acc. split; [done |]. apply Forall2_fmap_r, Forall_Forall2_diag, Forall_true.
    intros e. destruct (token e) eqn:E; cbn; by rewrite ?E.
Qed.

End RelayCandidates.

Lemma parseRelayEndpoint_round_trip_witness :
  Extractor.parseRelayEndpoint
    (Extractor.Node "te" ∅
       (Extractor.CBytes ([157; 240; 0; 1] ++ Buffer.be16 3478 ++ [1; 2; 3; 4])))
  = Some {| Extractor.ip := "157.240.0.1"; Extractor.port := 3478;
            Extractor.token := Some [1; 2; 3; 4] |}.
Proof.
  apply (parseRelayEndpoint_round_trip "te" ∅ 157 240 0 1 3478 [1; 2; 3; 4]). lia.
Defined.

Lemma extracted_keys_have_profile_sizes_witness :
  length (seqZ 0 16) = 16%nat /\ length (seqZ 16 14) = 14%nat.
Proof.
  apply (extracted_keys_have_profile_sizes (Samples.key_leaf (seqZ 0 32))
           {| Extractor.masterKey := seqZ 0 16; Extractor.masterSalt := seqZ 16 14;
              Extractor.relayEndpoints := [] |}).
  reflexivity.
Defined.

Lemma relays_share_the_first_token_witness :
  Exists (fun r => is_Some (Extractor.token r)) [Samples.candidate (Some [1; 2; 3; 4])]
  /\ (Forall (fun r => Extractor.token r = None) [Samples.candidate None] ->
      [Samples.candidate (Some [1; 2; 3; 4])]
      = map (fun r => Extractor.set_token r (Some [1; 2; 3; 4])) [Samples.candidate None]).
Proof.
  apply (relays_share_the_first_token
           (Samples.offer_with_relay [157; 240; 0; 1; 13; 150])
           (Samples.found_keys [Samples.candidate (Some [1; 2; 3; 4])])
           "1" [1; 2; 3; 4] []
           {| Extractor.endpoints := [Samples.candidate None];
              Extractor.audioKeys := Some (seqZ 0 32) |});
    [reflexivity | reflexivity | discriminate].
Defined.


Lemma transport_token_reaches_every_relay_witness :
  Forall (fun e => is_Some (Extractor.token e)) [Samples.candidate (Some [7; 7])]
  /\ exists found,
       Extractor.transport_walk Samples.transport_stanza
         {| Extractor.transport_relays := []; Extractor.globalToken := None |} = Ok found
       /\ Forall2 (fun e e' => Extractor.ip e' = Extractor.ip e
                               /\ Extractor.port e' = Extractor.port e
                               /\ Extractor.token e'
                                  = Some (default [7; 7] (Extractor.token e)))
            (Extractor.transport_relays found) [Samples.candidate (Some [7; 7])].
Proof.
  apply (transport_token_reaches_every_relay Samples.transport_stanza
           {| Extractor.transport_relays := [Samples.candidate (Some [7; 7])];
              Extractor.globalToken := Some [7; 7] |} [7; 7]);
    reflexivity.
Defined.

(** ** Signaling: failures and cleanup *)

Section SignalingEdges.

Import Buffer Signaling.

Ltac tally :=
  repeat first
    [ rewrite sent_app | rewrite receipts_app | rewrite rejected_app | rewrite sent_cons
    | rewrite receipts_cons | rewrite rejected_cons
    | rewrite call_stanza_ringing | rewrite call_stanza_preaccept
    | rewrite call_stanza_accept | rewrite call_stanza_ready
    | rewrite call_stanza_receipt ];
  cbn; rewrite ?bool_decide_eq_true_2 by done; cbn;
  repeat case_decide; cbn; try done; try lia.

Ltac advance := erewrite mbind_ok by reflexivity; cbn beta zeta iota.

(** X15. The receipt for an offer never raises: it is sent, or the failure
    is swallowed. It acknowledges the stanza id stored with the
    decrypted offer when there is one, and touches no registry. *)
Theorem sendCallReceipt_never_raises (w : World) (from callId : string) :
  exists w' t,
    sendCallReceipt from callId w = (Ok tt, w')
    /\ trace w' = trace w ++ t
    /\ (t = [] \/ exists stanzaId, t = [Stanza (receiptNode from stanzaId)]
                   /\ forall so sid, decryptedOffers w !! callId = Some so ->
                        _stanzaId so = Some sid -> sid <> "" -> stanzaId = sid)
    /\ activeCalls w' = activeCalls w /\ callState w' = callState w
    /\ decryptedOffers w' = decryptedOffers w /\ activeBridges w' = activeBridges w.
Proof.
  unfold sendCallReceipt, mbind, get. cbn beta.
  destruct (sock w) eqn:Hsock; cbn [negb].
  2: { exists w, []. unfold ret. rewrite app_nil_r. repeat split; by left. }
  unfold try_catch, mbind, get, generateMessageTag, socket_op, ret, log, modify. cbn beta.
  destruct (nonempty (decryptedOffers w !! callId ≫= _stanzaId)) as [sid |] eqn:Esid;
    cbn beta iota; cbn [env ops set_epoch with_client];
    destruct (net (env w) (ops w)); cbn beta iota.
  - eexists _, [_]. split; [reflexivity |]. split; [reflexivity |].
    split; [| by repeat split]. right. eexists. split; [reflexivity |].
    intros so sid' Hso Hsid' Hne. rewrite Hso in Esid. cbn in Esid. rewrite Hsid' in Esid.
    cbn in Esid. rewrite decide_False in Esid by done. by injection Esid.
  - eexists _, []. split; [reflexivity |]. cbn. rewrite app_nil_r.
    repeat split; by left.
  - eexists _, [_]. split; [reflexivity |]. split; [reflexivity |].
    split; [| by repeat split]. right. eexists. split; [reflexivity |].
    intros so sid' Hso Hsid' Hne. rewrite Hso in Esid. cbn in Esid. rewrite Hsid' in Esid.
    cbn in Esid. by rewrite decide_False in Esid by done.
  - eexists _, []. split; [reflexivity |]. cbn. rewrite app_nil_r.
    repeat split; by left.
Qed.

(** X16. Ending a bridge twice is ending it once: the bridge is gone after
    the first call, the second changes nothing and announces nothing,
    and no other bridge is touched. *)
Theorem endBridge_is_idempotent (w : World) (callId : string) :
  exists w1,
    endBridge callId w = (Ok tt, w1)
    /\ activeBridges w1 !! callId = None
    /\ (forall other, other <> callId ->
          activeBridges w1 !! other = activeBridges w !! other)
    /\ trace w1 = trace w ++ match activeBridges w !! callId with
                              | Some _ => [Emit "CallBridge" "bridge:ended" callId]
                              | None => []
                              end
    /\ endBridge callId w1 = (Ok tt, w1).
Proof.
  unfold endBridge, mbind, get, modify, log, modify, ret. cbn beta.
  destruct (activeBridges w !! callId) as [b |] eqn:Hb; cbn beta iota.
  - eexists. split; [reflexivity |]. cbn.
    split; [apply lookup_delete_eq |]. split; [intros; by apply lookup_delete_ne |].
    split; [done |]. by rewrite lookup_delete_eq.
  - exists w. split; [done |]. split; [done |]. split; [done |].
    rewrite app_nil_r. split; [done |]. by rewrite Hb.
Qed.

(** Sending to a list of relays stops at the first one whose port is
    unusable. *)
Lemma binding_requests_stop_at_a_bad_port (w : World) (r : Stun.Relay)
    (rest : list Stun.Relay) :
  ~ 0 < Stun.rport r < 65536 ->
  exists e w',
    for_each (fun r => sendBindingRequest (Stun.start {| Stun.socket := false |}) r
                         (Stun.username r) (Stun.token r) false) (r :: rest) w
    = (Error e, w')
    /\ trace w' = trace w /\ activeBridges w' = activeBridges w
    /\ activeCalls w' = activeCalls w.
Proof.
  intros Hport. cbn [for_each]. unfold sendBindingRequest at 1. cbn [Stun.start Stun.socket negb].
  unfold mbind at 1. unfold mbind at 1. unfold randomBytes at 1. cbn beta iota.
  unfold mbind at 1. unfold randomBytes at 1. cbn beta iota.
  unfold mbind at 1. unfold get at 1. cbn beta iota.
  match goal with
  | |- context [Stun.sendBindingRequest ?h ?c ?x ?u ?t ?uc ?tid ?rnd] =>
      destruct (sendBindingRequest_bad_port h c x u t uc tid rnd eq_refl Hport) as [e ->]
  end.
  unfold throw. eexists _, _. split; [reflexivity |]. by cbn.
Qed.

(** X17. An offer whose first relay candidate has no usable port is never
    bridged: the first Binding Request raises, the bridge that was
    registered is removed again, and neither the accept flow nor the
    SIP call is started. *)
Theorem bridge_is_torn_down_by_a_bad_relay (w : World) (ev : CallEvent)
    (keys : Extractor.ExtractedKeys) (r : Extractor.RelayEndpoint)
    (rest : list Extractor.RelayEndpoint) :
  Extractor.extractSrtpKeys (offer_body (offer ev)) = Some keys ->
  Extractor.relayEndpoints keys = r :: rest ->
  ~ 0 < Extractor.port r < 65536 ->
  exists w',
    bridgeCall ev w = (Ok tt, w')
    /\ trace w' = trace w ++ [Emit "CallBridge" "bridge:ended" (callId ev)]
    /\ activeBridges w' !! callId ev = None
    /\ activeCalls w' = activeCalls w.
Proof.
  intros Hkeys Hrelays Hport. unfold bridgeCall. rewrite Hkeys, Hrelays. cbn [map].
  do 4 advance.
  match goal with |- context [try_catch _ _ ?w0] => set (wb := w0) end.
  unfold try_catch, mbind, set_bridge, modify. cbn beta iota.
  match goal with
  | |- context [for_each ?f (?x :: ?xs) ?w0] =>
      destruct (binding_requests_stop_at_a_bad_port w0 x xs Hport)
        as (e & wc & Hsend & Htrace & Hbridges & Hcalls)
  end.
  rewrite Hsend. cbn beta iota.
  unfold endBridge, mbind, get. cbn beta. rewrite Hbridges.
  cbn [activeBridges set_activeBridges].
  rewrite !lookup_alter_eq. subst wb. cbn [activeBridges set_activeBridges with_outside].
  rewrite lookup_insert_eq. cbn [fmap option_fmap option_map].
  unfold modify, log, modify. cbn beta iota.
  eexists. split; [reflexivity |]. cbn.
  rewrite Htrace, Hcalls. cbn.
  split; [done |]. split; [apply lookup_delete_eq | done].
Qed.

(** X18. A timeout from the platform clears the call everywhere: the
    stored offer, the session state, the active call and the bridge. *)
Theorem timeout_clears_every_registry (w : World) (call : WACall) :
  status call = "timeout" ->
  exists w' t,
    onCall call w = (Ok tt, w')
    /\ trace w' = trace w ++ t
    /\ decryptedOffers w' !! id call = None
    /\ callState w' !! id call = None
    /\ activeCalls w' !! id call = None
    /\ activeBridges w' !! id call = None
    /\ Emit "CallHandler" "call:ended" (id call) ∈ t.
Proof.
  intros Hstatus. unfold onCall. rewrite Hstatus.
  rewrite decide_False by done. rewrite decide_False by done.
  rewrite decide_True by (by left).
  unfold onCallStatus. rewrite decide_True by done.
  unfold emit_call_ended, endBridge, mbind, get, modify, log, modify, ret. cbn beta iota.
  cbn [activeBridges set_activeCalls with_outside with_client].
  destruct (activeBridges w !! id call) as [b |] eqn:Hb; cbn beta iota.
  - eexists _, [_; _; _]. split; [reflexivity |]. cbn.
    split; [by rewrite <- !app_assoc |]. rewrite !lookup_delete_eq.
    repeat split. set_solver.
  - eexists _, [_; _]. split; [reflexivity |]. cbn.
    split; [by rewrite <- !app_assoc |]. rewrite !lookup_delete_eq.
    repeat split; [done |]. set_solver.
Qed.

(** X19. A reject or an accept reported by the platform clears the stored
    offer and the session state, and a reject the active call as
    well, but neither touches the bridge registry: a bridge that was
    set up for the call stays registered. *)
Theorem remote_reject_keeps_the_bridge (w : World) (call : WACall) :
  status call = "reject" \/ status call = "accept" ->
  exists w',
    onCall call w = (Ok tt, w')
    /\ decryptedOffers w' !! id call = None
    /\ callState w' !! id call = None
    /\ (status call = "reject" -> activeCalls w' !! id call = None)
    /\ (status call = "accept" -> activeCalls w' = activeCalls w)
    /\ activeBridges w' = activeBridges w.
Proof.
  intros Hstatus. unfold onCall.
  assert (Hoffer : status call <> "offer") by (destruct Hstatus as [-> | ->]; done).
  assert (Hringing : status call <> "ringing") by (destruct Hstatus as [-> | ->]; done).
  rewrite decide_False by done. rewrite decide_False by done.
  rewrite decide_True by tauto.
  unfold onCallStatus, mbind, modify, log, modify, ret. cbn beta iota.
  destruct Hstatus as [Hs | Hs]; rewrite Hs.
  - rewrite decide_False by done. rewrite decide_True by done. cbn beta iota.
    eexists. split; [reflexivity |]. cbn. rewrite !lookup_delete_eq. by repeat split.
  - rewrite decide_False by done. rewrite decide_False by done. cbn beta iota.
    eexists. split; [reflexivity |]. cbn. rewrite !lookup_delete_eq. by repeat split.
Qed.

Lemma acceptCall_lost_ready (w : World) (callId from : string)
    (creator : option string) (st : CallState) :
  sock w = true ->
  callState w !! callId = Some st -> accepted st = false ->
  net (env w) (ops w) = true -> net (env w) (S (ops w)) = true ->
  net (env w) (S (S (ops w))) = false ->
  exists w',
    WhatsAppClient_acceptCall callId from creator w = (Ok tt, w')
    /\ sock w' = true
    /\ callState w' = <[callId := mark st]> (callState w)
    /\ trace w' = trace w ++
         [ Stanza (preacceptNode (messageTag (env w) (epoch w)) callId from);
           Emit "WhatsAppClient" "call:preaccept-sent" callId;
           Sleep 1500;
           Stanza (acceptNode (messageTag (env w) (S (epoch w)))
                     (jidNormalizedUser (env w) from) callId);
           Emit "WhatsAppClient" "call:accepted" callId ].
Proof.
  intros Hsock Hstate Hfresh Hn0 Hn1 Hn2.
  unfold WhatsAppClient_acceptCall, mbind, get. cbn beta. rewrite Hsock. cbn [negb].
  rewrite Hstate, Hfresh.
  unfold sendPreaccept, sendReady, sendNode, try_catch, mbind, get, generateMessageTag,
    socket_op, log, modify, ret.
  repeat first [progress cbn | rewrite Hsock | rewrite Hn0 | rewrite Hn1 | rewrite Hn2].
  eexists. split; [reflexivity |]. cbn. split; [done |]. split; [done |].
  by rewrite <- !app_assoc.
Qed.

(** X20. A READY that cannot be sent does not stop the accept flow: the
    failure is swallowed, the session is marked accepted all the same,
    and a later invocation will not send READY either. *)
Theorem lost_ready_still_marks_accepted (w : World) (callId from : string)
    (creator : option string) (st : CallState) :
  sock w = true ->
  callState w !! callId = Some st -> accepted st = false ->
  net (env w) (ops w) = true -> net (env w) (S (ops w)) = true ->
  net (env w) (S (S (ops w))) = false ->
  exists w' t,
    WhatsAppClient_acceptCall callId from creator w = (Ok tt, w')
    /\ trace w' = trace w ++ t
    /\ sent "accept" callId t = 1%nat
    /\ sent "ready" callId t = 0%nat
    /\ callState w' !! callId = Some (mark st)
    /\ WhatsAppClient_acceptCall callId from creator w' = (Ok tt, w').
Proof.
  intros Hsock Hstate Hfresh Hn0 Hn1 Hn2.
  destruct (acceptCall_lost_ready w callId from creator st)
    as (w' & Hrun & Hsock' & Hcs & Htrace); [done.. |].
  assert (Hmarked : callState w' !! callId = Some (mark st)).
  { rewrite Hcs. apply lookup_insert_eq. }
  eexists w', _. split; [exact Hrun |]. split; [exact Htrace |].
  split; [by tally |]. split; [by tally |]. split; [exact Hmarked |].
  by apply (acceptCall_again w' callId from creator (mark st)).
Qed.

Lemma acceptCall_unregistered (w : World) (callId from : string) (creator : option string) :
  healthy w -> callState w !! callId = None ->
  exists w',
    WhatsAppClient_acceptCall callId from creator w = (Ok tt, w')
    /\ healthy w'
    /\ callState w' = callState w
    /\ trace w' = trace w ++
         [ Stanza (preacceptNode (messageTag (env w) (epoch w)) callId from);
           Emit "WhatsAppClient" "call:preaccept-sent" callId;
           Sleep 1500;
           Stanza (acceptNode (messageTag (env w) (S (epoch w)))
                     (jidNormalizedUser (env w) from) callId);
           Stanza (readyNode (messageTag (env w) (S (S (epoch w)))) callId from);
           Emit "WhatsAppClient" "call:accepted" callId ].
Proof.
  intros [Hsock Hnet] Hstate.
  unfold WhatsAppClient_acceptCall, mbind, get. cbn beta. rewrite Hsock. cbn [negb].
  rewrite Hstate.
  unfold sendPreaccept, sendReady, sendNode, try_catch, mbind, get, generateMessageTag,
    socket_op, log, modify, ret.
  repeat first [progress cbn | rewrite Hsock | rewrite Hnet].
  eexists. split; [reflexivity |]. split; [split; [exact Hsock | exact Hnet] |].
  split; [done |]. cbn. by rewrite <- !app_assoc.
Qed.

(** X21. The accept flow is idempotent only for a registered session: for
    a call id the client holds no session state for, every invocation
    sends PREACCEPT, ACCEPT and READY again. *)
Theorem accept_flow_repeats_without_a_session (w : World) (callId from : string)
    (creator : option string) :
  healthy w -> callState w !! callId = None ->
  exists w1 w2 t,
    WhatsAppClient_acceptCall callId from creator w = (Ok tt, w1)
    /\ WhatsAppClient_acceptCall callId from creator w1 = (Ok tt, w2)
    /\ trace w2 = trace w ++ t
    /\ sent "preaccept" callId t = 2%nat
    /\ sent "accept" callId t = 2%nat
    /\ sent "ready" callId t = 2%nat.
Proof.
  intros Hw Hstate.
  destruct (acceptCall_unregistered w callId from creator Hw Hstate)
    as (w1 & Hrun1 & Hw1 & Hcs1 & Htrace1).
  destruct (acceptCall_unregistered w1 callId from creator Hw1) as (w2 & Hrun2 & _ & _ & Htrace2);
    [by rewrite Hcs1 |].
  eexists w1, w2, _. split; [exact Hrun1 |]. split; [exact Hrun2 |].
  split; [rewrite Htrace2, Htrace1; by rewrite <- app_assoc |].
  repeat split; by tally.
Qed.

End SignalingEdges.

Lemma bridge_is_torn_down_by_a_bad_relay_witness :
  exists w',
    Signaling.bridgeCall Samples.portless_call Samples.idle_world = (Ok tt, w')
    /\ Signaling.trace w' = [] ++ [Signaling.Emit "CallBridge" "bridge:ended" "CALL1"]
    /\ Signaling.activeBridges w' !! "CALL1" = None
    /\ Signaling.activeCalls w' = ∅.
Proof.
  apply (bridge_is_torn_down_by_a_bad_relay Samples.idle_world Samples.portless_call
           (Samples.found_keys
              [{| Extractor.ip := "157.240.0.1"; Extractor.port := 0;
                  Extractor.token := Some [1; 2; 3; 4] |}])
           {| Extractor.ip := "157.240.0.1"; Extractor.port := 0;
              Extractor.token := Some [1; 2; 3; 4] |} []);
    [reflexivity | reflexivity | cbn; lia].
Defined.

Lemma timeout_clears_every_registry_witness :
  exists w' t,
    Signaling.onCall (Samples.call_status "timeout") Samples.offered_world = (Ok tt, w')
    /\ Signaling.trace w' = [] ++ t
    /\ Signaling.decryptedOffers w' !! "CALL1" = None
    /\ Signaling.callState w' !! "CALL1" = None
    /\ Signaling.activeCalls w' !! "CALL1" = None
    /\ Signaling.activeBridges w' !! "CALL1" = None
    /\ Signaling.Emit "CallHandler" "call:ended" "CALL1" ∈ t.
Proof.
  apply (timeout_clears_every_registry Samples.offered_world (Samples.call_status "timeout")).
  reflexivity.
Defined.

Lemma remote_reject_keeps_the_bridge_witness :
  exists w',
    Signaling.onCall (Samples.call_status "reject") Samples.offered_world = (Ok tt, w')
    /\ Signaling.decryptedOffers w' !! "CALL1" = None
    /\ Signaling.callState w' !! "CALL1" = None
    /\ ("reject" = "reject" -> Signaling.activeCalls w' !! "CALL1" = None)
    /\ ("reject" = "accept" -> Signaling.activeCalls w' = ∅)
    /\ Signaling.activeBridges w' = ∅.
Proof.
  apply (remote_reject_keeps_the_bridge Samples.offered_world (Samples.call_status "reject")).
  left. reflexivity.
Defined.

Lemma lost_ready_still_marks_accepted_witness :
  exists w' t,
    Signaling.WhatsAppClient_acceptCall "CALL1" Samples.caller None Samples.lossy_world
    = (Ok tt, w')
    /\ Signaling.trace w' = [] ++ t
    /\ Signaling.sent "accept" "CALL1" t = 1%nat
    /\ Signaling.sent "ready" "CALL1" t = 0%nat
    /\ Signaling.callState w' !! "CALL1" = Some (Signaling.mark Signaling.fresh)
    /\ Signaling.WhatsAppClient_acceptCall "CALL1" Samples.caller None w' = (Ok tt, w').
Proof.
  apply (lost_ready_still_marks_accepted Samples.lossy_world "CALL1" Samples.caller None
           Signaling.fresh);
    reflexivity.
Defined.

Lemma accept_flow_repeats_without_a_session_witness :
  exists w1 w2 t,
    Signaling.WhatsAppClient_acceptCall "CALL1" Samples.caller None Samples.idle_world
    = (Ok tt, w1)
    /\ Signaling.WhatsAppClient_acceptCall "CALL1" Samples.caller None w1 = (Ok tt, w2)
    /\ Signaling.trace w2 = [] ++ t
    /\ Signaling.sent "preaccept" "CALL1" t = 2%nat
    /\ Signaling.sent "accept" "CALL1" t = 2%nat
    /\ Signaling.sent "ready" "CALL1" t = 2%nat.
Proof.
  apply (accept_flow_repeats_without_a_session Samples.idle_world "CALL1" Samples.caller None);
    [split; [reflexivity | intros n; reflexivity] | reflexivity].
Defined.

(** ** The plain RTP relay *)

Section VoiceProperties.

Import Buffer Voice.

Lemma version_two (first : Z) : Z.shiftr first 6 = 2 <-> 128 <= first < 192.
Proof.
  rewrite Z.shiftr_div_pow2 by lia. change (2 ^ 6) with 64.
  pose proof (Z.div_mod first 64). pose proof (Z.mod_pos_bound first 64). lia.
Qed.

Lemma land_ffff (x : Z) : 0 <= x -> Z.land x 0xffff = x mod 65536.
Proof. intros Hx. change 0xffff with (Z.ones 16). by rewrite Z.land_ones by lia. Qed.

Lemma land_ffff_range (x : Z) : 0 <= Z.land x 0xffff <= 65535.
Proof.
  change 0xffff with (Z.ones 16). rewrite Z.land_ones by lia.
  change (2 ^ 16) with 65536. change (Z.ones 16) with 65535.
  pose proof (Z.mod_pos_bound x 65536). lia.
Qed.

Lemma copy_fills (pre src : buffer) :
  copy src (pre ++ alloc (length src)) (length pre) = pre ++ src.
Proof.
  pose proof (copy_tail pre src 0) as H. rewrite Nat.add_0_r in H. rewrite H.
  unfold alloc. cbn. by rewrite app_nil_r.
Qed.

Lemma rewriteRtp_cases (v : VoiceBridge) (packet : buffer) :
  (rewritable packet ->
     rewriteRtp v packet
     = Ok (advance v,
           Some ([0x80; 111] ++ be16 (Z.land (seq v + 1) 0xffff)
                   ++ be32 (Stun.u32 (timestamp v + 960))
                   ++ be32 (Stun.u32 (ssrcOut v))
                   ++ drop 12 packet)))
  /\ (~ rewritable packet -> rewriteRtp v packet = Ok (v, None)).
Proof.
  unfold rewriteRtp, rewritable. split.
  - intros [Hlen Hfirst]. rewrite decide_False by lia.
    rewrite decide_False by (intros Hv; apply Hv, version_two, Hfirst).
    rewrite decide_False by lia.
    set (body := drop 12 packet).
    assert (Hbody : (12 + length body)%nat = length packet).
    { subst body. rewrite length_drop. lia. }
    pose proof (land_ffff_range (seq v + 1)) as Hseq.
    assert (Hts : 0 <= Stun.u32 (timestamp v + 960) <= 4294967295).
    { unfold Stun.u32. pose proof (Z.mod_pos_bound (timestamp v + 960) 4294967296). lia. }
    assert (Hssrc : 0 <= Stun.u32 (ssrcOut v) <= 4294967295).
    { unfold Stun.u32. pose proof (Z.mod_pos_bound (ssrcOut v) 4294967296). lia. }
    cbn [advance seq timestamp ssrcOut]. unfold frameSamples, payloadType.
    change (alloc (12 + length body))
      with ([0; 0; 0; 0; 0; 0; 0; 0; 0; 0; 0; 0] ++ alloc (length body)).
    cbn [app insert list_insert].
    rewrite writeUInt16BE_ok by (cbn [length]; lia). cbn [bind].
    unfold write_at. cbn [firstn skipn app be16 length Nat.add].
    rewrite writeUInt32BE_ok by (cbn [length]; lia). cbn [bind].
    unfold write_at. cbn [firstn skipn app be32 length Nat.add].
    rewrite writeUInt32BE_ok by (cbn [length]; lia). cbn [bind].
    unfold write_at. cbn [firstn skipn app be32 length Nat.add].
    f_equal. f_equal. f_equal.
    apply (copy_fills [128; 111; Z.land (seq v + 1) 65535 / 256;
                       Z.land (seq v + 1) 65535 mod 256;
                       Stun.u32 (timestamp v + 960) / 16777216;
                       (Stun.u32 (timestamp v + 960) / 65536) mod 256;
                       (Stun.u32 (timestamp v + 960) / 256) mod 256;
                       Stun.u32 (timestamp v + 960) mod 256;
                       Stun.u32 (ssrcOut v) / 16777216;
                       (Stun.u32 (ssrcOut v) / 65536) mod 256;
                       (Stun.u32 (ssrcOut v) / 256) mod 256;
                       Stun.u32 (ssrcOut v) mod 256] body).
  - intros Hno. destruct (decide (length packet < 12)%nat) as [| Hlen]; [done |].
    destruct (decide (Z.shiftr (default 0 (packet !! 0%nat)) 6 <> 2)) as [| Hv]; [done |].
    exfalso. apply Hno. split; [lia |]. apply version_two.
    destruct (decide (Z.shiftr (default 0 (packet !! 0%nat)) 6 = 2)); [done | tauto].
Qed.

Lemma rewriteRtp_rewritable (v : VoiceBridge) (packet : buffer) :
  rewritable packet ->
  exists out, rewriteRtp v packet = Ok (advance v, Some out)
              /\ length out = length packet
              /\ sequence_of out = Ok (Z.land (seq v + 1) 0xffff)
              /\ drop 12 out = drop 12 packet.
Proof.
  intros Hp. destruct (rewriteRtp_cases v packet) as [Hyes _]. rewrite (Hyes Hp).
  eexists. split; [done |]. destruct Hp as [Hlen _].
  pose proof (land_ffff_range (seq v + 1)) as Hseq.
  split; [| split].
  - cbn [app length be16 be32]. rewrite length_drop. lia.
  - unfold sequence_of, readUInt16BE. cbn [app be16 lookup list_lookup]. f_equal.
    pose proof (Z.div_mod (Z.land (seq v + 1) 0xffff) 256). lia.
  - reflexivity.
Qed.

(** X22. A rewritable packet comes out with the same length and the same
    payload under a fresh 12-byte header: 0x80, payload type 111
    with the marker bit cleared, the next sequence number, the time
    stamp advanced by 960 and the bridge's own SSRC. Any other packet
    is refused, and refusing leaves the counters alone; the check for
    a first byte of 0 or 1 never decides anything. *)
Theorem rewriteRtp_result (v : VoiceBridge) (packet : buffer) :
  (rewritable packet ->
     rewriteRtp v packet
     = Ok (advance v,
           Some ([0x80; 111] ++ be16 (Z.land (seq v + 1) 0xffff)
                   ++ be32 (Stun.u32 (timestamp v + 960))
                   ++ be32 (Stun.u32 (ssrcOut v))
                   ++ drop 12 packet)))
  /\ (~ rewritable packet -> rewriteRtp v packet = Ok (v, None)).
Proof. apply rewriteRtp_cases. Qed.

(** X23. Sequence numbers count modulo 65536: from counter [s], the [k]-th
    rewritten packet carries [(s + 1 + k) mod 65536], every packet is
    rewritten, and no two of 65536 consecutive packets carry the same
    number. *)
Theorem voice_sequence_wraps_modulo_65536 (packets : list buffer) : forall v : VoiceBridge,
  0 <= seq v < 65536 ->
  Forall rewritable packets ->
  exists v' outs,
    rewrite_all v packets = Ok (v', outs)
    /\ length outs = length packets
    /\ (forall k out, outs !! k = Some out ->
          sequence_of out = Ok ((seq v + 1 + Z.of_nat k) mod 65536))
    /\ (forall i j out out', outs !! i = Some out -> outs !! j = Some out' ->
          (i < j < i + Z.to_nat 65536)%nat -> sequence_of out <> sequence_of out').
Proof.
  assert (Hformula : forall packets v, 0 <= seq v < 65536 -> Forall rewritable packets ->
            exists v' outs,
              rewrite_all v packets = Ok (v', outs)
              /\ length outs = length packets
              /\ (forall k out, outs !! k = Some out ->
                    sequence_of out = Ok ((seq v + 1 + Z.of_nat k) mod 65536))).
  { clear. induction packets as [| p ps IH]; intros v Hseq Hall.
    - exists v, []. split; [done |]. split; [done |]. intros k out Hk. by destruct k.
    - apply Forall_cons in Hall as [Hp Hps].
      destruct (rewriteRtp_rewritable v p Hp) as (out & Hrun & _ & Hout & _).
      pose proof (land_ffff_range (seq v + 1)) as Hrange.
      destruct (IH (advance v)) as (v' & outs & Hrest & Hlen & Hnth);
        [cbn; lia | done |].
      exists v', (out :: outs). cbn [rewrite_all]. rewrite Hrun. cbn [bind fst snd].
      rewrite Hrest. cbn [bind fst snd]. split; [done |]. split; [cbn; lia |].
      intros [| k] o Hk.
      + injection Hk as <-. rewrite Hout, land_ffff by lia. f_equal. f_equal. lia.
      + cbn in Hk. rewrite (Hnth k o Hk). cbn [advance seq]. rewrite land_ffff by lia.
        f_equal.
        replace ((seq v + 1) mod 65536 + 1 + Z.of_nat k)
          with ((seq v + 1) mod 65536 + (1 + Z.of_nat k)) by lia.
        rewrite Z.add_mod_idemp_l by lia. f_equal. lia. }
  intros v Hseq Hall. destruct (Hformula packets v Hseq Hall) as (v' & outs & Hrun & Hlen & Hnth).
  exists v', outs. split; [done |]. split; [done |]. split; [done |].
  intros i j out out' Hi Hj Hij. rewrite (Hnth i out Hi), (Hnth j out' Hj).
  intros [= Heq].
  pose proof (Z.div_mod (seq v + 1 + Z.of_nat i) 65536).
  pose proof (Z.div_mod (seq v + 1 + Z.of_nat j) 65536).
  lia.
Qed.

(** X24. A running relay forwards by source: what the Asterisk target
    sends goes to the WhatsApp target byte for byte and moves no
    counter; what the WhatsApp target sends goes to the Asterisk
    target rewritten; what anybody else sends is dropped. *)
Theorem voice_bridge_routes_by_source (v : VoiceBridge) (msg : buffer)
    (rinfo : Stun.RemoteInfo) (aip wip : string) (aport wport : Z) :
  isRunning v = true ->
  target (asteriskIp v) (asteriskPort v) = Some (aip, aport) ->
  target (waIp v) (waPort v) = Some (wip, wport) ->
  0 < aport < 65536 -> 0 < wport < 65536 ->
  let from_asterisk := Stun.address rinfo = aip /\ Stun.port rinfo = aport in
  let from_whatsapp := Stun.address rinfo = wip /\ Stun.port rinfo = wport in
  (from_asterisk -> onMessage v msg rinfo = (v, Ok [Stun.Send msg wport wip]))
  /\ (~ from_asterisk -> from_whatsapp -> rewritable msg ->
      exists rtp, rewriteRtp v msg = Ok (advance v, Some rtp)
                  /\ onMessage v msg rinfo = (advance v, Ok [Stun.Send rtp aport aip]))
  /\ (~ from_asterisk -> from_whatsapp -> ~ rewritable msg ->
      onMessage v msg rinfo = (v, Ok []))
  /\ (~ from_asterisk -> ~ from_whatsapp -> onMessage v msg rinfo = (v, Ok [])).
Proof.
  intros Hrun Ha Hw Hap Hwp from_asterisk from_whatsapp. unfold onMessage.
  rewrite Hrun, Ha, Hw. cbn [negb comes_from]. unfold Stun.socket_send.
  split; [| split; [| split]].
  - intros Hfrom. rewrite bool_decide_eq_true_2 by done. by rewrite decide_True.
  - intros Hnot Hfrom Hmsg. rewrite bool_decide_eq_false_2 by done.
    rewrite bool_decide_eq_true_2 by done.
    destruct (rewriteRtp_rewritable v msg Hmsg) as (rtp & Hrtp & _).
    exists rtp. rewrite Hrtp. by rewrite decide_True.
  - intros Hnot Hfrom Hmsg. rewrite bool_decide_eq_false_2 by done.
    rewrite bool_decide_eq_true_2 by done.
    destruct (rewriteRtp_cases v msg) as [_ Hno]. by rewrite (Hno Hmsg).
  - intros Hnot Hnot'. rewrite !bool_decide_eq_false_2 by done. done.
Qed.

End VoiceProperties.

Lemma voice_sequence_wraps_modulo_65536_witness :
  exists v' outs,
    Voice.rewrite_all Samples.running_relay
      [Samples.rtp_packet; Samples.rtp_packet; Samples.rtp_packet] = Ok (v', outs)
    /\ length outs = 3%nat
    /\ (forall k out, outs !! k = Some out ->
          Voice.sequence_of out = Ok ((65534 + 1 + Z.of_nat k) mod 65536))
    /\ (forall i j out out', outs !! i = Some out -> outs !! j = Some out' ->
          (i < j < i + Z.to_nat 65536)%nat ->
          Voice.sequence_of out <> Voice.sequence_of out').
Proof.
  apply (voice_sequence_wraps_modulo_65536
           [Samples.rtp_packet; Samples.rtp_packet; Samples.rtp_packet]
           Samples.running_relay);
    [cbn; lia | repeat constructor; cbn; lia].
Defined.

Lemma voice_bridge_routes_by_source_witness :
  Voice.onMessage Samples.running_relay Samples.rtp_packet Samples.asterisk_rinfo
  = (Samples.running_relay, Ok [Stun.Send Samples.rtp_packet 3478 "157.240.0.1"]).
Proof.
  apply (voice_bridge_routes_by_source Samples.running_relay Samples.rtp_packet
           Samples.asterisk_rinfo "10.0.0.2" "157.240.0.1" 4000 3478);
    [reflexivity | reflexivity | reflexivity | lia | lia | split; reflexivity].
Defined.

(** ** Transport messages *)

Section TransportProperties.

Import Buffer Signaling Transport.

(** [config.network.publicIp] *)
Variable pub : string.

Lemma same_sessions_refl (w : World) : same_sessions w w.
Proof. by intros c. Qed.

Lemma same_sessions_trans (w1 w2 w3 : World) :
  same_sessions w1 w2 -> same_sessions w2 w3 -> same_sessions w1 w3.
Proof. intros H1 H2 c. by rewrite H2, H1. Qed.

Lemma same_sessions_eq (w w' : World) : callState w' = callState w -> same_sessions w w'.
Proof. intros H c. by rewrite H. Qed.

Lemma keeps_at_bind {A B : Type} (m : M A) (k : A -> M B) (w : World) :
  same_sessions w (snd (m w)) -> (forall a, keeps_sessions (k a)) ->
  same_sessions w (snd (mbind m k w)).
Proof.
  unfold mbind. destruct (m w) as [[a | e] w1]; cbn; intros H1 H2; [| exact H1].
  eapply same_sessions_trans; [exact H1 | apply H2].
Qed.

Lemma keeps_bind {A B : Type} (m : M A) (k : A -> M B) :
  keeps_sessions m -> (forall a, keeps_sessions (k a)) -> keeps_sessions (mbind m k).
Proof. intros H1 H2 w. by apply keeps_at_bind. Qed.

Lemma keeps_ret {A : Type} (a : A) : keeps_sessions (ret a).
Proof. intros w. apply same_sessions_refl. Qed.

Lemma keeps_get {A : Type} (f : World -> A) : keeps_sessions (get f).
Proof. intros w. apply same_sessions_refl. Qed.

Lemma keeps_socket_op (e : effect) : keeps_sessions (socket_op e).
Proof.
  intros w. apply same_sessions_eq. unfold socket_op, log, modify.
  by destruct (net (env w) (ops w)).
Qed.

Lemma keeps_generateMessageTag : keeps_sessions generateMessageTag.
Proof. intros w. by apply same_sessions_eq. Qed.

Lemma keeps_sendNode (n : node) : keeps_sessions (sendNode n).
Proof.
  apply keeps_bind; [apply keeps_get |]. intros s.
  destruct (negb s); [apply keeps_ret | apply keeps_socket_op].
Qed.

Lemma keeps_sendCallAck (n : node) : keeps_sessions (sendCallAck n).
Proof.
  apply keeps_bind; [apply keeps_get |]. intros s.
  destruct (negb s); [apply keeps_ret | apply keeps_sendNode].
Qed.

Lemma keeps_sendRelaylatency (callId : string) (from : option string)
    (info : option RelayInfo) : keeps_sessions (sendRelaylatency callId from info).
Proof.
  apply keeps_bind; [apply keeps_get |]. intros s.
  destruct (negb s); [apply keeps_ret |].
  apply keeps_bind; [apply keeps_generateMessageTag |]. intros tag. apply keeps_sendNode.
Qed.

Lemma keeps_sendTransportResponse (callId : string) (from : option string)
    (a : gmap string string) : keeps_sessions (sendTransportResponse pub callId from a).
Proof.
  apply keeps_bind; [apply keeps_get |]. intros s.
  destruct (negb s); [apply keeps_ret |].
  apply keeps_bind; [apply keeps_get |]. intros ip.
  apply keeps_bind; [apply keeps_get |]. intros port.
  apply keeps_bind; [apply keeps_generateMessageTag |]. intros tag. apply keeps_socket_op.
Qed.

Lemma keeps_adopt (ep : option Extractor.RelayEndpoint) : keeps_sessions (adopt ep).
Proof. destruct ep; [| apply keeps_ret]. intros w. by apply same_sessions_eq. Qed.

Lemma keeps_for_each {A : Type} (f : A -> M unit) (xs : list A) :
  (forall x, keeps_sessions (f x)) -> keeps_sessions (for_each f xs).
Proof.
  intros Hf. induction xs as [| x xs IH]; [apply keeps_ret |].
  cbn. apply keeps_bind; [apply Hf | intros _; exact IH].
Qed.

(** Marking the entry that was just read. *)
Lemma note_keeps (w : World) (cid : string) (transport : bool) :
  same_sessions w (snd (note cid (callState w !! cid) transport w)).
Proof.
  unfold note. destruct (callState w !! cid) as [st |] eqn:Hst; [| apply same_sessions_refl].
  intros c. cbn. destruct (decide (c = cid)) as [-> |].
  - by rewrite lookup_insert_eq, Hst.
  - by rewrite lookup_insert_ne.
Qed.

Lemma handle_item_keeps (from : option string) (item : node) (callId : option string) :
  keeps_sessions (handle_item pub from item callId).
Proof.
  intros w. unfold handle_item.
  destruct (match Extractor.attr item "call-id" with Some c => Some c | None => callId end)
    as [cid |]; [| apply same_sessions_refl].
  unfold mbind at 1, get at 1. cbn beta iota.
  destruct (decide (Extractor.tag item = "transport")) as [Et | Et].
  - rewrite Et. cbn.
    apply keeps_at_bind.
    + apply keeps_at_bind; [apply note_keeps |]. intros _.
      apply keeps_bind; [apply keeps_sendTransportResponse | intros _; apply keeps_adopt].
    + intros _. apply keeps_bind; [apply keeps_ret |]. intros _.
      apply keeps_bind; [apply keeps_ret |]. intros _. apply keeps_ret.
  - cbn.
    destruct (decide (Extractor.tag item = "relaylatency")) as [El | El].
    + apply keeps_at_bind.
      * apply keeps_at_bind; [apply note_keeps |]. intros _.
        apply keeps_for_each. intros te.
        destruct (decide _); [apply keeps_sendRelaylatency | apply keeps_ret].
      * intros _. apply keeps_bind; [| intros _; apply keeps_ret].
        destruct (decide _); [apply keeps_adopt | apply keeps_ret].
    + cbn. apply keeps_at_bind; [| intros _; apply keeps_ret].
      destruct (decide _); [apply keeps_adopt | apply same_sessions_refl].
Qed.

Lemma handle_items_keeps (from : option string) (items : list node) (callId : option string) :
  keeps_sessions (handle_items pub from items callId).
Proof.
  revert callId. induction items as [| item items IH]; intros callId; [apply keeps_ret |].
  cbn. apply keeps_bind; [apply handle_item_keeps | intros c; apply IH].
Qed.

(** X25. Handling a transport stanza never opens a session, never closes
    one and never changes whether a call counts as accepted, whatever
    the stanza holds and whether or not the sends succeed. *)
Theorem transport_handling_keeps_sessions (n : node) (w : World) :
  same_sessions w (snd (handleTransportMessage pub n w)).
Proof.
  revert w. change (keeps_sessions (handleTransportMessage pub n)).
  apply keeps_bind; [apply keeps_get |]. intros s.
  destruct (negb s || _); [apply keeps_ret |].
  apply keeps_bind; [apply keeps_sendCallAck | intros _; apply handle_items_keeps].
Qed.

Lemma sendCallAck_ok (w : World) (n : node) :
  healthy w ->
  sendCallAck n w
  = (Ok tt, with_outside w (S (ops w)) (draws w) (pending w) (trace w ++ [Stanza (ackNode n)])).
Proof.
  intros [Hsock Hnet]. unfold sendCallAck, sendNode, mbind, get, socket_op, log, modify.
  repeat first [progress cbn | rewrite Hsock | rewrite Hnet]. done.
Qed.

Lemma sendTransportResponse_ok (w : World) (callId : string) (from : option string)
    (a : gmap string string) :
  healthy w ->
  exists w',
    sendTransportResponse pub callId from a w = (Ok tt, w')
    /\ trace w' = trace w ++
         [Stanza (transportNode (messageTag (env w) (epoch w)) callId from
                    (default "1" (nonempty (a !! "p2p-cand-round")))
                    (signaledIp pub w) (signaledPort w))]
    /\ frame w w' /\ publicInfo w' = publicInfo w /\ epoch w' = S (epoch w).
Proof.
  intros [Hsock Hnet].
  unfold sendTransportResponse, mbind, get, generateMessageTag, socket_op, log, modify.
  repeat first [progress cbn | rewrite Hsock | rewrite Hnet]. eexists. by repeat split.
Qed.

Lemma sendRelaylatency_ok (w : World) (callId : string) (from : option string)
    (info : option RelayInfo) :
  healthy w ->
  exists w',
    sendRelaylatency callId from info w = (Ok tt, w')
    /\ trace w' = trace w ++
         [Stanza (relaylatencyNode (messageTag (env w) (epoch w)) callId from info)]
    /\ frame w w' /\ publicInfo w' = publicInfo w /\ epoch w' = S (epoch w).
Proof.
  intros [Hsock Hnet].
  unfold sendRelaylatency, sendNode, mbind, get, generateMessageTag, socket_op, log, modify.
  repeat first [progress cbn | rewrite Hsock | rewrite Hnet]. eexists. by repeat split.
Qed.

Lemma note_ok (w : World) (cid : string) (transport : bool) :
  note cid (callState w !! cid) transport w = (Ok tt, set_callState (noted w cid transport) w).
Proof.
  unfold note, noted, modify, ret. destruct (callState w !! cid); [done |].
  by destruct w.
Qed.

Lemma handle_item_transport (w : World) (from : option string) (ta : gmap string string)
    (tc : content) (cid : string) (prev : option string) :
  healthy w ->
  ta !! "call-id" = Some cid -> cid <> "" ->
  exists w',
    handle_item pub from (Node "transport" ta tc) prev w = (Ok (Some cid), w')
    /\ trace w' = trace w ++
         [Stanza (transportNode (messageTag (env w) (epoch w)) cid from
                    (default "1" (nonempty (ta !! "p2p-cand-round")))
                    (signaledIp pub w) (signaledPort w))]
    /\ callState w' = noted w cid true
    /\ publicInfo w' = match find_rte tc ≫= Extractor.parseRelayEndpoint with
                       | Some ep => Some (Extractor.ip ep, Extractor.port ep)
                       | None => publicInfo w
                       end.
Proof.
  intros Hh Hcid Hne.
  unfold handle_item, Extractor.attr.
  cbn [Extractor.attrs Extractor.tag Extractor.node_content].
  rewrite Hcid. rewrite (decide_False (P := cid = "")) by done.
  unfold mbind at 1, get at 1. cbn beta iota.
  rewrite (decide_True (P := "transport" = "transport")) by done.
  rewrite (decide_False (P := "transport" = "relaylatency")) by done.
  rewrite (decide_False (P := "transport" = "rte")) by done.
  destruct (sendTransportResponse_ok (set_callState (noted w cid true) w) cid from ta)
    as (w2 & Hrun & Htrace & Hframe & Hpub & Hepoch); [done |].
  destruct Hframe as (_ & _ & _ & Hcs).
  unfold adopt.
  destruct (find_rte tc ≫= Extractor.parseRelayEndpoint) as [ep |].
  all: erewrite mbind_ok;
    [| erewrite mbind_ok by apply note_ok; erewrite mbind_ok by exact Hrun;
       unfold modify, ret; reflexivity].
  all: unfold mbind, ret; eexists; (split; [reflexivity |]); cbn;
    rewrite ?Htrace, ?Hcs, ?Hpub; done.
Qed.

(** X26. A transport item for a call is acknowledged and answered with
    one transport response that offers the gateway's current public
    endpoint; the session, when there is one, is marked as having
    its transport. A reflexive endpoint carried by the item is adopted
    afterwards, so it is offered from the next response on. *)
Theorem transport_item_is_answered (w : World) (a ta : gmap string string) (tc : content)
    (cid : string) :
  healthy w ->
  ta !! "call-id" = Some cid -> cid <> "" ->
  exists w',
    handleTransportMessage pub (Node "call" a (CList [Node "transport" ta tc])) w = (Ok tt, w')
    /\ trace w' = trace w ++
         [Stanza (ackNode (Node "call" a (CList [Node "transport" ta tc])));
          Stanza (transportNode (messageTag (env w) (epoch w)) cid (a !! "from")
                    (default "1" (nonempty (ta !! "p2p-cand-round")))
                    (signaledIp pub w) (signaledPort w))]
    /\ callState w' = match callState w !! cid with
                      | Some st => <[cid := {| gotTransport := true; gotRelay := gotRelay st;
                                               accepted := accepted st |}]> (callState w)
                      | None => callState w
                      end
    /\ publicInfo w' = match find_rte tc ≫= Extractor.parseRelayEndpoint with
                       | Some ep => Some (Extractor.ip ep, Extractor.port ep)
                       | None => publicInfo w
                       end.
Proof.
  intros Hh Hcid Hne. pose proof Hh as [Hsock Hnet].
  unfold handleTransportMessage. unfold mbind at 1, get at 1. cbn beta.
  rewrite Hsock. cbn [negb orb Extractor.truthy Extractor.node_content contentItems].
  erewrite mbind_ok by (by apply sendCallAck_ok).
  set (w1 := with_outside w _ _ _ _).
  destruct (handle_item_transport w1 (a !! "from") ta tc cid None)
    as (w2 & Hrun & Htrace & Hcs & Hpub); [done .. |].
  cbn [handle_items]. erewrite mbind_ok by exact Hrun.
  exists w2. split; [done |]. rewrite Htrace, Hcs, Hpub.
  unfold noted, signaledIp, signaledPort. subst w1. cbn -[insert].
  split; [by rewrite <- app_assoc |]. done.
Qed.



Lemma relay_pings_echo (cid : string) (from : option string) (tes : list node) (w : World) :
  healthy w ->
  exists w',
    for_each (fun te =>
      if decide (Extractor.tag te = "te" \/ Extractor.tag te = "te2") then
        sendRelaylatency cid from
          (Some {| relay_name := Extractor.attrs te !! "relay_name";
                   latency := Some "10";
                   token := Extractor.node_content te |})
      else ret tt) tes w = (Ok tt, w')
    /\ trace w' = trace w ++ imap (echo w cid from) (filter is_te tes)
    /\ frame w w' /\ publicInfo w' = publicInfo w.
Proof.
  revert w. induction tes as [| te tes IH]; intros w Hh.
  - exists w. cbn. rewrite app_nil_r. repeat split; done.
  - cbn [for_each]. rewrite filter_cons.
    change (decide (is_te te))
      with (decide (Extractor.tag te = "te" \/ Extractor.tag te = "te2")).
    destruct (decide (Extractor.tag te = "te" \/ Extractor.tag te = "te2")) as [Hte | Hte].
    + destruct (sendRelaylatency_ok w cid from
                  (Some {| relay_name := Extractor.attrs te !! "relay_name";
                           latency := Some "10";
                           token := Extractor.node_content te |}) Hh)
        as (w1 & Hrun & Htrace & Hframe & Hpub & Hepoch).
      destruct (IH w1) as (w2 & Hrun2 & Htrace2 & Hframe2 & Hpub2);
        [by eapply frame_healthy |].
      exists w2. erewrite mbind_ok by exact Hrun. split; [exact Hrun2 |].
      split; [| split; [by eapply frame_trans | by rewrite Hpub2]].
      rewrite Htrace2, Htrace, <- app_assoc. f_equal. cbn [imap app]. f_equal.
      * unfold echo. by rewrite Nat.add_0_r.
      * apply imap_ext. intros i x _. unfold echo, compose.
        destruct Hframe as (-> & _). by rewrite Hepoch, Nat.add_succ_r.
    + destruct (IH w Hh) as (w2 & Hrun2 & Htrace2 & Hframe2 & Hpub2).
      exists w2. erewrite mbind_ok by reflexivity. auto.
Qed.

Lemma handle_item_relaylatency (w : World) (from : option string) (ra : gmap string string)
    (tes : list node) (cid : string) (prev : option string) :
  healthy w ->
  ra !! "call-id" = Some cid -> cid <> "" ->
  exists w',
    handle_item pub from (Node "relaylatency" ra (CList tes)) prev w = (Ok (Some cid), w')
    /\ trace w' = trace w ++ imap (echo w cid from) (filter is_te tes)
    /\ callState w' = noted w cid false
    /\ publicInfo w' = publicInfo w.
Proof.
  intros Hh Hcid Hne.
  unfold handle_item, Extractor.attr.
  cbn [Extractor.attrs Extractor.tag Extractor.node_content].
  rewrite Hcid. rewrite (decide_False (P := cid = "")) by done.
  unfold mbind at 1, get at 1. cbn beta iota.
  rewrite (decide_False (P := "relaylatency" = "transport")) by done.
  rewrite (decide_True (P := "relaylatency" = "relaylatency")) by done.
  rewrite (decide_False (P := "relaylatency" = "rte")) by done.
  destruct (relay_pings_echo cid from tes (set_callState (noted w cid false) w))
    as (w2 & Hrun & Htrace & Hframe & Hpub); [done |].
  destruct Hframe as (_ & _ & _ & Hcs).
  exists w2. split.
  - erewrite mbind_ok by reflexivity. erewrite mbind_ok.
    2: { erewrite mbind_ok by apply note_ok. exact Hrun. }
    erewrite mbind_ok by reflexivity. reflexivity.
  - by rewrite Htrace, Hcs, Hpub.
Qed.

(** X27. A relay-latency item is acknowledged and every [te] or [te2]
    child is answered, in order, with one relay-latency stanza that
    echoes the child's relay name and token and claims a latency of
    10; nothing else is sent. The session, when there is one, is
    marked as having its relay; the public endpoint is unchanged. *)
Theorem relay_pings_are_echoed (w : World) (a ra : gmap string string) (tes : list node)
    (cid : string) :
  healthy w ->
  ra !! "call-id" = Some cid -> cid <> "" ->
  exists w',
    handleTransportMessage pub (Node "call" a (CList [Node "relaylatency" ra (CList tes)])) w
    = (Ok tt, w')
    /\ trace w' = trace w ++
         Stanza (ackNode (Node "call" a (CList [Node "relaylatency" ra (CList tes)])))
         :: imap (echo w cid (a !! "from")) (filter is_te tes)
    /\ callState w' = noted w cid false
    /\ publicInfo w' = publicInfo w.
Proof.
  intros Hh Hcid Hne. pose proof Hh as [Hsock Hnet].
  unfold handleTransportMessage. unfold mbind at 1, get at 1. cbn beta.
  rewrite Hsock. cbn [negb orb Extractor.truthy Extractor.node_content contentItems].
  erewrite mbind_ok by (by apply sendCallAck_ok).
  set (w1 := with_outside w _ _ _ _).
  destruct (handle_item_relaylatency w1 (a !! "from") ra tes cid None)
    as (w2 & Hrun & Htrace & Hcs & Hpub); [done .. |].
  cbn [handle_items]. erewrite mbind_ok by exact Hrun.
  exists w2. split; [done |]. rewrite Htrace, Hcs, Hpub.
  unfold noted. subst w1. cbn -[insert].
  split; [by rewrite <- app_assoc |]. done.
Qed.

(** X28. Merging a relay update keeps the announced addresses in their
    order, and an announced token always wins. Once the bridge knows
    any token (from a relay it holds, or the last one seen on any
    call) and the call has an id, every merged relay carries a token
    and a non-empty user name, which is what the listener asks of a
    relay before it probes it. *)
Theorem merged_relays_can_all_be_probed (n : node)
    (newRelays : list Extractor.RelayEndpoint) (current : list Stun.Relay)
    (g : option buffer) (call : CallEvent) :
  is_Some (fallbackToken current g) -> callId call <> "" ->
  Forall2 (fun nr r =>
             Stun.ip r = Extractor.ip nr /\ Stun.rport r = Extractor.port nr
             /\ Stun.callCreator r = Some (from call)
             /\ forall t, Extractor.token nr = Some t -> Stun.token r = Some t)
          newRelays (mergeRelays n newRelays current g call)
  /\ Forall (fun r => is_Some (Stun.token r) /\ is_Some (nonempty (Stun.username r)))
            (mergeRelays n newRelays current g call).
Proof.
  intros [t Ht] Hid. unfold mergeRelays. split.
  - apply Forall2_fmap_r, Forall_Forall2_diag, Forall_true. intros nr. cbn.
    repeat split. by intros t' ->.
  - apply Forall_fmap, Forall_true. intros nr. cbn. split.
    + rewrite Ht. unfold or_token. by repeat case_match.
    + match goal with |- context [or_else ?x ?y] => generalize (or_else x y) end.
      intros o. unfold nonempty, default.
      destruct o as [u |]; cbn; repeat (case_decide; cbn); try done; by eexists.
Qed.

End TransportProperties.

Lemma transport_item_is_answered_witness :
  exists w',
    Transport.handleTransportMessage "203.0.113.7"
      (Extractor.Node "call" Samples.stanza_attrs
         (Extractor.CList
            [Extractor.Node "transport" Samples.transport_attrs Extractor.CUndefined]))
      Samples.offered_world = (Ok tt, w')
    /\ Signaling.trace w'
       = [] ++
         [Signaling.Stanza
            (Transport.ackNode
               (Extractor.Node "call" Samples.stanza_attrs
                  (Extractor.CList
                     [Extractor.Node "transport" Samples.transport_attrs
                        Extractor.CUndefined])));
          Signaling.Stanza
            (Transport.transportNode "3EB0.4" "CALL1" (Some Samples.caller) "2"
               "203.0.113.7" "10000")]
    /\ Signaling.callState w'
       = <["CALL1" := {| Signaling.gotTransport := true; Signaling.gotRelay := false;
                         Signaling.accepted := false |}]>
           {[ "CALL1" := Signaling.fresh ]}
    /\ Signaling.publicInfo w' = None.
Proof.
  apply (transport_item_is_answered "203.0.113.7" Samples.offered_world Samples.stanza_attrs
           Samples.transport_attrs Extractor.CUndefined "CALL1");
    [split; [reflexivity | intros n; reflexivity] | reflexivity | discriminate].
Defined.

Lemma relay_pings_are_echoed_witness :
  exists w',
    Transport.handleTransportMessage "203.0.113.7"
      (Extractor.Node "call" Samples.stanza_attrs
         (Extractor.CList
            [Extractor.Node "relaylatency" Samples.transport_attrs
               (Extractor.CList Samples.relay_pings)]))
      Samples.offered_world = (Ok tt, w')
    /\ Signaling.trace w'
       = [] ++
         Signaling.Stanza
           (Transport.ackNode
              (Extractor.Node "call" Samples.stanza_attrs
                 (Extractor.CList
                    [Extractor.Node "relaylatency" Samples.transport_attrs
                       (Extractor.CList Samples.relay_pings)])))
         :: imap (Transport.echo Samples.offered_world "CALL1" (Some Samples.caller))
              (filter Transport.is_te Samples.relay_pings)
    /\ Signaling.callState w' = Transport.noted Samples.offered_world "CALL1" false
    /\ Signaling.publicInfo w' = None.
Proof.
  apply (relay_pings_are_echoed "203.0.113.7" Samples.offered_world Samples.stanza_attrs
           Samples.transport_attrs Samples.relay_pings "CALL1");
    [split; [reflexivity | intros n; reflexivity] | reflexivity | discriminate].
Defined.

Lemma merged_relays_can_all_be_probed_witness :
  Forall2 (fun nr r =>
             Stun.ip r = Extractor.ip nr /\ Stun.rport r = Extractor.port nr
             /\ Stun.callCreator r = Some Samples.caller
             /\ forall t, Extractor.token nr = Some t -> Stun.token r = Some t)
          Samples.announced_relays
          (Transport.mergeRelays Samples.transport_stanza Samples.announced_relays
             [Samples.sample_relay] None Samples.portless_call)
  /\ Forall (fun r => is_Some (Stun.token r)
                      /\ is_Some (Signaling.nonempty (Stun.username r)))
            (Transport.mergeRelays Samples.transport_stanza Samples.announced_relays
               [Samples.sample_relay] None Samples.portless_call).
Proof.
  apply (merged_relays_can_all_be_probed Samples.transport_stanza Samples.announced_relays
           [Samples.sample_relay] None Samples.portless_call);
    [exists [1; 2; 3; 4]; reflexivity | discriminate].
Defined.

(** ** Configuration *)

Section ConfigurationProperties.

Import Configuration.

(** [parseInt(value, 10)] *)
Variable parseInt : string -> option Z.

Lemma nonempty_Some (s : option string) (v : string) :
  Signaling.nonempty s = Some v -> s = Some v /\ v <> "".
Proof.
  unfold Signaling.nonempty. destruct s as [x |]; [| done].
  destruct (decide (x = "")); [done |]. by intros [= <-].
Qed.

Lemma getEnv_Ok (env : environment) (key : string) (d : option string) (v : string) :
  getEnv env key d = Ok v -> v <> "".
Proof.
  unfold getEnv.
  destruct (Signaling.nonempty (env !! key)) as [x |] eqn:Ex.
  - intros [= <-]. by apply nonempty_Some in Ex as [_ ?].
  - destruct (Signaling.nonempty d) as [x |] eqn:Ed; [| done].
    intros [= <-]. by apply nonempty_Some in Ed as [_ ?].
Qed.

Lemma getEnv_required (env : environment) (key : string) :
  getEnv env key None
  = match Signaling.nonempty (env !! key) with
    | Some v => Ok v
    | None => Error (missing key)
    end.
Proof. unfold getEnv. by destruct (Signaling.nonempty (env !! key)). Qed.

Lemma getEnv_default (env : environment) (key d : string) :
  d <> "" -> exists v, getEnv env key (Some d) = Ok v.
Proof.
  intros Hd. unfold getEnv. destruct (Signaling.nonempty (env !! key)); [by eexists |].
  cbn. rewrite decide_False by done. by eexists.
Qed.

Lemma getEnvNumber_default (env : environment) (key : string) (d : Z) :
  exists v, getEnvNumber parseInt env key (Some d) = Ok v.
Proof.
  unfold getEnvNumber. destruct (Signaling.nonempty (env !! key)); by eexists.
Qed.

Ltac defaulted :=
  match goal with
  | |- context [getEnv ?env ?key (Some ?d)] =>
      let v := fresh "v" in
      destruct (getEnv_default env key d) as [v ->]; [done |]; cbn [bind]
  | |- context [getEnvNumber parseInt ?env ?key (Some ?d)] =>
      let v := fresh "v" in
      destruct (getEnvNumber_default env key d) as [v ->]; cbn [bind]
  end.

(** X29. The configuration loads exactly when the three variables without
    a default (host, user and password of the Asterisk account) are
    set to something non-empty; no other variable can make it fail,
    whatever it holds. *)
Theorem config_loads_iff_credentials (env : environment) :
  returns (load parseInt env)
  <-> is_Some (Signaling.nonempty (env !! "ASTERISK_HOST"))
      /\ is_Some (Signaling.nonempty (env !! "ASTERISK_USER"))
      /\ is_Some (Signaling.nonempty (env !! "ASTERISK_PASSWORD")).
Proof.
  unfold returns, load. rewrite !getEnv_required. split.
  - intros [c H].
    destruct (Signaling.nonempty (env !! "ASTERISK_HOST")); [| done]. cbn [bind] in H.
    destruct (getEnvNumber _ _ _ _); [| done]. cbn [bind] in H.
    destruct (Signaling.nonempty (env !! "ASTERISK_USER")); [| done]. cbn [bind] in H.
    destruct (Signaling.nonempty (env !! "ASTERISK_PASSWORD")); [| done].
    by repeat split.
  - intros ([h ->] & [u ->] & [p ->]). cbn [bind].
    repeat defaulted. by eexists.
Qed.

(** X30. On a configuration that loaded, validation can fail for one
    reason only: both RTP ports are numbers and the minimum is not
    below the maximum. Its three presence checks can never fire, and
    a port variable that is no number passes. *)
Theorem loaded_config_fails_only_on_ports (env : environment) (c : Config) :
  load parseInt env = Ok c ->
  validateConfig c
  = if geq (rtp_portMin c) (rtp_portMax c)
    then Error (JsError ("Configuration validation failed:" +:+ newline
                         +:+ "RTP_PORT_MIN must be less than RTP_PORT_MAX"))
    else Ok tt.
Proof.
  unfold load. intros H.
  repeat match type of H with
         | bind ?m _ = _ =>
             let E := fresh "E" in destruct m eqn:E; cbn [bind] in H; [| discriminate]
         end.
  injection H as <-. unfold validateConfig, errors. cbn.
  repeat match goal with
         | E : getEnv _ _ _ = Ok ?v |- context [decide (?v = "")] =>
             rewrite (decide_False (P := v = "")) by apply (getEnv_Ok _ _ _ _ E)
         end.
  cbn. by destruct (geq _ _).
Qed.

End ConfigurationProperties.

Lemma loaded_config_fails_only_on_ports_witness :
  Configuration.validateConfig Samples.sample_configuration
  = Error (JsError ("Configuration validation failed:" +:+ Configuration.newline
                    +:+ "RTP_PORT_MIN must be less than RTP_PORT_MAX")).
Proof.
  apply (loaded_config_fails_only_on_ports Samples.parse_20000 Samples.sample_environment
           Samples.sample_configuration).
  reflexivity.
Defined.
